(** * Study Eyes: the live telemetry pipeline

    A shallow embedding of the three socket services of the frontend

      - [RealWebSocketService]  (frontend/src/services/realWebSocketService.ts)
      - [WebSocketService]      (second class of the same file)
      - [MockWebSocketService]  (the synthetic generator),

    and of their two consumers, the provider of [contexts/WebSocketContext.tsx]
    and the session page of [components/StudySession.jsx], as far as they
    are state updates and pure functions.

    Conventions of the embedding.

    - A JavaScript [number] that the code only copies, compares, clamps or
      combines with [+ - * /] is a rational [Q]: every finite double is a
      rational, and [Math.max], [Math.min], [<] and [>] agree with the
      rational order on finite doubles.  Rounding of [+ - * /] is not
      modelled: a value the program computes in doubles is here the exact
      rational, so the two can differ in the last bit, and with them a
      comparison or a [Math.round] whose argument sits at a threshold or a
      half ([Math.round(attention_score * 100)] of the generator is the one
      place where this moves a published number by a whole unit).  Ranges are
      not affected.  Counters and millisecond delays are [Z].
    - [Map<string, Function[]>] is [gmap string (list Callback)].  A callback
      is identified by a number (JavaScript compares functions by identity);
      whether it throws on a given event and payload is read from an oracle
      [throws].  Callbacks that call back into the service are not modelled.
    - Every method returns the new state together with the list of effects it
      performed, in program order: callback invocations, console output,
      commands written to the socket, timers armed.  [Publish] marks each
      call of [emit], whether or not anybody listens.  Console messages are
      shortened to their fixed text.
    - The socket library is outside the repository: the events it delivers
      and the firing of timers are inputs, given as operations.
    - [Math.random], [Math.sin] and the clock are inputs of a tick. *)

From Stdlib Require Import ZArith QArith Qminmax Qround Lia Lqa List Sorted.
From stdpp Require Import base option list strings pretty gmap.
Import ListNotations.

Local Open Scope Z_scope.
Local Open Scope string_scope.
Local Open Scope list_scope.

(** ** Payloads carried by the events *)

(** The object built by the [tracking_data] handler ([transformedData]). *)
Record Gaze := { gaze_x : Q; gaze_y : Q }.
Record Eyes := { left_ratio : Q; right_ratio : Q; eyes_blink_detected : bool }.
Record HeadPose := { pitch : Q; yaw : Q; roll : Q }.

(** [interface TrackingData]: the frame as it arrives on the wire. *)
Record TrackingData := {
  session_id : string;
  timestamp : string;
  attention_score : Q;
  focus_level : string;
  distraction_type : string;
  fatigue_level : string;
  eye_strain_level : Q;
  posture_score : Q;
  gaze_direction_x : Q;
  gaze_direction_y : Q;
  left_eye_ratio : Q;
  right_eye_ratio : Q;
  blink_detected : bool;
  head_pitch : Q;
  head_yaw : Q;
  head_roll : Q;
  is_focused : bool;
  (* data?.face_landmarks, an opaque value: [None] when [data] or the field
     is absent or null; the empty string stands for the falsy values *)
  data_face_landmarks : option string
}.

(** A wire frame with the given time stamp, attention, eye strain, posture
    and distraction, the other fields at rest. *)
Definition wire_frame (ts : string) (attention eye_strain posture : Q)
    (distraction : string) : TrackingData :=
  {| session_id := "s1"; timestamp := ts; attention_score := attention;
     focus_level := "high"; distraction_type := distraction; fatigue_level := "low";
     eye_strain_level := eye_strain; posture_score := posture;
     gaze_direction_x := 0; gaze_direction_y := 0;
     left_eye_ratio := 0.3; right_eye_ratio := 0.3; blink_detected := false;
     head_pitch := 0; head_yaw := 0; head_roll := 0; is_focused := true;
     data_face_landmarks := None |}.

Record TransformedData := {
  t_timestamp : string;
  t_attention_score : Q;
  t_focus_level : string;
  t_distraction_type : string;
  t_fatigue_level : string;
  t_eye_strain_level : Q;
  t_posture_score : Q;
  t_gaze : Gaze;
  t_eyes : Eyes;
  t_head_pose : HeadPose;
  t_face_landmarks : option string;
  t_is_focused : bool
}.

(** The object built by [generateMockFocusData] ([mockData]). *)
Record MockData := {
  m_timestamp : Z;
  m_attention_score : Q;
  m_eye_strain_level : Q;
  m_posture_score : Q;
  m_blink_rate : Q;
  m_gaze_position : Gaze;
  m_screen_center : bool;
  m_peripheral : bool;
  m_session_active : bool
}.

Inductive AlertType := low_attention | distraction | eye_strain | posture.
Inductive Severity := info | warning | error.

(** The alert's time stamp: the frame's string on the live path, a clock
    reading on the synthetic path. *)
Inductive Stamp := StampWire (s : string) | StampClock (t : Z).

Record Alert := {
  a_type : AlertType;
  a_message : string;
  a_severity : Severity;
  a_timestamp : Stamp;
  a_id : option Z
}.

Inductive Payload :=
| PConnectionStatus (connected : bool) (reason : option string)
| PConnectionError (err : string)
| PEyeTracking (d : TransformedData)
| PMockTracking (d : MockData)
| PFocusScore (score : Q)
| PAlert (a : Alert)
| PTrackingStatus (status : string) (data : string)
| PSession (sid : string)
| POpaque (data : string)
| PUndefined.

(** ** Effects *)

Definition Callback := nat.

Inductive Command := start_tracking | stop_tracking | pause_tracking | resume_tracking.

Inductive Effect :=
| Publish (event : string) (data : Payload)
| Invoke (event : string) (cb : Callback) (data : Payload)
| ConsoleLog (msg : string)
| ConsoleWarn (msg : string)
| ConsoleError (msg : string)
| SocketCreate
| SocketConnect
| SocketDisconnect
| SocketEmit (c : Command) (sid : string) (token : option (option string))
| SetTimeout (delay : Z)
| SetInterval (handle : nat) (period : Z)
| ClearInterval (handle : nat).

(** ** Arrays of callbacks *)

(** [Array.prototype.indexOf]: position of the first element identical to [cb]. *)
Fixpoint indexOf (l : list Callback) (cb : Callback) : option nat :=
  match l with
  | [] => None
  | x :: r => if decide (x = cb) then Some 0%nat else S <$> indexOf r cb
  end.

(** [listeners.splice(index, 1)]. *)
Definition splice1 (l : list Callback) (index : nat) : list Callback :=
  take index l ++ drop (S index) l.

(** The body shared by the three [off(event, callback)]:
    [index = indexOf(callback); if (index > -1) splice(index, 1)]. *)
Definition remove_first (l : list Callback) (cb : Callback) : list Callback :=
  match indexOf l cb with
  | Some index => splice1 l index
  | None => l
  end.

(** The body shared by the three [on(event, callback)]:
    [if (!map.has(event)) map.set(event, []); map.get(event).push(callback)]. *)
Definition push_listener (m : gmap string (list Callback)) (event : string)
    (cb : Callback) : gmap string (list Callback) :=
  let m1 := match m !! event with
            | Some _ => m
            | None => <[event := []]> m
            end in
  alter (fun l => l ++ [cb]) event m1.

(** [off(event, callback)] on the map: the array of [event], when there is
    one, loses the first occurrence of [callback]. *)
Definition drop_listener (m : gmap string (list Callback)) (event : string)
    (cb : Callback) : gmap string (list Callback) :=
  match m !! event with
  | Some l => <[event := remove_first l cb]> m
  | None => m
  end.

(** The callbacks registered for [event], in the array's order; none when
    the map has no entry. *)
Definition registered (m : gmap string (list Callback)) (event : string) : list Callback :=
  default [] (m !! event).


(** Whether a callback throws when called for [event] with [data]. *)
Definition Oracle := string -> Callback -> Payload -> bool.

(** Two oracles: no callback ever throws; callback 1 throws on every call. *)
Definition quiet : Oracle := fun _ _ _ => false.
Definition first_throws : Oracle := fun _ cb _ => Nat.eqb cb 1.

(** [x || d] on strings: the empty string and [undefined] are falsy. *)
Definition or_default (x : option string) (d : string) : string :=
  match x with
  | Some s => if decide (s = "") then d else s
  | None => d
  end.

(** [x || null] on an opaque value: [undefined], [null] and the falsy values
    give [null]. *)
Definition or_null (x : option string) : option string :=
  match x with
  | Some s => if decide (s = "") then None else Some s
  | None => None
  end.

Definition timeouts (tr : list Effect) : list Z :=
  omap (fun e => match e with SetTimeout d => Some d | _ => None end) tr.

Definition published (tr : list Effect) : list (string * Payload) :=
  omap (fun e => match e with Publish ev d => Some (ev, d) | _ => None end) tr.

Definition invoked (tr : list Effect) : list (string * Callback * Payload) :=
  omap (fun e => match e with Invoke ev cb d => Some (ev, cb, d) | _ => None end) tr.




Definition commands (tr : list Effect) : list Command :=
  omap (fun e => match e with SocketEmit c _ _ => Some c | _ => None end) tr.

(** The frames of the generator published in a trace, and the intervals armed. *)
Definition frames (tr : list Effect) : list MockData :=
  omap (fun e => match e with Publish _ (PMockTracking d) => Some d | _ => None end) tr.

Definition intervals (tr : list Effect) : list nat :=
  omap (fun e => match e with SetInterval h _ => Some h | _ => None end) tr.

(** How many times a trace calls [socket.connect()]. *)
Definition connects (tr : list Effect) : nat :=
  length (omap (fun e => match e with SocketConnect => Some tt | _ => None end) tr).

Definition is_SocketConnect (e : Effect) : bool :=
  match e with SocketConnect => true | _ => false end.

Definition alerts (tr : list Effect) : list Alert :=
  omap (fun e => match e with Publish _ (PAlert a) => Some a | _ => None end) tr.

Global Instance AlertType_eq_dec : EqDecision AlertType.
Proof. solve_decision. Defined.

(** How many alerts of kind [k] a trace publishes, and the kind and severity
    of each alert it publishes. *)
Definition count_kind (k : AlertType) (tr : list Effect) : nat :=
  length (filter (fun a => a_type a = k) (alerts tr)).

Definition kinds (tr : list Effect) : list (AlertType * Severity) :=
  map (fun a => (a_type a, a_severity a)) (alerts tr).

(** The alert rules as the specification words them, for a frame with
    attention on the scale [0,1]: the kinds and severities it expects. *)
Definition spec_alert_kinds (attentionScore eyeStrainLevel postureScore : Q)
    (distractionType : string) : list (AlertType * Severity) :=
  (if Qlt_le_dec attentionScore 0.6 then [(low_attention, warning)] else [])
  ++ (if Qlt_le_dec 20 eyeStrainLevel then [(eye_strain, warning)] else [])
  ++ (if Qlt_le_dec postureScore 70 then [(posture, warning)] else [])
  ++ (if decide (distractionType = "none") then [] else [(distraction, info)]).

(** The live frames published in a trace. *)
Definition live_frames (tr : list Effect) : list TransformedData :=
  omap (fun e => match e with Publish _ (PEyeTracking d) => Some d | _ => None end) tr.


(** ** RealWebSocketService *)

Module Real.

Record State := {
  socket : bool;                       (* [this.socket !== null] *)
  eventListeners : gmap string (list Callback);
  isConnected : bool;
  reconnectAttempts : Z;
  maxReconnectAttempts : Z;
  reconnectDelay : Z
}.

Definition set_socket (b : bool) (st : State) : State :=
  {| socket := b; eventListeners := eventListeners st; isConnected := isConnected st;
     reconnectAttempts := reconnectAttempts st;
     maxReconnectAttempts := maxReconnectAttempts st; reconnectDelay := reconnectDelay st |}.

Definition set_eventListeners (m : gmap string (list Callback)) (st : State) : State :=
  {| socket := socket st; eventListeners := m; isConnected := isConnected st;
     reconnectAttempts := reconnectAttempts st;
     maxReconnectAttempts := maxReconnectAttempts st; reconnectDelay := reconnectDelay st |}.

Definition set_isConnected (b : bool) (st : State) : State :=
  {| socket := socket st; eventListeners := eventListeners st; isConnected := b;
     reconnectAttempts := reconnectAttempts st;
     maxReconnectAttempts := maxReconnectAttempts st; reconnectDelay := reconnectDelay st |}.

Definition set_reconnectAttempts (n : Z) (st : State) : State :=
  {| socket := socket st; eventListeners := eventListeners st; isConnected := isConnected st;
     reconnectAttempts := n;
     maxReconnectAttempts := maxReconnectAttempts st; reconnectDelay := reconnectDelay st |}.

(** The field initialisers of the class, before the constructor's [connect()]. *)
Definition fresh : State :=
  {| socket := false; eventListeners := ∅; isConnected := false;
     reconnectAttempts := 0; maxReconnectAttempts := 5; reconnectDelay := 1000 |}.

(** What reaches the service: the socket's events, the reconnect timer, and
    the public methods. *)
Inductive Op :=
| SockConnect
| SockDisconnect (reason : string)
| SockConnectError (message : option string)
| SockConnected (data : string)
| SockTrackingData (d : TrackingData)
| SockTrackingStarted (data : string)
| SockTrackingStopped (data : string)
| SockTrackingPaused (data : string)
| SockTrackingResumed (data : string)
| SockError (message : option string)
| ReconnectTimer (io_ok : bool)
| StartTracking (sessionId token : string)
| StopTracking (sessionId : string)
| PauseTracking (sessionId : string)
| ResumeTracking (sessionId : string)
| On (event : string) (cb : Callback)
| Off (event : string) (cb : Callback)
| Disconnect.


(** The operation that adds a listener: [on]. *)
Definition subscribes (op : Op) : bool :=
  match op with On _ _ => true | _ => false end.

(** The operation that registers [cb] for [event]. *)
Definition subscribes_to (event : string) (cb : Callback) (op : Op) : bool :=
  match op with
  | On e c => bool_decide (e = event) && bool_decide (c = cb)
  | _ => false
  end.

(** The events of the service and the shape of the payload of each. *)
Definition well_shaped (event : string) (data : Payload) : bool :=
  match data with
  | PConnectionStatus _ _ => bool_decide (event = "connection_status")
  | PConnectionError _ => bool_decide (event = "connection_error")
  | PEyeTracking _ => bool_decide (event = "eye_tracking_data")
  | PFocusScore _ => bool_decide (event = "focus_score_update")
  | PAlert _ => bool_decide (event = "attention_alert")
  | PTrackingStatus _ _ => bool_decide (event = "tracking_status")
  | _ => false
  end.

(** The operations that can take away the registration of [cb] for [event]. *)
Definition removes (event : string) (cb : Callback) (op : Op) : bool :=
  match op with
  | Off e c => bool_decide (e = event) && bool_decide (c = cb)
  | Disconnect => true
  | _ => false
  end.

Section Service.
Variable throws : Oracle.
(* [localStorage.getItem('token')] *)
Variable stored_token : option string.

(** [emit]: each listener is called inside its own [try]; a throw is logged. *)
Definition call_caught (event : string) (data : Payload) (cb : Callback) : list Effect :=
  Invoke event cb data ::
  (if throws event cb data
   then [ConsoleError ("Error in event listener for " ++ event ++ ":")]
   else []).

Definition emit (st : State) (event : string) (data : Payload) : list Effect :=
  Publish event data ::
  match eventListeners st !! event with
  | Some listeners => flat_map (call_caught event data) listeners
  | None => []
  end.

Definition on (st : State) (event : string) (cb : Callback) : State :=
  set_eventListeners (push_listener (eventListeners st) event cb) st.

Definition off (st : State) (event : string) (cb : Callback) : State :=
  set_eventListeners (drop_listener (eventListeners st) event cb) st.

(** [connect()]: [io(...)] then [setupEventListeners()]; a throw of [io] is
    caught and published. *)
Definition connect (st : State) (io_ok : bool) : State * list Effect :=
  if io_ok then (set_socket true st, [SocketCreate])
  else (st, ConsoleError "Failed to create WebSocket connection:"
            :: emit st "connection_error" (PConnectionError "Failed to create connection")).

(** The constructor. *)
Definition new (io_ok : bool) : State * list Effect := connect fresh io_ok.

Definition transform (data : TrackingData) : TransformedData :=
  {| t_timestamp := timestamp data;
     t_attention_score := attention_score data;
     t_focus_level := focus_level data;
     t_distraction_type := distraction_type data;
     t_fatigue_level := fatigue_level data;
     t_eye_strain_level := eye_strain_level data;
     t_posture_score := posture_score data;
     t_gaze := {| gaze_x := gaze_direction_x data; gaze_y := gaze_direction_y data |};
     t_eyes := {| left_ratio := left_eye_ratio data; right_ratio := right_eye_ratio data;
                  eyes_blink_detected := blink_detected data |};
     t_head_pose := {| pitch := head_pitch data; yaw := head_yaw data; roll := head_roll data |};
     t_face_landmarks := or_null (data_face_landmarks data);
     t_is_focused := is_focused data |}.

Definition low_attention_alert (data : TrackingData) : Alert :=
  {| a_type := low_attention;
     a_message := "Your attention level is low. Take a break or refocus.";
     a_severity := warning; a_timestamp := StampWire (timestamp data); a_id := None |}.

Definition distraction_alert (data : TrackingData) : Alert :=
  {| a_type := distraction;
     a_message := "Distraction detected: " ++ distraction_type data;
     a_severity := info; a_timestamp := StampWire (timestamp data); a_id := None |}.

Definition eye_strain_alert (data : TrackingData) : Alert :=
  {| a_type := eye_strain;
     a_message := "High eye strain detected. Consider taking a break.";
     a_severity := warning; a_timestamp := StampWire (timestamp data); a_id := None |}.

(** The [tracking_data] handler. *)
Definition on_tracking_data (st : State) (data : TrackingData) : list Effect :=
  emit st "eye_tracking_data" (PEyeTracking (transform data))
  ++ emit st "focus_score_update" (PFocusScore (attention_score data))
  ++ (if Qlt_le_dec (attention_score data) 60
      then emit st "attention_alert" (PAlert (low_attention_alert data)) else [])
  ++ (if decide (distraction_type data = "none") then []
      else emit st "attention_alert" (PAlert (distraction_alert data)))
  ++ (if Qlt_le_dec 20 (eye_strain_level data)
      then emit st "attention_alert" (PAlert (eye_strain_alert data)) else []).

(** The [disconnect] handler: the delay is computed when the timer is armed,
    the counter is incremented when it fires. *)
Definition on_disconnect (st : State) (reason : string) : State * list Effect :=
  let st1 := set_isConnected false st in
  (st1,
   ConsoleLog "Disconnected from WebSocket server:"
   :: emit st1 "connection_status" (PConnectionStatus false (Some reason))
   ++ (if decide (reconnectAttempts st1 < maxReconnectAttempts st1)
       then [SetTimeout (reconnectDelay st1 * reconnectAttempts st1)] else [])).

Definition reconnect_timer (st : State) (io_ok : bool) : State * list Effect :=
  let st1 := set_reconnectAttempts (reconnectAttempts st + 1) st in
  let '(st2, tr) := connect st1 io_ok in
  (st2, ConsoleLog "Reconnection attempt" :: tr).

Definition command (st : State) (c : Command) (sessionId : string)
    (token : option string) : State * list Effect :=
  if negb (socket st) || negb (isConnected st)
  then (st, [ConsoleError "WebSocket not connected"])
  else (st, [SocketEmit c sessionId (Some token)]).

Definition startTracking (st : State) (sessionId token : string) : State * list Effect :=
  if negb (socket st) || negb (isConnected st)
  then (st, ConsoleError "WebSocket not connected"
            :: emit st "connection_error" (PConnectionError "Not connected to server"))
  else (st, [SocketEmit start_tracking sessionId (Some (Some token))]).

Definition stopTracking (st : State) (sessionId : string) :=
  command st stop_tracking sessionId stored_token.
Definition pauseTracking (st : State) (sessionId : string) :=
  command st pause_tracking sessionId stored_token.
Definition resumeTracking (st : State) (sessionId : string) :=
  command st resume_tracking sessionId stored_token.

Definition disconnect (st : State) : State * list Effect :=
  let '(st1, tr) := if socket st then (set_socket false st, [SocketDisconnect]) else (st, []) in
  (set_eventListeners ∅ (set_isConnected false st1), tr).

Definition getConnectionStatus (st : State) : bool := isConnected st.

Definition step (st : State) (op : Op) : State * list Effect :=
  match op with
  | SockConnect =>
      let st1 := set_reconnectAttempts 0 (set_isConnected true st) in
      (st1, ConsoleLog "Connected to WebSocket server"
            :: emit st1 "connection_status" (PConnectionStatus true None))
  | SockDisconnect reason => on_disconnect st reason
  | SockConnectError message =>
      (st, ConsoleError "WebSocket connection error:"
           :: emit st "connection_error" (PConnectionError (or_default message "Connection failed")))
  | SockConnected _ => (st, [ConsoleLog "Server confirmed connection:"])
  | SockTrackingData d => (st, on_tracking_data st d)
  | SockTrackingStarted data =>
      (st, ConsoleLog "Tracking started:" :: emit st "tracking_status" (PTrackingStatus "started" data))
  | SockTrackingStopped data =>
      (st, ConsoleLog "Tracking stopped:" :: emit st "tracking_status" (PTrackingStatus "stopped" data))
  | SockTrackingPaused data =>
      (st, ConsoleLog "Tracking paused:" :: emit st "tracking_status" (PTrackingStatus "paused" data))
  | SockTrackingResumed data =>
      (st, ConsoleLog "Tracking resumed:" :: emit st "tracking_status" (PTrackingStatus "resumed" data))
  | SockError message =>
      (st, ConsoleError "WebSocket error:"
           :: emit st "connection_error" (PConnectionError (or_default message "Unknown error")))
  | ReconnectTimer io_ok => reconnect_timer st io_ok
  | StartTracking sessionId token => startTracking st sessionId token
  | StopTracking sessionId => stopTracking st sessionId
  | PauseTracking sessionId => pauseTracking st sessionId
  | ResumeTracking sessionId => resumeTracking st sessionId
  | On event cb => (on st event cb, [])
  | Off event cb => (off st event cb, [])
  | Disconnect => disconnect st
  end.

(** A sequence of operations, effects concatenated in order. *)
Fixpoint run (st : State) (ops : list Op) : State * list Effect :=
  match ops with
  | [] => (st, [])
  | op :: rest =>
      let '(st1, tr1) := step st op in
      let '(st2, tr2) := run st1 rest in
      (st2, tr1 ++ tr2)
  end.

(** A transport that drops every connection: the service receives a
    [disconnect]; if the handler armed a timer, the timer fires and
    [connect()] makes a new socket, which is dropped in turn.  The run stops
    when the handler arms no timer, or after [fuel] drops. *)
Fixpoint dropping_run (fuel : nat) (reason : string) (st : State) : State * list Effect :=
  match fuel with
  | O => (st, [])
  | S fuel' =>
      let '(st1, tr1) := step st (SockDisconnect reason) in
      match timeouts tr1 with
      | [] => (st1, tr1)
      | _ :: _ =>
          let '(st2, tr2) := step st1 (ReconnectTimer true) in
          let '(st3, tr3) := dropping_run fuel' reason st2 in
          (st3, tr1 ++ tr2 ++ tr3)
      end
  end.


End Service.
End Real.

(** ** WebSocketService *)

Module WS.

Record State := {
  socket : option bool;                (* [null], or the socket with its [connected] flag *)
  reconnectAttempts : Z;
  maxReconnectAttempts : Z;
  reconnectDelay : Z;
  listeners : gmap string (list Callback)
}.

Definition set_socket (s : option bool) (st : State) : State :=
  {| socket := s; reconnectAttempts := reconnectAttempts st;
     maxReconnectAttempts := maxReconnectAttempts st; reconnectDelay := reconnectDelay st;
     listeners := listeners st |}.

Definition set_reconnectAttempts (n : Z) (st : State) : State :=
  {| socket := socket st; reconnectAttempts := n;
     maxReconnectAttempts := maxReconnectAttempts st; reconnectDelay := reconnectDelay st;
     listeners := listeners st |}.

Definition set_listeners (m : gmap string (list Callback)) (st : State) : State :=
  {| socket := socket st; reconnectAttempts := reconnectAttempts st;
     maxReconnectAttempts := maxReconnectAttempts st; reconnectDelay := reconnectDelay st;
     listeners := m |}.

(** The state left by the constructor: [connect()] has created a socket that
    is not connected yet. *)
Definition new : State * list Effect :=
  ({| socket := Some false; reconnectAttempts := 0; maxReconnectAttempts := 5;
      reconnectDelay := 1000; listeners := ∅ |}, [SocketCreate]).

(** [socket?.connected] *)
Definition connected (st : State) : bool :=
  match socket st with Some c => c | None => false end.

(** A method or handler either returns or lets an exception escape. *)
Inductive Outcome := Returned | Threw.

Inductive Op :=
| SockConnect
| SockDisconnect (reason : string)
| SockConnectError (message : string)
| SockForward (event : string) (data : string)
| SockError (data : string)
| ReconnectTimer
| StartTracking (sessionId token : string)
| StopTracking (sessionId : string)
| PauseTracking (sessionId : string)
| ResumeTracking (sessionId : string)
| On (event : string) (cb : Callback)
| Off (event : string) (cb : option Callback)
| Disconnect
| Reconnect.

(** The two socket events that lead to [handleReconnection]. *)
Definition is_failure (op : Op) : bool :=
  match op with SockDisconnect _ | SockConnectError _ => true | _ => false end.

(** The operations that can take away the registration of [cb] for [event]:
    [off] with that callback, or with none.  [disconnect()] is not one. *)
Definition removes (event : string) (cb : Callback) (op : Op) : bool :=
  match op with
  | Off e (Some c) => bool_decide (e = event) && bool_decide (c = cb)
  | Off e None => bool_decide (e = event)
  | _ => false
  end.

(** The operation that registers [cb] for [event]. *)
Definition subscribes_to (event : string) (cb : Callback) (op : Op) : bool :=
  match op with
  | On e c => bool_decide (e = event) && bool_decide (c = cb)
  | _ => false
  end.

(** The events that [setupEventHandlers] forwards unchanged. *)
Definition forwarded : list string :=
  ["eye_tracking_data"; "attention_alert"; "focus_score_update"; "session_started";
   "session_paused"; "session_resumed"; "session_ended"; "analytics_update"].

Section Service.
Variable throws : Oracle.

(** [callbacks.forEach(callback => callback(data))]: no [try]; the first
    throw ends the loop and escapes. *)
Fixpoint call_all (event : string) (data : Payload) (callbacks : list Callback)
    : Outcome * list Effect :=
  match callbacks with
  | [] => (Returned, [])
  | cb :: rest =>
      if throws event cb data then (Threw, [Invoke event cb data])
      else let '(o, tr) := call_all event data rest in (o, Invoke event cb data :: tr)
  end.

Definition emit (st : State) (event : string) (data : Payload) : Outcome * list Effect :=
  match listeners st !! event with
  | Some callbacks =>
      let '(o, tr) := call_all event data callbacks in (o, Publish event data :: tr)
  | None => (Returned, [Publish event data])
  end.

Definition handleReconnection (st : State) : State * Outcome * list Effect :=
  if decide (maxReconnectAttempts st <= reconnectAttempts st)
  then
    let '(o, tr) := emit st "max_reconnect_attempts_reached" PUndefined in
    (st, o, ConsoleError "Max reconnection attempts reached" :: tr)
  else
    let st1 := set_reconnectAttempts (reconnectAttempts st + 1) st in
    let delay := reconnectDelay st1 * 2 ^ (reconnectAttempts st1 - 1) in
    (st1, Returned, [ConsoleLog "Attempting to reconnect"; SetTimeout delay]).

(** Sequencing: what follows runs only when what precedes returned. *)
Definition and_then (first : State * Outcome * list Effect)
    (next : State -> State * Outcome * list Effect) : State * Outcome * list Effect :=
  match first with
  | (st, Threw, tr) => (st, Threw, tr)
  | (st, Returned, tr) => let '(st1, o, tr1) := next st in (st1, o, tr ++ tr1)
  end.

Definition emitting (st : State) (event : string) (data : Payload)
    : State * Outcome * list Effect :=
  let '(o, tr) := emit st event data in (st, o, tr).

Definition logging (st : State) (e : Effect) : State * Outcome * list Effect :=
  (st, Returned, [e]).

Definition command (st : State) (c : Command) (sessionId : string)
    (token : option (option string)) (warning : string) : State * Outcome * list Effect :=
  if connected st then (st, Returned, [SocketEmit c sessionId token])
  else (st, Returned, [ConsoleWarn warning]).

Definition on (st : State) (event : string) (cb : Callback) : State :=
  set_listeners (push_listener (listeners st) event cb) st.

Definition off (st : State) (event : string) (callback : option Callback) : State :=
  match callback with
  | Some cb => set_listeners (drop_listener (listeners st) event cb) st
  | None => set_listeners (delete event (listeners st)) st
  end.

Definition disconnect (st : State) : State * Outcome * list Effect :=
  match socket st with
  | Some _ => (set_socket None st, Returned, [SocketDisconnect])
  | None => (st, Returned, [])
  end.

Definition reconnect (st : State) : State * Outcome * list Effect :=
  and_then (disconnect st) (fun st1 =>
    (set_socket (Some false) (set_reconnectAttempts 0 st1), Returned, [SocketCreate])).

(** The socket library keeps [socket.connected]: it is true when the
    [connect] handler runs and false when the [disconnect] handler runs. *)
Definition mark (c : bool) (st : State) : State :=
  match socket st with Some _ => set_socket (Some c) st | None => st end.

Definition step (st : State) (op : Op) : State * Outcome * list Effect :=
  match op with
  | SockConnect =>
      and_then (logging (mark true st) (ConsoleLog "Connected to WebSocket server")) (fun st1 =>
      emitting (set_reconnectAttempts 0 st1) "connection_status" (PConnectionStatus true None))
  | SockDisconnect reason =>
      and_then (logging (mark false st) (ConsoleLog "Disconnected from WebSocket server:")) (fun st1 =>
      and_then (emitting st1 "connection_status" (PConnectionStatus false (Some reason))) (fun st2 =>
      if decide (reason = "io server disconnect") then (st2, Returned, [])
      else handleReconnection st2))
  | SockConnectError message =>
      and_then (logging (mark false st) (ConsoleError "WebSocket connection error:")) (fun st1 =>
      and_then (emitting st1 "connection_error" (PConnectionError message))
      handleReconnection)
  | SockForward event data =>
      if decide (event ∈ forwarded) then emitting st event (POpaque data)
      else (st, Returned, [])
  | SockError data =>
      and_then (logging st (ConsoleError "WebSocket error:")) (fun st1 =>
      emitting st1 "error" (POpaque data))
  | ReconnectTimer =>
      match socket st with
      | Some _ => (st, Returned, [SocketConnect])
      | None => (st, Returned, [])
      end
  | StartTracking sessionId token =>
      command st start_tracking sessionId (Some (Some token))
        "WebSocket not connected. Cannot start tracking."
  | StopTracking sessionId =>
      command st stop_tracking sessionId None "WebSocket not connected. Cannot stop tracking."
  | PauseTracking sessionId =>
      command st pause_tracking sessionId None "WebSocket not connected. Cannot pause tracking."
  | ResumeTracking sessionId =>
      command st resume_tracking sessionId None "WebSocket not connected. Cannot resume tracking."
  | On event cb => (on st event cb, Returned, [])
  | Off event cb => (off st event cb, Returned, [])
  | Disconnect => disconnect st
  | Reconnect => reconnect st
  end.

(** No subscriber of [connection_error] throws on the error [message]. *)
Definition error_listeners_quiet (message : string) (st : State) : Prop :=
  forall cb, cb ∈ registered (listeners st) "connection_error" ->
             throws "connection_error" cb (PConnectionError message) = false.

(** A transport that fails every connect attempt: the attempt in flight ends
    in a [connect_error]; if the handler armed a timer, the timer fires,
    [socket.connect()] starts the next attempt, and so on.  The run stops
    when a handler arms no timer or fails, or when [fuel] attempts were
    made. *)
Fixpoint failing_run (fuel : nat) (message : string) (st : State) : State * list Effect :=
  match fuel with
  | O => (st, [])
  | S fuel' =>
      match step st (SockConnectError message) with
      | (st1, Returned, tr1) =>
          match timeouts tr1 with
          | [] => (st1, tr1)
          | _ :: _ =>
              match step st1 ReconnectTimer with
              | (st2, Returned, tr2) =>
                  if existsb is_SocketConnect tr2
                  then let '(st3, tr3) := failing_run fuel' message st2 in
                       (st3, tr1 ++ tr2 ++ tr3)
                  else (st2, tr1 ++ tr2)
              | (st2, Threw, tr2) => (st2, tr1 ++ tr2)
              end
          end
      | (st1, Threw, tr1) => (st1, tr1)
      end
  end.

(** A sequence of operations, effects concatenated in order.  An exception
    that leaves a handler goes to the socket library; the service keeps its
    state and the next operation finds it. *)
Fixpoint run (st : State) (ops : list Op) : State * list Effect :=
  match ops with
  | [] => (st, [])
  | op :: rest =>
      let '(st1, _, tr1) := step st op in
      let '(st2, tr2) := run st1 rest in
      (st2, tr1 ++ tr2)
  end.

End Service.
End WS.

(** ** MockWebSocketService *)

(** [x < y] on numbers, as a boolean. *)
Definition Qltb (x y : Q) : bool := if Qlt_le_dec x y then true else false.

(** [Math.round] of an exact number: the nearest integer, halves upwards. *)
Definition Mround (x : Q) : Z := Qfloor (x + (1 # 2)).

(** What a tick reads from outside: the successive readings of the clock
    ([Date.now()], [new Date()]) and the successive draws of [Math.random()]. *)
Record Tick := { clock : nat -> Z; random : nat -> Q }.

Module Mock.

Record State := {
  eventHandlers : gmap string (list Callback);
  isConnectionActive : bool;
  focusSimulationInterval : option nat;
  sessionActive : bool;
  (* the runtime's timer table: intervals armed and not cleared, next handle *)
  live : list nat;
  next : nat
}.

Definition set_eventHandlers (m : gmap string (list Callback)) (st : State) : State :=
  {| eventHandlers := m; isConnectionActive := isConnectionActive st;
     focusSimulationInterval := focusSimulationInterval st; sessionActive := sessionActive st;
     live := live st; next := next st |}.

Definition set_isConnectionActive (b : bool) (st : State) : State :=
  {| eventHandlers := eventHandlers st; isConnectionActive := b;
     focusSimulationInterval := focusSimulationInterval st; sessionActive := sessionActive st;
     live := live st; next := next st |}.

Definition set_sessionActive (b : bool) (st : State) : State :=
  {| eventHandlers := eventHandlers st; isConnectionActive := isConnectionActive st;
     focusSimulationInterval := focusSimulationInterval st; sessionActive := b;
     live := live st; next := next st |}.

(** [this.focusSimulationInterval = setInterval(..., 1000)] *)
Definition arm (st : State) : State * list Effect :=
  ({| eventHandlers := eventHandlers st; isConnectionActive := isConnectionActive st;
      focusSimulationInterval := Some (next st); sessionActive := sessionActive st;
      live := next st :: live st; next := S (next st) |},
   [SetInterval (next st) 1000]).

(** [if (this.focusSimulationInterval) { clearInterval(...); ... = null }] *)
Definition disarm (st : State) : State * list Effect :=
  match focusSimulationInterval st with
  | Some h =>
      ({| eventHandlers := eventHandlers st; isConnectionActive := isConnectionActive st;
          focusSimulationInterval := None; sessionActive := sessionActive st;
          live := filter (fun h' => h' ≠ h) (live st); next := next st |},
       [ClearInterval h])
  | None => (st, [])
  end.

Definition fresh : State :=
  {| eventHandlers := ∅; isConnectionActive := false; focusSimulationInterval := None;
     sessionActive := false; live := []; next := 1%nat |}.

Inductive Op :=
| ConnectTimer
| StartTracking (sessionId token : string)
| StopTracking (sessionId : string)
| PauseTracking (sessionId : string)
| ResumeTracking (sessionId : string)
| IntervalFires (handle : nat) (tk : Tick)
| On (event : string) (cb : Callback)
| Off (event : string) (cb : option Callback)
| Disconnect.

(** The interval [h] is armed, is not the one the service remembers, and was
    handed out before the next handle. *)
Definition forgotten (h : nat) (st : State) : Prop :=
  h ∈ live st /\ (h < next st)%nat /\ focusSimulationInterval st <> Some h.

Definition starts (op : Op) : bool :=
  match op with StartTracking _ _ => true | _ => false end.

Section Service.
Variable throws : Oracle.
Variable Msin : Q -> Q.

Definition call_caught (event : string) (data : Payload) (cb : Callback) : list Effect :=
  Invoke event cb data ::
  (if throws event cb data then [ConsoleError ("Error in " ++ event ++ " callback:")] else []).

Definition emit (st : State) (event : string) (data : Payload) : list Effect :=
  Publish event data ::
  match eventHandlers st !! event with
  | Some callbacks => flat_map (call_caught event data) callbacks
  | None => []
  end.

Definition on (st : State) (event : string) (cb : Callback) : State :=
  set_eventHandlers (push_listener (eventHandlers st) event cb) st.

Definition off (st : State) (event : string) (callback : option Callback) : State :=
  match callback with
  | Some cb => set_eventHandlers (drop_listener (eventHandlers st) event cb) st
  | None => set_eventHandlers (delete event (eventHandlers st)) st
  end.

Definition startTracking (st : State) (sessionId token : string) : State * list Effect :=
  let st1 := set_sessionActive true st in
  let '(st2, tr) := arm st1 in
  (st2, ConsoleLog "Starting mock tracking for session:"
        :: emit st1 "session_started" (PSession sessionId) ++ tr).

Definition stopTracking (st : State) (sessionId : string) : State * list Effect :=
  let '(st1, tr) := disarm (set_sessionActive false st) in
  (st1, ConsoleLog "Stopping mock tracking for session:"
        :: tr ++ emit st1 "session_ended" (PSession sessionId)).

Definition pauseTracking (st : State) (sessionId : string) : State * list Effect :=
  let '(st1, tr) := disarm st in
  (st1, tr ++ emit st1 "session_paused" (PSession sessionId)).

Definition resumeTracking (st : State) (sessionId : string) : State * list Effect :=
  let '(st1, tr) := if sessionActive st then arm st else (st, []) in
  (st1, tr ++ emit st1 "session_resumed" (PSession sessionId)).

Definition disconnect (st : State) : State * list Effect :=
  disarm (set_isConnectionActive false st).

Definition mock_alert (ty : AlertType) (msg : string) (sev : Severity) (date now : Z) : Alert :=
  {| a_type := ty; a_message := msg; a_severity := sev;
     a_timestamp := StampClock date; a_id := Some now |}.

(** [if (cond && Math.random() < p) emit('attention_alert', {...})]: the
    draw is made only when [cond] holds, the clock is read twice only when
    the alert is built.  [r] and [c] count the draws and readings so far. *)
Definition gated_alert (st : State) (tk : Tick) (cond : bool) (p : Q)
    (mk : Z -> Z -> Alert) (r c : nat) : list Effect * nat * nat :=
  if cond then
    if Qlt_le_dec (random tk r) p
    then (emit st "attention_alert" (PAlert (mk (clock tk c) (clock tk (S c)))), S r, S (S c))
    else ([], S r, c)
  else ([], r, c).

Definition mock_frame (tk : Tick) : MockData :=
  let timestamp := clock tk 0 in
  let baseAttention := (75 + Msin (inject_Z timestamp / 20000) * 20)%Q in
  let noise := ((random tk 0 - 0.5) * 10)%Q in
  let attention_score := Qmax 0 (Qmin 1 ((baseAttention + noise) / 100)) in
  let eyeStrainBase := (15 + Msin (inject_Z timestamp / 30000) * 10)%Q in
  let eye_strain_level := Qmax 0 (Qmin 50 (eyeStrainBase + (random tk 1 - 0.5) * 5)) in
  let postureBase := (85 + Msin (inject_Z timestamp / 25000) * 10)%Q in
  let posture_score := Qmax 60 (Qmin 100 (postureBase + (random tk 2 - 0.5) * 5)) in
  {| m_timestamp := timestamp;
     m_attention_score := attention_score;
     m_eye_strain_level := eye_strain_level;
     m_posture_score := posture_score;
     m_blink_rate := (random tk 3 * 5 + 15)%Q;
     m_gaze_position := {| gaze_x := (0.5 + (random tk 4 - 0.5) * 0.3)%Q;
                           gaze_y := (0.5 + (random tk 5 - 0.5) * 0.3)%Q |};
     m_screen_center := Qltb 0.7 attention_score;
     m_peripheral := Qltb attention_score 0.5;
     m_session_active := true |}.

(** How many draws of [Math.random] a tick has made when it reaches the
    eye-strain test and the posture test: six for the frame, one more for
    each earlier test whose first operand held. *)
Definition draws_before_eye_strain (f : MockData) : nat :=
  if Qltb (m_attention_score f) 0.4 then 7%nat else 6%nat.

Definition draws_before_posture (f : MockData) : nat :=
  (draws_before_eye_strain f + if Qltb 30 (m_eye_strain_level f) then 1 else 0)%nat.

Definition generateMockFocusData (st : State) (tk : Tick) : list Effect :=
  if negb (sessionActive st) then [] else
  let mockData := mock_frame tk in
  let '(tr1, r1, c1) :=
    gated_alert st tk (Qltb (m_attention_score mockData) 0.4) 0.15
      (mock_alert low_attention "Low attention detected - consider taking a short break" warning)
      6 1 in
  let '(tr2, r2, c2) :=
    gated_alert st tk (Qltb 30 (m_eye_strain_level mockData)) 0.1
      (mock_alert eye_strain
         "High eye strain detected - look away from screen for 20 seconds" error)
      r1 c1 in
  let '(tr3, _, _) :=
    gated_alert st tk (Qltb (m_posture_score mockData) 70) 0.08
      (mock_alert posture "Poor posture detected - adjust your sitting position" warning)
      r2 c2 in
  emit st "eye_tracking_data" (PMockTracking mockData)
  ++ emit st "focus_score_update"
       (PFocusScore (inject_Z (Mround (m_attention_score mockData * 100))))
  ++ tr1 ++ tr2 ++ tr3.

Definition step (st : State) (op : Op) : State * list Effect :=
  match op with
  | ConnectTimer =>
      let st1 := set_isConnectionActive true st in
      (st1, emit st1 "connection_status" (PConnectionStatus true None))
  | StartTracking sessionId token => startTracking st sessionId token
  | StopTracking sessionId => stopTracking st sessionId
  | PauseTracking sessionId => pauseTracking st sessionId
  | ResumeTracking sessionId => resumeTracking st sessionId
  | IntervalFires handle tk =>
      if decide (handle ∈ live st) then (st, generateMockFocusData st tk) else (st, [])
  | On event cb => (on st event cb, [])
  | Off event cb => (off st event cb, [])
  | Disconnect => disconnect st
  end.

Fixpoint run (st : State) (ops : list Op) : State * list Effect :=
  match ops with
  | [] => (st, [])
  | op :: rest =>
      let '(st1, tr1) := step st op in
      let '(st2, tr2) := run st1 rest in
      (st2, tr1 ++ tr2)
  end.

End Service.
End Mock.

(** The last [k] elements of a list, all of it when it is shorter. *)
Definition lastn {A} (k : nat) (l : list A) : list A := drop (length l - k) l.

(** ** WebSocketProvider (contexts/WebSocketContext.tsx) *)

(** The provider keeps five pieces of React state and registers one callback
    on each of seven events of [RealWebSocketService].  Each callback is a
    state update; none throws. *)
Module Provider.

Record State := {
  isConnected : bool;
  connectionError : option string;
  eyeTrackingData : option Payload;
  focusScore : Q;
  attentionAlerts : list Alert
}.

(** The [useState] initial values. *)
Definition initial : State :=
  {| isConnected := false; connectionError := None; eyeTrackingData := None;
     focusScore := 100; attentionAlerts := [] |}.

Definition set_attentionAlerts (l : list Alert) (st : State) : State :=
  {| isConnected := isConnected st; connectionError := connectionError st;
     eyeTrackingData := eyeTrackingData st; focusScore := focusScore st;
     attentionAlerts := l |}.

Definition set_connectionError (e : option string) (st : State) : State :=
  {| isConnected := isConnected st; connectionError := e;
     eyeTrackingData := eyeTrackingData st; focusScore := focusScore st;
     attentionAlerts := attentionAlerts st |}.

Definition set_isConnected (b : bool) (st : State) : State :=
  {| isConnected := b; connectionError := connectionError st;
     eyeTrackingData := eyeTrackingData st; focusScore := focusScore st;
     attentionAlerts := attentionAlerts st |}.

Definition set_eyeTrackingData (d : option Payload) (st : State) : State :=
  {| isConnected := isConnected st; connectionError := connectionError st;
     eyeTrackingData := d; focusScore := focusScore st;
     attentionAlerts := attentionAlerts st |}.

Definition set_focusScore (q : Q) (st : State) : State :=
  {| isConnected := isConnected st; connectionError := connectionError st;
     eyeTrackingData := eyeTrackingData st; focusScore := q;
     attentionAlerts := attentionAlerts st |}.

(** [prev.slice(-9)]: the last nine elements. *)
Definition slice_last9 (prev : list Alert) : list Alert :=
  drop (length prev - 9) prev.

(** [{...data, id: Date.now(), timestamp: data.timestamp || new Date().toISOString()}]:
    [now] is the reading of [Date.now()], [later] that of [new Date()], made
    only when the alert's own time stamp is falsy (an empty string). *)
Definition stamped (now later : Z) (data : Alert) : Alert :=
  {| a_type := a_type data; a_message := a_message data; a_severity := a_severity data;
     a_timestamp := match a_timestamp data with
                    | StampWire s => if decide (s = "") then StampClock later else StampWire s
                    | StampClock t => StampClock t
                    end;
     a_id := Some now |}.

(** The seven callbacks, by the event they are registered on.  A payload of
    another shape than the one the service publishes on the event leaves the
    state as it is. *)
Definition handle (now later : Z) (event : string) (data : Payload) (st : State) : State :=
  if decide (event = "connection_status") then
    match data with
    | PConnectionStatus connected reason =>
        let st1 := set_isConnected connected st in
        if negb connected && negb (bool_decide (or_default reason "" = ""))
        then set_connectionError
               (Some ("Connection lost: " ++ or_default reason "")%string) st1
        else if connected then set_connectionError None st1 else st1
    | _ => st
    end
  else if decide (event = "connection_error") then
    match data with PConnectionError err => set_connectionError (Some err) st | _ => st end
  else if decide (event = "eye_tracking_data") then set_eyeTrackingData (Some data) st
  else if decide (event = "focus_score_update") then
    match data with PFocusScore score => set_focusScore score st | _ => st end
  else if decide (event = "attention_alert") then
    match data with
    | PAlert a =>
        set_attentionAlerts (slice_last9 (attentionAlerts st) ++ [stamped now later a]) st
    | _ => st
    end
  else if decide (event = "tracking_status") then
    match data with
    | PTrackingStatus status _ =>
        if decide (status = "started") then set_attentionAlerts [] st else st
    | _ => st
    end
  else if decide (event = "error") then
    match data with
    | PConnectionError err =>
        set_connectionError (Some (or_default (Some err) "WebSocket error occurred")) st
    | _ => set_connectionError (Some "WebSocket error occurred") st
    end
  else st.

Definition clearAlerts (st : State) : State := set_attentionAlerts [] st.

(** The state after the [useEffect] has run:
    [setIsConnected(realWebSocketService.getConnectionStatus())]. *)
Definition mounted (svc : Real.State) : State :=
  set_isConnected (Real.getConnectionStatus svc) initial.

(** The events of the [useEffect], in the order of the [on] calls, each with
    the number that stands for its callback. *)
Definition subscriptions : list (string * Callback) :=
  [("connection_status", 101%nat); ("connection_error", 102%nat);
   ("eye_tracking_data", 103%nat); ("focus_score_update", 104%nat);
   ("attention_alert", 105%nat); ("tracking_status", 106%nat); ("error", 107%nat)].

(** The calls of the provider's [attention_alert] callback for a list of
    alerts. *)
Definition alert_calls (l : list Alert) : list (string * Callback * Payload) :=
  map (fun a => ("attention_alert", 105%nat, PAlert a)) l.

(** The provider's callbacks for one event. *)
Definition callbacks_of (event : string) : list Callback :=
  omap (fun ec : string * Callback =>
          if decide (ec.1 = event) then Some ec.2 else None) subscriptions.

(** The service has the provider's callbacks as its listeners, and no
    others. *)
Definition wired (svc : Real.State) : Prop :=
  forall event, registered (Real.eventListeners svc) event = callbacks_of event.

(** The alerts of a list as the provider stores them, the n-th stamped with
    the clock readings of the n-th call. *)
Fixpoint stamped_from (clock : nat -> Z * Z) (n : nat) (l : list Alert) : list Alert :=
  match l with
  | [] => []
  | a :: rest => stamped (clock n).1 (clock n).2 a :: stamped_from clock (S n) rest
  end.

(** The [useEffect] body run once: the seven [realWebSocketService.on]. *)
Definition mount (svc : Real.State) : Real.State :=
  foldl (fun s ec => Real.on s ec.1 ec.2) svc subscriptions.

(** What the provider's state becomes when the service performs the calls
    of a trace: each call of one of the seven callbacks applies its update.
    [clock] gives the two clock readings available to the n-th call. *)
Fixpoint observe (clock : nat -> Z * Z) (n : nat)
    (calls : list (string * Callback * Payload)) (st : State) : State :=
  match calls with
  | [] => st
  | (event, cb, data) :: rest =>
      let st1 := if bool_decide ((event, cb) ∈ subscriptions)
                 then handle (clock n).1 (clock n).2 event data st
                 else st in
      observe clock (S n) rest st1
  end.

(** The four wrappers the provider hands to its consumers: a console line,
    then the call on the service. *)
Definition call (throws : Oracle) (stored_token : option string)
    (svc : Real.State) (op : Real.Op) : Real.State * list Effect :=
  let line := match op with
              | Real.StartTracking _ _ => [ConsoleLog "Starting tracking for session:"]
              | Real.StopTracking _ => [ConsoleLog "Stopping tracking for session:"]
              | Real.PauseTracking _ => [ConsoleLog "Pausing tracking for session:"]
              | Real.ResumeTracking _ => [ConsoleLog "Resuming tracking for session:"]
              | _ => []
              end in
  let '(svc1, tr) := Real.step throws stored_token svc op in
  (svc1, line ++ tr).

End Provider.

(** ** StudySession (components/StudySession.jsx) *)

Module StudySession.

(** [s.padStart(2, '0')] *)
Definition padStart2 (s : string) : string :=
  (String.concat "" (replicate (2 - String.length s) "0") ++ s)%string.

(** [formatTime]: [seconds] is the session timer, a count of ticks. *)
Definition formatTime (seconds : N) : string :=
  let hours := (seconds / 3600)%N in
  let minutes := ((seconds mod 3600) / 60)%N in
  let secs := (seconds mod 60)%N in
  (padStart2 (pretty hours) ++ ":" ++ padStart2 (pretty minutes) ++ ":"
   ++ padStart2 (pretty secs))%string.

Definition getHealthColor (value : Q) : string :=
  if Qlt_le_dec value 80 then
    if Qlt_le_dec value 60 then "#f44336" else "#ff9800"
  else "#4caf50".

(** [x || d] on numbers: zero is falsy. *)
Definition or_number (x d : Q) : Q := if Qeq_bool x 0 then d else x.

(** The three gauges kept by the component. *)
Record Gauges := { eyeStrainLevel : Q; postureScore : Q; attentionLevel : Q }.

(** The [useState] initial values. *)
Definition gauges0 : Gauges :=
  {| eyeStrainLevel := 0; postureScore := 85; attentionLevel := 90 |}.

(** The effect run when [eyeTrackingData] changes to a frame with these
    three fields. *)
Definition onFrame (eye_strain posture attention : Q) (g : Gauges) : Gauges :=
  {| eyeStrainLevel := Qmin 100 (Qmax 0 (or_number eye_strain (eyeStrainLevel g)));
     postureScore := or_number posture 85;
     attentionLevel := or_number (attention * 100) 90 |}.

(** [handlePauseResume]: the new [isPaused] and the call made on the
    provider, if any. *)
Definition handlePauseResume (isPaused : bool) (sessionId : option string)
    : bool * option Real.Op :=
  if isPaused then (false, Real.ResumeTracking <$> sessionId)
  else (true, Real.PauseTracking <$> sessionId).

(** One press of the pause button: [handlePauseResume], its call, if any,
    going through the provider to the service. *)
Definition press (throws : Oracle) (stored_token : option string)
    (isPaused : bool) (sessionId : option string) (svc : Real.State)
    : bool * Real.State * list Effect :=
  match handlePauseResume isPaused sessionId with
  | (paused, Some op) =>
      let '(svc1, tr) := Provider.call throws stored_token svc op in (paused, svc1, tr)
  | (paused, None) => (paused, svc, [])
  end.

End StudySession.


(** * Properties *)

(** ** Arrays of callbacks *)

Lemma remove_first_nil cb : remove_first [] cb = [].
Proof. reflexivity. Qed.

Lemma remove_first_cons x r cb :
  remove_first (x :: r) cb = if decide (x = cb) then r else x :: remove_first r cb.
Proof.
  unfold remove_first; simpl.
  destruct (decide (x = cb)) as [->|Hne]; [reflexivity|].
  destruct (indexOf r cb) as [i|]; reflexivity.
Qed.






(** ** The listener map *)

Lemma registered_push_same m event cb :
  registered (push_listener m event cb) event = registered m event ++ [cb].
Proof.
  unfold registered, push_listener.
  destruct (m !! event) as [l|] eqn:Hm.
  - by rewrite lookup_alter_eq, Hm.
  - by rewrite lookup_alter_eq, lookup_insert_eq.
Qed.

Lemma registered_push_other m event event' cb :
  event ≠ event' -> registered (push_listener m event cb) event' = registered m event'.
Proof.
  intros Hne. unfold registered, push_listener.
  rewrite lookup_alter_ne by done.
  destruct (m !! event); [done|]. by rewrite lookup_insert_ne.
Qed.

Lemma registered_drop_same m event cb :
  registered (drop_listener m event cb) event = remove_first (registered m event) cb.
Proof.
  unfold registered, drop_listener.
  destruct (m !! event) as [l|] eqn:Hm.
  - by rewrite lookup_insert_eq.
  - by rewrite Hm.
Qed.

Lemma registered_drop_other m event event' cb :
  event ≠ event' -> registered (drop_listener m event cb) event' = registered m event'.
Proof.
  intros Hne. unfold registered, drop_listener.
  destruct (m !! event); [|done]. by rewrite lookup_insert_ne.
Qed.

(** ** Dispatch with a [try] around each callback *)

Lemma invoked_app tr1 tr2 : invoked (tr1 ++ tr2) = invoked tr1 ++ invoked tr2.
Proof. apply omap_app. Qed.

Lemma published_app tr1 tr2 : published (tr1 ++ tr2) = published tr1 ++ published tr2.
Proof. apply omap_app. Qed.

Lemma timeouts_app tr1 tr2 : timeouts (tr1 ++ tr2) = timeouts tr1 ++ timeouts tr2.
Proof. apply omap_app. Qed.

Lemma commands_app tr1 tr2 : commands (tr1 ++ tr2) = commands tr1 ++ commands tr2.
Proof. apply omap_app. Qed.

Lemma alerts_app tr1 tr2 : alerts (tr1 ++ tr2) = alerts tr1 ++ alerts tr2.
Proof. apply omap_app. Qed.

Lemma invoked_flat_map (f : Callback -> list Effect) g l :
  (forall cb, invoked (f cb) = [g cb]) -> invoked (flat_map f l) = map g l.
Proof.
  intros Hf. induction l as [|cb r IH]; [reflexivity|].
  change (flat_map f (cb :: r)) with (f cb ++ flat_map f r).
  by rewrite invoked_app, Hf, IH.
Qed.

Lemma omap_flat_map_nil {A B} (p : A -> option B) (f : Callback -> list A) l :
  (forall cb, omap p (f cb) = []) -> omap p (flat_map f l) = [].
Proof.
  intros Hf. induction l as [|cb r IH]; [reflexivity|].
  change (flat_map f (cb :: r)) with (f cb ++ flat_map f r).
  by rewrite omap_app, Hf, IH.
Qed.

Section Caught.
Variable throws : Oracle.

Lemma real_calls_invoked event data l :
  invoked (flat_map (Real.call_caught throws event data) l)
  = map (fun cb => (event, cb, data)) l.
Proof.
  apply invoked_flat_map. intros cb. unfold Real.call_caught.
  destruct (throws event cb data); reflexivity.
Qed.

Lemma real_calls_quiet event data l :
  published (flat_map (Real.call_caught throws event data) l) = []
  /\ timeouts (flat_map (Real.call_caught throws event data) l) = []
  /\ commands (flat_map (Real.call_caught throws event data) l) = []
  /\ alerts (flat_map (Real.call_caught throws event data) l) = [].
Proof.
  repeat split; apply omap_flat_map_nil; intros cb; unfold Real.call_caught;
    destruct (throws event cb data); reflexivity.
Qed.

Lemma real_emit_invoked st event data :
  invoked (Real.emit throws st event data)
  = map (fun cb => (event, cb, data)) (registered (Real.eventListeners st) event).
Proof.
  unfold Real.emit, registered.
  destruct (Real.eventListeners st !! event) as [l|]; [|reflexivity].
  apply real_calls_invoked.
Qed.

Lemma real_emit_published st event data :
  published (Real.emit throws st event data) = [(event, data)].
Proof.
  unfold Real.emit.
  destruct (Real.eventListeners st !! event) as [l|]; [|reflexivity].
  change (published (Publish event data :: ?t)) with ((event, data) :: published t).
  f_equal. apply real_calls_quiet.
Qed.

Lemma real_emit_timeouts st event data : timeouts (Real.emit throws st event data) = [].
Proof.
  unfold Real.emit.
  destruct (Real.eventListeners st !! event) as [l|]; [|reflexivity].
  apply (real_calls_quiet event data l).
Qed.

Lemma real_emit_commands st event data : commands (Real.emit throws st event data) = [].
Proof.
  unfold Real.emit.
  destruct (Real.eventListeners st !! event) as [l|]; [|reflexivity].
  apply (real_calls_quiet event data l).
Qed.

Lemma mock_calls_invoked event data l :
  invoked (flat_map (Mock.call_caught throws event data) l)
  = map (fun cb => (event, cb, data)) l.
Proof.
  apply invoked_flat_map. intros cb. unfold Mock.call_caught.
  destruct (throws event cb data); reflexivity.
Qed.

Lemma mock_calls_published event data l :
  published (flat_map (Mock.call_caught throws event data) l) = [].
Proof.
  apply omap_flat_map_nil. intros cb. unfold Mock.call_caught.
  destruct (throws event cb data); reflexivity.
Qed.

Lemma mock_emit_invoked st event data :
  invoked (Mock.emit throws st event data)
  = map (fun cb => (event, cb, data)) (registered (Mock.eventHandlers st) event).
Proof.
  unfold Mock.emit, registered.
  destruct (Mock.eventHandlers st !! event) as [l|]; [|reflexivity].
  apply mock_calls_invoked.
Qed.

Lemma mock_emit_published st event data :
  published (Mock.emit throws st event data) = [(event, data)].
Proof.
  unfold Mock.emit.
  destruct (Mock.eventHandlers st !! event) as [l|]; [|reflexivity].
  change (published (Publish event data :: ?t)) with ((event, data) :: published t).
  f_equal. apply mock_calls_published.
Qed.

End Caught.

(** ** Subscriptions of the live service *)


Section RealSubscriptions.
Variable throws : Oracle.
Variable stored_token : option string.






End RealSubscriptions.

(** ** Claims on the event bus *)

(** C5.  Dispatch in subscription order with each exception caught and
    logged holds for [RealWebSocketService.emit] and
    [MockWebSocketService.emit]; [WebSocketService.emit] has no [try].
    With callbacks 1 and 2 subscribed in that order to [connection_status]
    and callback 1 throwing, the [connect] handler of [WebSocketService]
    calls callback 1 only and the exception escapes the handler. *)
Theorem C5_ws_emit_stops_at_throw :
  let st := WS.on (WS.on WS.new.1 "connection_status" 1%nat) "connection_status" 2%nat in
  registered (WS.listeners st) "connection_status" = [1%nat; 2%nat]
  /\ WS.emit first_throws st "connection_status" (PConnectionStatus true None)
     = (WS.Threw, [Publish "connection_status" (PConnectionStatus true None);
                   Invoke "connection_status" 1%nat (PConnectionStatus true None)])
  /\ (WS.step first_throws st WS.SockConnect).1.2 = WS.Threw.
Proof. vm_compute. repeat split. Qed.

(** The two services that wrap each call in a [try] do what C5 says: all
    registered callbacks are called, in the array's order, with the same
    payload, whichever of them throw. *)
Lemma emit_caught_calls_all throws rst mst event data :
  invoked (Real.emit throws rst event data)
  = map (fun cb => (event, cb, data)) (registered (Real.eventListeners rst) event)
  /\ invoked (Mock.emit throws mst event data)
     = map (fun cb => (event, cb, data)) (registered (Mock.eventHandlers mst) event).
Proof. split; [apply real_emit_invoked | apply mock_emit_invoked]. Qed.

(** ** Commands while the transport is down *)

(** C6, as stated, fails for [WebSocketService.startTracking]: when the
    socket is not connected it writes a console warning and nothing else, so
    no error reaches the caller or any subscriber. *)
Lemma C6_ws_start_reports_nothing :
  let st := WS.on (WS.on WS.new.1 "connection_error" 4%nat) "error" 5%nat in
  WS.connected st = false
  /\ WS.step quiet st (WS.StartTracking "s1" "tok")
     = (st, WS.Returned, [ConsoleWarn "WebSocket not connected. Cannot start tracking."]).
Proof. vm_compute. split; reflexivity. Qed.

(** C6 (amended).  [startTracking] called while the service is not
    connected sends no command, arms no timer and leaves the state as it
    was, and a later [connect] event sends no command either.
    [RealWebSocketService] logs an error and publishes [connection_error]
    with the text "Not connected to server" to the subscribers of that
    event; [WebSocketService] only logs a warning.  Neither returns or
    throws anything to the caller. *)
Theorem C6_start_while_not_connected
    (throws : Oracle) (stored_token : option string)
    (st : Real.State) (ws : WS.State) (sessionId token : string) :
  negb (Real.socket st) || negb (Real.isConnected st) = true ->
  WS.connected ws = false ->
  let r := Real.step throws stored_token st (Real.StartTracking sessionId token) in
  r.1 = st
  /\ commands r.2 = []
  /\ timeouts r.2 = []
  /\ published r.2 = [("connection_error", PConnectionError "Not connected to server")]
  /\ invoked r.2
     = map (fun cb => ("connection_error", cb, PConnectionError "Not connected to server"))
           (registered (Real.eventListeners st) "connection_error")
  /\ commands (Real.step throws stored_token st Real.SockConnect).2 = []
  /\ WS.step throws ws (WS.StartTracking sessionId token)
     = (ws, WS.Returned, [ConsoleWarn "WebSocket not connected. Cannot start tracking."]).
Proof.
  intros Hdown Hws r. subst r.
  cbn [Real.step WS.step]. unfold Real.startTracking, WS.command.
  rewrite Hdown, Hws. cbn [fst snd].
  repeat match goal with
         | |- context [?e :: Real.emit ?a ?b ?c ?d] =>
             change (e :: Real.emit a b c d) with ([e] ++ Real.emit a b c d)
         end.
  rewrite !commands_app, timeouts_app, published_app, invoked_app.
  rewrite !real_emit_commands, real_emit_timeouts, real_emit_published, !real_emit_invoked.
  repeat split; reflexivity.
Qed.

(** C6 at the two services as their constructors leave them, not yet
    connected. *)
Lemma C6_start_while_not_connected_witness :
  let st := Real.on (Real.new quiet true).1 "connection_error" 4%nat in
  let r := Real.step first_throws None st (Real.StartTracking "s1" "tok") in
  r.1 = st
  /\ commands r.2 = []
  /\ timeouts r.2 = []
  /\ published r.2 = [("connection_error", PConnectionError "Not connected to server")]
  /\ invoked r.2
     = map (fun cb => ("connection_error", cb, PConnectionError "Not connected to server"))
           (registered (Real.eventListeners st) "connection_error")
  /\ commands (Real.step first_throws None st Real.SockConnect).2 = []
  /\ WS.step first_throws WS.new.1 (WS.StartTracking "s1" "tok")
     = (WS.new.1, WS.Returned, [ConsoleWarn "WebSocket not connected. Cannot start tracking."]).
Proof.
  apply (C6_start_while_not_connected first_throws None
           (Real.on (Real.new quiet true).1 "connection_error" 4%nat) WS.new.1 "s1" "tok");
    reflexivity.
Defined.

(** ** Session commands *)

Section MockSession.
Variable throws : Oracle.
Variable Msin : Q -> Q.

Lemma mock_emit_omap {B} (p : Effect -> option B) st event data :
  (forall ev cb d, p (Invoke ev cb d) = None) ->
  (forall m, p (ConsoleError m) = None) ->
  omap p (Mock.emit throws st event data) = omap p [Publish event data].
Proof.
  intros Hinv Herr. unfold Mock.emit.
  change (Publish event data :: ?t) with ([Publish event data] ++ t).
  rewrite omap_app.
  replace (omap p (match Mock.eventHandlers st !! event with
                   | Some callbacks => flat_map (Mock.call_caught throws event data) callbacks
                   | None => []
                   end)) with (@nil B); [by rewrite app_nil_r|].
  destruct (Mock.eventHandlers st !! event) as [l|]; [|reflexivity].
  symmetry. apply omap_flat_map_nil. intros cb. unfold Mock.call_caught.
  simpl. rewrite Hinv. destruct (throws event cb data); simpl; by rewrite ?Herr.
Qed.

Lemma mock_stopped_fixed st :
  Mock.sessionActive st = false -> Mock.set_sessionActive false st = st.
Proof. destruct st; simpl; by intros ->. Qed.

Lemma mock_disarm_idle st :
  Mock.focusSimulationInterval st = None -> Mock.disarm st = (st, []).
Proof. unfold Mock.disarm. by intros ->. Qed.

Lemma mock_stop_inactive st sid :
  Mock.sessionActive (Mock.stopTracking throws st sid).1 = false
  /\ Mock.focusSimulationInterval (Mock.stopTracking throws st sid).1 = None.
Proof.
  unfold Mock.stopTracking, Mock.disarm.
  destruct st as [m a [h|] s l n]; cbn; split; reflexivity.
Qed.

Lemma mock_resume_inactive st sid :
  Mock.sessionActive st = false ->
  Mock.resumeTracking throws st sid
  = (st, Mock.emit throws st "session_resumed" (PSession sid)).
Proof. unfold Mock.resumeTracking. by intros ->. Qed.

Lemma mock_tick_inactive st h tk :
  Mock.sessionActive st = false ->
  Mock.step throws Msin st (Mock.IntervalFires h tk) = (st, []).
Proof.
  intros Hoff. simpl. unfold Mock.generateMockFocusData. rewrite Hoff.
  by destruct (decide (h ∈ Mock.live st)).
Qed.

Lemma mock_ticks_inactive st (ticks : list (nat * Tick)) :
  Mock.sessionActive st = false ->
  Mock.run throws Msin st (map (fun ht => Mock.IntervalFires ht.1 ht.2) ticks) = (st, []).
Proof.
  intros Hoff. induction ticks as [|[h tk] rest IH]; [reflexivity|].
  cbn [map Mock.run fst snd]. rewrite mock_tick_inactive by done. by rewrite IH.
Qed.

Lemma mock_gated_alert_frames st tk cond p mk r c :
  frames (Mock.gated_alert throws st tk cond p mk r c).1.1 = [].
Proof.
  unfold Mock.gated_alert. destruct cond; [|reflexivity].
  destruct (Qlt_le_dec (random tk r) p); [|reflexivity].
  cbn [fst]. unfold frames. by rewrite mock_emit_omap.
Qed.

Lemma mock_generate_frames st tk :
  frames (Mock.generateMockFocusData throws Msin st tk)
  = if Mock.sessionActive st then [Mock.mock_frame Msin tk] else [].
Proof.
  unfold Mock.generateMockFocusData.
  destruct (Mock.sessionActive st); [|reflexivity]. cbn [negb].
  repeat match goal with
         | |- context [Mock.gated_alert ?a ?b ?c ?d ?e ?f ?g ?h] =>
             let H := fresh "Hg" in
             pose proof (mock_gated_alert_frames b c d e f g h) as H;
             destruct (Mock.gated_alert a b c d e f g h) as [[? ?] ?]; cbn [fst] in H
         end.
  unfold frames in *. rewrite !omap_app, !mock_emit_omap by done.
  repeat match goal with H : omap _ _ = [] |- _ => rewrite H; clear H end.
  reflexivity.
Qed.

Lemma frames_app tr1 tr2 : frames (tr1 ++ tr2) = frames tr1 ++ frames tr2.
Proof. apply omap_app. Qed.

Lemma mock_emit_frames st event sid : frames (Mock.emit throws st event (PSession sid)) = [].
Proof. unfold frames. by rewrite mock_emit_omap. Qed.

Lemma mock_disarm_quiet st :
  Mock.sessionActive (Mock.disarm st).1 = Mock.sessionActive st
  /\ frames (Mock.disarm st).2 = [].
Proof. unfold Mock.disarm. by destruct (Mock.focusSimulationInterval st). Qed.

(** While [sessionActive] is false, every operation other than
    [startTracking] keeps it false and publishes no frame. *)
Lemma mock_step_inactive st op :
  Mock.sessionActive st = false -> Mock.starts op = false ->
  Mock.sessionActive (Mock.step throws Msin st op).1 = false
  /\ frames (Mock.step throws Msin st op).2 = [].
Proof.
  intros Hoff Hop. destruct op; try discriminate Hop; cbn [Mock.step].
  - cbn [fst snd]. split; [exact Hoff|]. unfold frames. by rewrite mock_emit_omap.
  - unfold Mock.stopTracking.
    pose proof (mock_disarm_quiet (Mock.set_sessionActive false st)) as [Hs Hf].
    destruct (Mock.disarm (Mock.set_sessionActive false st)) as [st1 tr].
    cbn [fst snd] in *. split; [by rewrite Hs|].
    change (ConsoleLog ?m :: ?t) with ([ConsoleLog m] ++ t).
    by rewrite !frames_app, Hf, mock_emit_frames.
  - unfold Mock.pauseTracking.
    pose proof (mock_disarm_quiet st) as [Hs Hf].
    destruct (Mock.disarm st) as [st1 tr].
    cbn [fst snd] in *. split; [by rewrite Hs|].
    by rewrite !frames_app, Hf, mock_emit_frames.
  - rewrite mock_resume_inactive by done. split; [exact Hoff|apply mock_emit_frames].
  - pose proof (mock_tick_inactive st handle tk Hoff) as Ht.
    cbn [Mock.step] in Ht. rewrite Ht. by split.
  - by split.
  - destruct cb; by split.
  - unfold Mock.disconnect.
    pose proof (mock_disarm_quiet (Mock.set_isConnectionActive false st)) as [Hs Hf].
    by rewrite Hs.
Qed.

Lemma mock_run_inactive st ops :
  Mock.sessionActive st = false ->
  forallb (fun op => negb (Mock.starts op)) ops = true ->
  Mock.sessionActive (Mock.run throws Msin st ops).1 = false
  /\ frames (Mock.run throws Msin st ops).2 = [].
Proof.
  revert st. induction ops as [|op rest IH]; intros st Hoff Hops; [by split|].
  cbn [forallb] in Hops. apply andb_true_iff in Hops as [Hop Hrest].
  apply negb_true_iff in Hop.
  destruct (mock_step_inactive st op Hoff Hop) as [Hs Hf].
  cbn [Mock.run]. destruct (Mock.step throws Msin st op) as [st1 tr1].
  cbn [fst snd] in *.
  destruct (IH st1 Hs Hrest) as [Hs' Hf'].
  destruct (Mock.run throws Msin st1 rest) as [st2 tr2]. cbn [fst snd] in *.
  split; [exact Hs'|]. by rewrite frames_app, Hf, Hf'.
Qed.

End MockSession.

(** C7, as stated, fails: no service keeps a session status or signals an
    invalid transition.  After [startTracking] and [stopTracking], the
    generator's [resumeTracking] publishes [session_resumed] to its
    subscriber, and the connected live service writes [resume_tracking] to
    the socket. *)
Lemma C7_resume_after_stop_goes_through :
  let zero : Q -> Q := fun _ => 0%Q in
  let ms :=
    (Mock.run quiet zero (Mock.on Mock.fresh "session_resumed" 9%nat)
       [Mock.StartTracking "s1" "tok"; Mock.StopTracking "s1"]).1 in
  let rs :=
    (Real.run quiet None (Real.new quiet true).1
       [Real.SockConnect; Real.StartTracking "s1" "tok"; Real.StopTracking "s1"]).1 in
  Mock.step quiet zero ms (Mock.ResumeTracking "s1")
  = (ms, [Publish "session_resumed" (PSession "s1");
          Invoke "session_resumed" 9%nat (PSession "s1")])
  /\ Real.step quiet None rs (Real.ResumeTracking "s1")
     = (rs, [SocketEmit resume_tracking "s1" (Some None)]).
Proof. vm_compute. split; reflexivity. Qed.

(** C7 (amended).  [pauseTracking], [resumeTracking] and [stopTracking]
    return normally in every state and signal nothing to the caller.
    [RealWebSocketService] leaves its state unchanged and, when connected,
    writes the command to the socket whatever was called before; when not
    connected it logs an error.  In the generator, on a stopped session (flag
    [sessionActive] false, no timer) each of the three calls leaves the state
    unchanged and still publishes its lifecycle event. *)
Theorem C7_session_calls_on_stopped_session
    (throws : Oracle) (stored_token : option string) (Msin : Q -> Q)
    (rs : Real.State) (ms : Mock.State) (sessionId : string) :
  Mock.sessionActive ms = false ->
  Mock.focusSimulationInterval ms = None ->
  let sent c :=
    if negb (Real.socket rs) || negb (Real.isConnected rs)
    then [ConsoleError "WebSocket not connected"]
    else [SocketEmit c sessionId (Some stored_token)] in
  Real.step throws stored_token rs (Real.PauseTracking sessionId) = (rs, sent pause_tracking)
  /\ Real.step throws stored_token rs (Real.ResumeTracking sessionId) = (rs, sent resume_tracking)
  /\ Real.step throws stored_token rs (Real.StopTracking sessionId) = (rs, sent stop_tracking)
  /\ Mock.step throws Msin ms (Mock.PauseTracking sessionId)
     = (ms, Mock.emit throws ms "session_paused" (PSession sessionId))
  /\ Mock.step throws Msin ms (Mock.ResumeTracking sessionId)
     = (ms, Mock.emit throws ms "session_resumed" (PSession sessionId))
  /\ Mock.step throws Msin ms (Mock.StopTracking sessionId)
     = (ms, ConsoleLog "Stopping mock tracking for session:"
            :: Mock.emit throws ms "session_ended" (PSession sessionId)).
Proof.
  intros Hoff Hidle sent. subst sent.
  cbn [Real.step Mock.step].
  unfold Real.pauseTracking, Real.resumeTracking, Real.stopTracking, Real.command.
  repeat split.
  - by destruct (negb (Real.socket rs) || negb (Real.isConnected rs)).
  - by destruct (negb (Real.socket rs) || negb (Real.isConnected rs)).
  - by destruct (negb (Real.socket rs) || negb (Real.isConnected rs)).
  - unfold Mock.pauseTracking. by rewrite mock_disarm_idle.
  - by apply mock_resume_inactive.
  - unfold Mock.stopTracking. rewrite mock_stopped_fixed by done.
    by rewrite mock_disarm_idle.
Qed.

(** C7 at a connected live service and a generator started and stopped. *)
Lemma C7_session_calls_witness :
  let zero : Q -> Q := fun _ => 0%Q in
  let rs := (Real.step quiet None (Real.new quiet true).1 Real.SockConnect).1 in
  let ms := (Mock.stopTracking quiet (Mock.startTracking quiet Mock.fresh "s1" "tok").1 "s1").1 in
  let sent c :=
    if negb (Real.socket rs) || negb (Real.isConnected rs)
    then [ConsoleError "WebSocket not connected"]
    else [SocketEmit c "s1" (Some None)] in
  Real.step quiet None rs (Real.PauseTracking "s1") = (rs, sent pause_tracking)
  /\ Real.step quiet None rs (Real.ResumeTracking "s1") = (rs, sent resume_tracking)
  /\ Real.step quiet None rs (Real.StopTracking "s1") = (rs, sent stop_tracking)
  /\ Mock.step quiet zero ms (Mock.PauseTracking "s1")
     = (ms, Mock.emit quiet ms "session_paused" (PSession "s1"))
  /\ Mock.step quiet zero ms (Mock.ResumeTracking "s1")
     = (ms, Mock.emit quiet ms "session_resumed" (PSession "s1"))
  /\ Mock.step quiet zero ms (Mock.StopTracking "s1")
     = (ms, ConsoleLog "Stopping mock tracking for session:"
            :: Mock.emit quiet ms "session_ended" (PSession "s1")).
Proof.
  apply (C7_session_calls_on_stopped_session quiet None (fun _ => 0%Q)
           (Real.step quiet None (Real.new quiet true).1 Real.SockConnect).1
           (Mock.stopTracking quiet (Mock.startTracking quiet Mock.fresh "s1" "tok").1 "s1").1
           "s1"); reflexivity.
Defined.

(** C10.  In the generator, [resumeTracking] called after [stopTracking]
    finds [sessionActive] false: it publishes [session_resumed] to the
    subscribers of that event, arms no interval and leaves the state as
    [stopTracking] left it, and no frame is published afterwards, whatever
    intervals fire and whatever is called, until [startTracking] is called.
    In general [resumeTracking] arms an interval exactly when
    [sessionActive] is true, and a tick that follows publishes a frame
    exactly in that case. *)
Theorem C10_resume_after_stop_emits_event_only
    (throws : Oracle) (Msin : Q -> Q) (st : Mock.State) (sid sid' : string)
    (ops : list Mock.Op) (st2 : Mock.State) (h : nat) (tk : Tick) :
  forallb (fun op => negb (Mock.starts op)) ops = true ->
  let stopped := (Mock.stopTracking throws st sid).1 in
  let r := Mock.step throws Msin stopped (Mock.ResumeTracking sid') in
  let r2 := Mock.step throws Msin st2 (Mock.ResumeTracking sid') in
  Mock.sessionActive stopped = false
  /\ r.1 = stopped
  /\ published r.2 = [("session_resumed", PSession sid')]
  /\ invoked r.2
     = map (fun cb => ("session_resumed", cb, PSession sid'))
           (registered (Mock.eventHandlers stopped) "session_resumed")
  /\ intervals r.2 = []
  /\ frames (Mock.run throws Msin r.1 ops).2 = []
  /\ intervals r2.2 = (if Mock.sessionActive st2 then [Mock.next st2] else [])
  /\ frames (Mock.step throws Msin r2.1 (Mock.IntervalFires h tk)).2
     = (if Mock.sessionActive st2 && bool_decide (h ∈ Mock.live r2.1)
        then [Mock.mock_frame Msin tk] else []).
Proof.
  intros Hops stopped r r2.
  destruct (mock_stop_inactive throws st sid) as [Hoff _]. fold stopped in Hoff.
  assert (Hr : r = (stopped, Mock.emit throws stopped "session_resumed" (PSession sid')))
    by (by apply mock_resume_inactive).
  rewrite Hr. cbn [fst snd].
  split; [exact Hoff|]. split; [reflexivity|].
  split; [apply mock_emit_published|]. split; [apply mock_emit_invoked|].
  split; [unfold intervals; by rewrite mock_emit_omap|].
  split; [by apply mock_run_inactive|].
  subst r2. cbn [Mock.step]. unfold Mock.resumeTracking.
  destruct (Mock.sessionActive st2) eqn:Hact; cbn [andb].
  - unfold Mock.arm. cbn [fst snd Mock.live]. split.
    + unfold intervals. rewrite omap_app, mock_emit_omap by done. reflexivity.
    + destruct (decide (h ∈ Mock.next st2 :: Mock.live st2)) as [Hin|Hout].
      * rewrite bool_decide_eq_true_2 by done. cbn [snd].
        rewrite mock_generate_frames. cbn [Mock.sessionActive]. by rewrite Hact.
      * by rewrite bool_decide_eq_false_2.
  - cbn [fst snd]. split.
    + unfold intervals. rewrite omap_app, mock_emit_omap by done. reflexivity.
    + destruct (decide (h ∈ Mock.live st2)); cbn [snd]; [|reflexivity].
      rewrite mock_generate_frames. by rewrite Hact.
Qed.

(** C10 at a started generator with a subscriber of [session_resumed]. *)
Lemma C10_resume_after_stop_witness :
  let zero : Q -> Q := fun _ => 0%Q in
  let tk := {| clock := fun _ => 1000; random := fun _ => 0%Q |} in
  let st := (Mock.startTracking quiet (Mock.on Mock.fresh "session_resumed" 9%nat) "s1" "tok").1 in
  let ops := [Mock.IntervalFires 1%nat tk; Mock.PauseTracking "s1";
              Mock.ResumeTracking "s1"; Mock.IntervalFires 1%nat tk] in
  let stopped := (Mock.stopTracking quiet st "s1").1 in
  let r := Mock.step quiet zero stopped (Mock.ResumeTracking "s1") in
  let r2 := Mock.step quiet zero st (Mock.ResumeTracking "s1") in
  Mock.sessionActive stopped = false
  /\ r.1 = stopped
  /\ published r.2 = [("session_resumed", PSession "s1")]
  /\ invoked r.2
     = map (fun cb => ("session_resumed", cb, PSession "s1"))
           (registered (Mock.eventHandlers stopped) "session_resumed")
  /\ intervals r.2 = []
  /\ frames (Mock.run quiet zero r.1 ops).2 = []
  /\ intervals r2.2 = (if Mock.sessionActive st then [Mock.next st] else [])
  /\ frames (Mock.step quiet zero r2.1 (Mock.IntervalFires 2%nat tk)).2
     = (if Mock.sessionActive st && bool_decide (2%nat ∈ Mock.live r2.1)
        then [Mock.mock_frame zero tk] else []).
Proof.
  apply (C10_resume_after_stop_emits_event_only quiet (fun _ => 0%Q)
           (Mock.startTracking quiet (Mock.on Mock.fresh "session_resumed" 9%nat) "s1" "tok").1
           "s1" "s1"
           [Mock.IntervalFires 1%nat {| clock := fun _ => 1000; random := fun _ => 0%Q |};
            Mock.PauseTracking "s1"; Mock.ResumeTracking "s1";
            Mock.IntervalFires 1%nat {| clock := fun _ => 1000; random := fun _ => 0%Q |}]).
  reflexivity.
Defined.

(** ** Frames and alerts of the live service *)

Lemma count_kind_app k tr1 tr2 : count_kind k (tr1 ++ tr2) = (count_kind k tr1 + count_kind k tr2)%nat.
Proof. unfold count_kind. by rewrite alerts_app, filter_app, length_app. Qed.

Lemma kinds_app tr1 tr2 : kinds (tr1 ++ tr2) = kinds tr1 ++ kinds tr2.
Proof. unfold kinds. by rewrite alerts_app, map_app. Qed.

Lemma live_frames_app tr1 tr2 : live_frames (tr1 ++ tr2) = live_frames tr1 ++ live_frames tr2.
Proof. apply omap_app. Qed.

Section RealFrames.
Variable throws : Oracle.
Variable stored_token : option string.

Lemma real_emit_omap {B} (p : Effect -> option B) st event data :
  (forall ev cb d, p (Invoke ev cb d) = None) ->
  (forall m, p (ConsoleError m) = None) ->
  omap p (Real.emit throws st event data) = omap p [Publish event data].
Proof.
  intros Hinv Herr. unfold Real.emit.
  change (Publish event data :: ?t) with ([Publish event data] ++ t).
  rewrite omap_app.
  replace (omap p (match Real.eventListeners st !! event with
                   | Some listeners => flat_map (Real.call_caught throws event data) listeners
                   | None => []
                   end)) with (@nil B); [by rewrite app_nil_r|].
  destruct (Real.eventListeners st !! event) as [l|]; [|reflexivity].
  symmetry. apply omap_flat_map_nil. intros cb. unfold Real.call_caught.
  simpl. rewrite Hinv. destruct (throws event cb data); simpl; by rewrite ?Herr.
Qed.

Lemma real_emit_alerts st event data :
  alerts (Real.emit throws st event data)
  = match data with PAlert a => [a] | _ => [] end.
Proof. unfold alerts. rewrite real_emit_omap by done. by destruct data. Qed.

Lemma real_emit_live_frames st event data :
  live_frames (Real.emit throws st event data)
  = match data with PEyeTracking d => [d] | _ => [] end.
Proof. unfold live_frames. rewrite real_emit_omap by done. by destruct data. Qed.

(** The alerts of one frame, in the order of the handler's three tests. *)
Lemma real_frame_alerts st d :
  alerts (Real.on_tracking_data throws st d)
  = (if Qlt_le_dec (attention_score d) 60 then [Real.low_attention_alert d] else [])
    ++ (if decide (distraction_type d = "none") then [] else [Real.distraction_alert d])
    ++ (if Qlt_le_dec 20 (eye_strain_level d) then [Real.eye_strain_alert d] else []).
Proof.
  unfold Real.on_tracking_data. rewrite !alerts_app, !real_emit_alerts.
  destruct (Qlt_le_dec (attention_score d) 60), (decide (distraction_type d = "none")),
    (Qlt_le_dec 20 (eye_strain_level d)); by rewrite ?real_emit_alerts.
Qed.

Lemma real_frame_published st d :
  live_frames (Real.on_tracking_data throws st d) = [Real.transform d].
Proof.
  unfold Real.on_tracking_data. rewrite !live_frames_app, !real_emit_live_frames.
  destruct (Qlt_le_dec (attention_score d) 60), (decide (distraction_type d = "none")),
    (Qlt_le_dec 20 (eye_strain_level d)); by rewrite ?real_emit_live_frames.
Qed.

Lemma real_frame_count st d k :
  count_kind k (Real.on_tracking_data throws st d)
  = match k with
    | low_attention => if Qlt_le_dec (attention_score d) 60 then 1%nat else 0%nat
    | distraction => if decide (distraction_type d = "none") then 0%nat else 1%nat
    | eye_strain => if Qlt_le_dec 20 (eye_strain_level d) then 1%nat else 0%nat
    | posture => 0%nat
    end.
Proof.
  unfold count_kind. rewrite real_frame_alerts.
  destruct (Qlt_le_dec (attention_score d) 60), (decide (distraction_type d = "none")),
    (Qlt_le_dec 20 (eye_strain_level d)), k; reflexivity.
Qed.

(** A run of frames: the state is the one before, and the alerts of each
    kind add up frame by frame. *)
Lemma real_frames_run st ds k :
  (Real.run throws stored_token st (map Real.SockTrackingData ds)).1 = st
  /\ count_kind k (Real.run throws stored_token st (map Real.SockTrackingData ds)).2
     = sum_list (map (fun d => count_kind k (Real.on_tracking_data throws st d)) ds).
Proof.
  induction ds as [|d rest [IHs IHc]]; [by split|].
  cbn [map Real.run Real.step].
  destruct (Real.run throws stored_token st (map Real.SockTrackingData rest)) as [st2 tr2].
  cbn [fst snd] in *. subst st2. split; [reflexivity|].
  by rewrite count_kind_app, IHc.
Qed.

End RealFrames.

(** ** Frames and alerts of the generator *)

Section MockFrames.
Variable throws : Oracle.
Variable Msin : Q -> Q.

Lemma mock_emit_alerts st event data :
  alerts (Mock.emit throws st event data)
  = match data with PAlert a => [a] | _ => [] end.
Proof. unfold alerts. rewrite mock_emit_omap by done. by destruct data. Qed.

Lemma mock_gated_alert_unfold st tk cond p mk r c :
  Mock.gated_alert throws st tk cond p mk r c
  = (if cond && Qltb (random tk r) p
     then Mock.emit throws st "attention_alert" (PAlert (mk (clock tk c) (clock tk (S c))))
     else [],
     if cond then S r else r,
     if cond && Qltb (random tk r) p then S (S c) else c).
Proof.
  unfold Mock.gated_alert, Qltb. destruct cond; [|reflexivity].
  by destruct (Qlt_le_dec (random tk r) p).
Qed.

Lemma mock_tick_count st tk k :
  let f := Mock.mock_frame Msin tk in
  count_kind k (Mock.generateMockFocusData throws Msin st tk)
  = if Mock.sessionActive st
       && match k with
          | low_attention =>
              Qltb (m_attention_score f) 0.4 && Qltb (random tk 6) 0.15
          | eye_strain =>
              Qltb 30 (m_eye_strain_level f)
              && Qltb (random tk (Mock.draws_before_eye_strain f)) 0.1
          | posture =>
              Qltb (m_posture_score f) 70
              && Qltb (random tk (Mock.draws_before_posture f)) 0.08
          | distraction => false
          end
    then 1%nat else 0%nat.
Proof.
  intros f. unfold Mock.generateMockFocusData.
  destruct (Mock.sessionActive st); [|reflexivity]. cbn [negb andb].
  rewrite !mock_gated_alert_unfold.
  unfold Mock.draws_before_posture, Mock.draws_before_eye_strain. fold f.
  rewrite !count_kind_app. unfold count_kind at 1 2. rewrite !mock_emit_alerts.
  cbn [filter length Nat.add list_filter].
  destruct (Qltb (m_attention_score f) 0.4), (Qltb 30 (m_eye_strain_level f)),
    (Qltb (m_posture_score f) 70); cbn [andb Nat.add];
  repeat match goal with
         | |- context [Qltb (random tk ?i) ?p] => destruct (Qltb (random tk i) p)
         end;
  unfold count_kind; rewrite ?mock_emit_alerts; destruct k; reflexivity.
Qed.

Lemma mock_tick_kinds st tk :
  Forall (fun ks => ks ∈ [(low_attention, warning); (eye_strain, error); (posture, warning)])
         (kinds (Mock.generateMockFocusData throws Msin st tk)).
Proof.
  unfold Mock.generateMockFocusData.
  destruct (Mock.sessionActive st); [|constructor]. cbn [negb].
  rewrite !mock_gated_alert_unfold.
  rewrite !kinds_app. unfold kinds at 1 2. rewrite !mock_emit_alerts. cbn [map app].
  repeat match goal with
         | |- context [if ?b && ?c then _ else _] => destruct b; cbn [andb]
         | |- context [if Qltb ?x ?y then _ else _] => destruct (Qltb x y)
         end;
  unfold kinds; rewrite ?mock_emit_alerts; cbn [map app];
  repeat constructor; set_solver.
Qed.

End MockFrames.

(** ** Ranges of the generator's frames *)

Lemma clamp_range (lo hi x : Q) :
  (lo <= hi)%Q -> (lo <= Qmax lo (Qmin hi x) <= hi)%Q.
Proof.
  intros Hle. split.
  - apply Q.le_max_l.
  - apply Q.max_lub; [exact Hle | apply Q.le_min_l].
Qed.

Lemma gaze_range (r : Q) :
  (0 <= r < 1)%Q -> (0.35 <= 0.5 + (r - 0.5) * 0.3 < 0.65)%Q.
Proof. intros [H0 H1]. split; lra. Qed.

Section MockRanges.
Variable Msin : Q -> Q.

Lemma mock_frame_ranges tk :
  let f := Mock.mock_frame Msin tk in
  (0 <= m_attention_score f <= 1)%Q
  /\ (0 <= m_eye_strain_level f <= 50)%Q
  /\ (60 <= m_posture_score f <= 100)%Q.
Proof.
  intros f. subst f. unfold Mock.mock_frame. cbn [m_attention_score m_eye_strain_level m_posture_score].
  repeat split; apply clamp_range; lra.
Qed.

End MockRanges.

Lemma Qltb_lt x y : Qltb x y = true <-> (x < y)%Q.
Proof.
  unfold Qltb. destruct (Qlt_le_dec x y) as [Hlt|Hle].
  - by split.
  - split; [discriminate|]. intros Hlt. exfalso. by apply (Qle_not_lt _ _ Hle).
Qed.

(** ** Claims on frames and alerts *)

(** C3, as stated, fails on the live path: the [tracking_data] handler
    copies the wire values without clamping.  A frame with attention 75, on
    the 0 to 100 scale the handler's own threshold of 60 uses, is published
    with [attention_score] 75, outside [0,1]. *)
Lemma C3_live_frame_out_of_range :
  let d := wire_frame "2024-05-01T10:00:00.000Z" 75 10 90 "none" in
  let tr := (Real.step quiet None (Real.new quiet true).1 (Real.SockTrackingData d)).2 in
  live_frames tr = [Real.transform d]
  /\ t_attention_score (Real.transform d) = 75%Q
  /\ ~ (0 <= t_attention_score (Real.transform d) <= 1)%Q.
Proof.
  split; [reflexivity|]. split; [reflexivity|].
  intros [_ H]. vm_compute in H. by apply H.
Qed.

(** C3 (amended).  Every frame published by the synthetic generator has
    [attention_score] in [0,1], [eye_strain_level] in [0,100] (in fact
    [0,50]) and [posture_score] in [0,100] (in fact [60,100]), clamped by
    the generator itself, and, [Math.random] returning values in [0,1), both
    coordinates of [gaze_position] in [-1,1] (in fact [0.35,0.65)).  The live
    service publishes one frame per wire frame with every numeric field
    equal to the wire value. *)
Theorem C3_generator_frames_in_range
    (throws : Oracle) (stored_token : option string) (Msin : Q -> Q)
    (ms : Mock.State) (h : nat) (tk : Tick) (rs : Real.State) (d : TrackingData) :
  (forall k, (0 <= random tk k < 1)%Q) ->
  (forall f, f ∈ frames (Mock.step throws Msin ms (Mock.IntervalFires h tk)).2 ->
     (0 <= m_attention_score f <= 1)%Q
     /\ (0 <= m_eye_strain_level f <= 50)%Q
     /\ (60 <= m_posture_score f <= 100)%Q
     /\ (0.35 <= gaze_x (m_gaze_position f) < 0.65)%Q
     /\ (0.35 <= gaze_y (m_gaze_position f) < 0.65)%Q)
  /\ (forall f, f ∈ frames (Mock.step throws Msin ms (Mock.IntervalFires h tk)).2 ->
     (0 <= m_attention_score f <= 1)%Q
     /\ (0 <= m_eye_strain_level f <= 100)%Q
     /\ (0 <= m_posture_score f <= 100)%Q
     /\ (-1 <= gaze_x (m_gaze_position f) <= 1)%Q
     /\ (-1 <= gaze_y (m_gaze_position f) <= 1)%Q)
  /\ live_frames (Real.step throws stored_token rs (Real.SockTrackingData d)).2
     = [Real.transform d]
  /\ t_attention_score (Real.transform d) = attention_score d
  /\ t_eye_strain_level (Real.transform d) = eye_strain_level d
  /\ t_posture_score (Real.transform d) = posture_score d
  /\ t_gaze (Real.transform d)
     = {| gaze_x := gaze_direction_x d; gaze_y := gaze_direction_y d |}.
Proof.
  intros Hrand.
  assert (Hframe : forall f, f ∈ frames (Mock.generateMockFocusData throws Msin ms tk) ->
            (0 <= m_attention_score f <= 1)%Q
            /\ (0 <= m_eye_strain_level f <= 50)%Q
            /\ (60 <= m_posture_score f <= 100)%Q
            /\ (0.35 <= gaze_x (m_gaze_position f) < 0.65)%Q
            /\ (0.35 <= gaze_y (m_gaze_position f) < 0.65)%Q).
  { intros f Hf. rewrite mock_generate_frames in Hf.
    destruct (Mock.sessionActive ms); [|by apply elem_of_nil in Hf].
    apply list_elem_of_singleton in Hf as ->.
    destruct (mock_frame_ranges Msin tk) as (Ha & He & Hp).
    repeat split; try tauto.
    all: unfold Mock.mock_frame; cbn [m_gaze_position gaze_x gaze_y];
      apply gaze_range, Hrand. }
  assert (Hstep : forall f,
            f ∈ frames (Mock.step throws Msin ms (Mock.IntervalFires h tk)).2 ->
            f ∈ frames (Mock.generateMockFocusData throws Msin ms tk)).
  { intros f Hf. cbn [Mock.step] in Hf.
    destruct (decide (h ∈ Mock.live ms)); [exact Hf | by apply elem_of_nil in Hf]. }
  split; [|split].
  - intros f Hf. by apply Hframe, Hstep.
  - intros f Hf. destruct (Hframe f (Hstep f Hf)) as (Ha & He & Hp & Hx & Hy).
    repeat split; lra.
  - cbn [Real.step snd]. rewrite real_frame_published. repeat split.
Qed.

(** C3 at a concrete tick of a started generator, which does publish a frame. *)
Lemma C3_generator_frames_witness :
  let zero : Q -> Q := fun _ => 0%Q in
  let tk := {| clock := fun _ => 1000; random := fun _ => 0.5%Q |} in
  let ms := (Mock.startTracking quiet Mock.fresh "s1" "tok").1 in
  let d := wire_frame "2024-05-01T10:00:00.000Z" 75 10 90 "none" in
  frames (Mock.step quiet zero ms (Mock.IntervalFires 1%nat tk)).2 = [Mock.mock_frame zero tk]
  /\ (forall f, f ∈ frames (Mock.step quiet zero ms (Mock.IntervalFires 1%nat tk)).2 ->
     (0 <= m_attention_score f <= 1)%Q
     /\ (0 <= m_eye_strain_level f <= 50)%Q
     /\ (60 <= m_posture_score f <= 100)%Q
     /\ (0.35 <= gaze_x (m_gaze_position f) < 0.65)%Q
     /\ (0.35 <= gaze_y (m_gaze_position f) < 0.65)%Q)
  /\ (forall f, f ∈ frames (Mock.step quiet zero ms (Mock.IntervalFires 1%nat tk)).2 ->
     (0 <= m_attention_score f <= 1)%Q
     /\ (0 <= m_eye_strain_level f <= 100)%Q
     /\ (0 <= m_posture_score f <= 100)%Q
     /\ (-1 <= gaze_x (m_gaze_position f) <= 1)%Q
     /\ (-1 <= gaze_y (m_gaze_position f) <= 1)%Q)
  /\ live_frames (Real.step quiet None Real.fresh (Real.SockTrackingData d)).2
     = [Real.transform d]
  /\ t_attention_score (Real.transform d) = attention_score d
  /\ t_eye_strain_level (Real.transform d) = eye_strain_level d
  /\ t_posture_score (Real.transform d) = posture_score d
  /\ t_gaze (Real.transform d)
     = {| gaze_x := gaze_direction_x d; gaze_y := gaze_direction_y d |}.
Proof.
  split; [reflexivity|].
  apply (C3_generator_frames_in_range quiet None (fun _ => 0%Q)
           (Mock.startTracking quiet Mock.fresh "s1" "tok").1 1%nat
           {| clock := fun _ => 1000; random := fun _ => 0.5%Q |}).
  intros k. cbn [random]. split; [discriminate | reflexivity].
Defined.

(** C4, as stated, fails on the live path.  For a frame with attention 0.9,
    eye strain 10, posture 50 and no distraction the stated rules give one
    [posture] warning; the handler has no posture test and compares the
    attention with 60, so it publishes one [low_attention] warning. *)
Lemma C4_live_thresholds_differ :
  let d := wire_frame "2024-05-01T10:00:00.000Z" 0.9 10 50 "none" in
  let tr := (Real.step quiet None (Real.new quiet true).1 (Real.SockTrackingData d)).2 in
  spec_alert_kinds 0.9 10 50 "none" = [(posture, warning)]
  /\ kinds tr = [(low_attention, warning)].
Proof. split; reflexivity. Qed.

(** C4 (amended).  Each frame is tested on its own.  The live service
    publishes a [low_attention] warning exactly when [attention_score < 60],
    a [distraction] info exactly when [distraction_type] is not "none", an
    [eye_strain] warning exactly when [eye_strain_level > 20], and never a
    [posture] alert.  The generator, while the session is active, publishes
    a [low_attention] warning exactly when [attention_score < 0.4] and its
    next random draw is below 0.15, an [eye_strain] alert of severity error
    exactly when [eye_strain_level > 30] and the next draw is below 0.1, a
    [posture] warning exactly when [posture_score < 70] and the next draw is
    below 0.08, and never a [distraction] alert. *)
Theorem C4_alert_rules_as_coded
    (throws : Oracle) (Msin : Q -> Q)
    (rs : Real.State) (d : TrackingData) (ms : Mock.State) (tk : Tick) :
  let live := Real.on_tracking_data throws rs d in
  let synth := Mock.generateMockFocusData throws Msin ms tk in
  let f := Mock.mock_frame Msin tk in
  count_kind low_attention live = (if Qltb (attention_score d) 60 then 1 else 0)%nat
  /\ count_kind distraction live
     = (if decide (distraction_type d = "none") then 0 else 1)%nat
  /\ count_kind eye_strain live = (if Qltb 20 (eye_strain_level d) then 1 else 0)%nat
  /\ count_kind posture live = 0%nat
  /\ Forall (fun ks => ks ∈ [(low_attention, warning); (distraction, info);
                             (eye_strain, warning)]) (kinds live)
  /\ count_kind low_attention synth
     = (if Mock.sessionActive ms
           && (Qltb (m_attention_score f) 0.4 && Qltb (random tk 6) 0.15)
        then 1 else 0)%nat
  /\ count_kind eye_strain synth
     = (if Mock.sessionActive ms
           && (Qltb 30 (m_eye_strain_level f)
               && Qltb (random tk (Mock.draws_before_eye_strain f)) 0.1)
        then 1 else 0)%nat
  /\ count_kind posture synth
     = (if Mock.sessionActive ms
           && (Qltb (m_posture_score f) 70
               && Qltb (random tk (Mock.draws_before_posture f)) 0.08)
        then 1 else 0)%nat
  /\ count_kind distraction synth = 0%nat
  /\ Forall (fun ks => ks ∈ [(low_attention, warning); (eye_strain, error);
                             (posture, warning)]) (kinds synth).
Proof.
  intros live synth f. subst live synth f.
  split; [rewrite real_frame_count; unfold Qltb; by destruct (Qlt_le_dec _ _)|].
  split; [by rewrite real_frame_count|].
  split; [rewrite real_frame_count; unfold Qltb; by destruct (Qlt_le_dec _ _)|].
  split; [by rewrite real_frame_count|].
  split.
  { unfold kinds. rewrite real_frame_alerts.
    destruct (Qlt_le_dec (attention_score d) 60), (decide (distraction_type d = "none")),
      (Qlt_le_dec 20 (eye_strain_level d)); cbn [map app];
    repeat constructor; set_solver. }
  split; [by rewrite mock_tick_count|].
  split; [by rewrite mock_tick_count|].
  split; [by rewrite mock_tick_count|].
  split; [|apply mock_tick_kinds].
  rewrite mock_tick_count. by rewrite andb_false_r.
Qed.

(** C2, as stated, fails: there is no cooldown.  Two frames of one session
    half a second apart, both with eye strain 25, make the live service
    publish two [eye_strain] alerts. *)
Lemma C2_two_alerts_within_cooldown :
  let d0 := wire_frame "2024-05-01T10:00:00.000Z" 80 25 90 "none" in
  let d1 := wire_frame "2024-05-01T10:00:00.500Z" 80 25 90 "none" in
  let tr := (Real.run quiet None (Real.new quiet true).1
               [Real.SockTrackingData d0; Real.SockTrackingData d1]).2 in
  count_kind eye_strain tr = 2%nat
  /\ alerts tr = [Real.eye_strain_alert d0; Real.eye_strain_alert d1].
Proof. split; reflexivity. Qed.

(** C2 (amended).  No alert is gated by an earlier one.  On the live path
    two frames that both have [eye_strain_level > 20] give two [eye_strain]
    alerts whatever their time stamps, and in general the alerts of each kind
    published for a sequence of frames are those of each frame taken alone,
    the service state being the same after as before.  In the generator the
    alerts of two ticks are likewise those of each tick taken alone. *)
Theorem C2_alerts_are_per_frame
    (throws : Oracle) (stored_token : option string) (Msin : Q -> Q)
    (rs : Real.State) (d0 d1 : TrackingData) (ds : list TrackingData) (k : AlertType)
    (ms : Mock.State) (h : nat) (t0 t1 : Tick) :
  (20 < eye_strain_level d0)%Q ->
  (20 < eye_strain_level d1)%Q ->
  let feed := Real.run throws stored_token rs in
  let ticks := Mock.run throws Msin ms in
  count_kind eye_strain (feed [Real.SockTrackingData d0; Real.SockTrackingData d1]).2 = 2%nat
  /\ (feed (map Real.SockTrackingData ds)).1 = rs
  /\ count_kind k (feed (map Real.SockTrackingData ds)).2
     = sum_list (map (fun d => count_kind k (feed [Real.SockTrackingData d]).2) ds)
  /\ count_kind k (ticks [Mock.IntervalFires h t0; Mock.IntervalFires h t1]).2
     = (count_kind k (ticks [Mock.IntervalFires h t0]).2
        + count_kind k (ticks [Mock.IntervalFires h t1]).2)%nat.
Proof.
  intros H0 H1 feed ticks. subst feed ticks.
  destruct (real_frames_run throws stored_token rs ds k) as [Hst Hsum].
  split; [|split; [exact Hst|split]].
  - destruct (real_frames_run throws stored_token rs [d0; d1] eye_strain) as [_ Hpair].
    cbn [map] in Hpair. rewrite Hpair. cbn [map sum_list].
    rewrite !real_frame_count.
    destruct (Qlt_le_dec 20 (eye_strain_level d0)) as [_|Hle];
      [|exfalso; by apply (Qle_not_lt _ _ Hle)].
    destruct (Qlt_le_dec 20 (eye_strain_level d1)) as [_|Hle];
      [|exfalso; by apply (Qle_not_lt _ _ Hle)].
    reflexivity.
  - rewrite Hsum. f_equal. apply map_ext. intros d.
    cbn [Real.run Real.step snd]. by rewrite app_nil_r.
  - assert (Hfix : forall t, exists tr,
              Mock.step throws Msin ms (Mock.IntervalFires h t) = (ms, tr)).
    { intros t. cbn [Mock.step]. destruct (decide (h ∈ Mock.live ms)); eauto. }
    destruct (Hfix t0) as [tr0 E0], (Hfix t1) as [tr1 E1].
    cbn [Mock.run]. rewrite E0, E1. cbn [fst snd].
    by rewrite !app_nil_r, count_kind_app.
Qed.

(** C2 at two concrete frames half a second apart and a concrete tick. *)
Lemma C2_alerts_are_per_frame_witness :
  let zero : Q -> Q := fun _ => 0%Q in
  let d0 := wire_frame "2024-05-01T10:00:00.000Z" 80 25 90 "none" in
  let d1 := wire_frame "2024-05-01T10:00:00.500Z" 80 30 90 "none" in
  let tk := {| clock := fun _ => 1000; random := fun _ => 0.5%Q |} in
  let ms := (Mock.startTracking quiet Mock.fresh "s1" "tok").1 in
  let feed := Real.run quiet None Real.fresh in
  let ticks := Mock.run quiet zero ms in
  count_kind eye_strain (feed [Real.SockTrackingData d0; Real.SockTrackingData d1]).2 = 2%nat
  /\ (feed (map Real.SockTrackingData [d0; d1; d0])).1 = Real.fresh
  /\ count_kind eye_strain (feed (map Real.SockTrackingData [d0; d1; d0])).2
     = sum_list (map (fun d => count_kind eye_strain (feed [Real.SockTrackingData d]).2)
                     [d0; d1; d0])
  /\ count_kind eye_strain (ticks [Mock.IntervalFires 1%nat tk; Mock.IntervalFires 1%nat tk]).2
     = (count_kind eye_strain (ticks [Mock.IntervalFires 1%nat tk]).2
        + count_kind eye_strain (ticks [Mock.IntervalFires 1%nat tk]).2)%nat.
Proof.
  apply (C2_alerts_are_per_frame quiet None (fun _ => 0%Q) Real.fresh
           (wire_frame "2024-05-01T10:00:00.000Z" 80 25 90 "none")
           (wire_frame "2024-05-01T10:00:00.500Z" 80 30 90 "none")
           [wire_frame "2024-05-01T10:00:00.000Z" 80 25 90 "none";
            wire_frame "2024-05-01T10:00:00.500Z" 80 30 90 "none";
            wire_frame "2024-05-01T10:00:00.000Z" 80 25 90 "none"]
           eye_strain
           (Mock.startTracking quiet Mock.fresh "s1" "tok").1 1%nat
           {| clock := fun _ => 1000; random := fun _ => 0.5%Q |}
           {| clock := fun _ => 1000; random := fun _ => 0.5%Q |});
    reflexivity.
Defined.

(** ** Reconnection of [WebSocketService] *)

Lemma connects_app tr1 tr2 : connects (tr1 ++ tr2) = (connects tr1 + connects tr2)%nat.
Proof. unfold connects. by rewrite omap_app, length_app. Qed.

Section WSReconnect.
Variable throws : Oracle.

Lemma ws_call_all_omap {B} (p : Effect -> option B) event data l :
  (forall ev cb d, p (Invoke ev cb d) = None) ->
  omap p (WS.call_all throws event data l).2 = [].
Proof.
  intros Hinv. induction l as [|cb r IH]; [reflexivity|].
  cbn [WS.call_all]. destruct (throws event cb data).
  - cbn. by rewrite Hinv.
  - destruct (WS.call_all throws event data r) as [o tr]. cbn in *. by rewrite Hinv.
Qed.

Lemma ws_emit_omap {B} (p : Effect -> option B) st event data :
  (forall ev cb d, p (Invoke ev cb d) = None) ->
  omap p (WS.emit throws st event data).2 = omap p [Publish event data].
Proof.
  intros Hinv. unfold WS.emit.
  destruct (WS.listeners st !! event) as [l|]; [|reflexivity].
  pose proof (ws_call_all_omap p event data l Hinv) as Hc.
  destruct (WS.call_all throws event data l) as [o tr]. cbn [snd] in *.
  change (Publish event data :: tr) with ([Publish event data] ++ tr).
  by rewrite omap_app, Hc, app_nil_r.
Qed.

Lemma ws_call_all_returns event data l :
  (forall cb, cb ∈ l -> throws event cb data = false) ->
  (WS.call_all throws event data l).1 = WS.Returned.
Proof.
  induction l as [|cb r IH]; intros Hq; [reflexivity|].
  cbn [WS.call_all]. rewrite (Hq cb) by left.
  specialize (IH (fun c Hc => Hq c (list_elem_of_further _ _ _ Hc))).
  by destruct (WS.call_all throws event data r).
Qed.

Lemma ws_emit_returns st event data :
  (forall cb, cb ∈ registered (WS.listeners st) event -> throws event cb data = false) ->
  (WS.emit throws st event data).1 = WS.Returned.
Proof.
  unfold WS.emit, registered. intros Hq.
  destruct (WS.listeners st !! event) as [l|]; [|reflexivity].
  pose proof (ws_call_all_returns event data l Hq) as Hr.
  by destruct (WS.call_all throws event data l).
Qed.

End WSReconnect.

Section WSBackoff.
Variable throws : Oracle.
Variable message : string.

Lemma ws_mark_fields c st :
  WS.listeners (WS.mark c st) = WS.listeners st
  /\ WS.reconnectAttempts (WS.mark c st) = WS.reconnectAttempts st
  /\ WS.maxReconnectAttempts (WS.mark c st) = WS.maxReconnectAttempts st
  /\ WS.reconnectDelay (WS.mark c st) = WS.reconnectDelay st
  /\ (is_Some (WS.socket st) -> WS.socket (WS.mark c st) = Some c).
Proof.
  unfold WS.mark. destruct (WS.socket st) eqn:Hs; cbn; repeat split; done.
Qed.

(** The state and the trace of one [connect_error], seen through a
    projection that ignores the calls of the listeners. *)
Lemma ws_connect_error_step {B} (p : Effect -> option B) st :
  (forall ev cb d, p (Invoke ev cb d) = None) ->
  WS.error_listeners_quiet throws message st ->
  let r := WS.step throws st (WS.SockConnectError message) in
  let st' := WS.mark false st in
  if decide (WS.maxReconnectAttempts st <= WS.reconnectAttempts st)
  then r.1.1 = st'
       /\ omap p r.2
          = omap p [ConsoleError "WebSocket connection error:";
                    Publish "connection_error" (PConnectionError message);
                    ConsoleError "Max reconnection attempts reached";
                    Publish "max_reconnect_attempts_reached" PUndefined]
  else r.1 = (WS.set_reconnectAttempts (WS.reconnectAttempts st + 1) st', WS.Returned)
       /\ omap p r.2
          = omap p [ConsoleError "WebSocket connection error:";
                    Publish "connection_error" (PConnectionError message);
                    ConsoleLog "Attempting to reconnect";
                    SetTimeout (WS.reconnectDelay st * 2 ^ (WS.reconnectAttempts st + 1 - 1))].
Proof.
  intros Hinv Hq r st'. subst r.
  destruct (ws_mark_fields false st) as (Hl & Ha & Hm & Hd & _). fold st' in Hl, Ha, Hm, Hd.
  cbn [WS.step]. unfold WS.logging, WS.emitting. fold st'. cbn [WS.and_then].
  assert (Hret : (WS.emit throws st' "connection_error" (PConnectionError message)).1
                 = WS.Returned).
  { apply ws_emit_returns. rewrite Hl. exact Hq. }
  pose proof (ws_emit_omap throws p st' "connection_error" (PConnectionError message) Hinv)
    as Hemit.
  destruct (WS.emit throws st' "connection_error" (PConnectionError message)) as [o tr].
  cbn [fst snd] in Hret, Hemit. subst o. cbn [WS.and_then].
  unfold WS.handleReconnection. rewrite Hm, Ha.
  destruct (decide (WS.maxReconnectAttempts st <= WS.reconnectAttempts st)) as [Hmax|Hless].
  - pose proof (ws_emit_omap throws p st' "max_reconnect_attempts_reached" PUndefined Hinv)
      as Hemit2.
    destruct (WS.emit throws st' "max_reconnect_attempts_reached" PUndefined) as [o2 tr2].
    cbn [fst snd] in *. split; [reflexivity|].
    rewrite !omap_app.
    change (omap p (?b :: tr2)) with (omap p ([b] ++ tr2)).
    rewrite omap_app, Hemit, Hemit2. by rewrite <- !omap_app.
  - cbn [fst snd WS.reconnectAttempts WS.reconnectDelay WS.set_reconnectAttempts].
    rewrite Hd. split; [reflexivity|].
    rewrite !omap_app, Hemit. by rewrite <- !omap_app.
Qed.

End WSBackoff.

Section WSFailingRun.
Variable throws : Oracle.
Variable message : string.

(** One failed attempt below the maximum: the counter goes up by one and one
    timer is armed, its delay the base delay times two to the power of the
    attempts made before. *)
Lemma ws_connect_error_below st :
  WS.error_listeners_quiet throws message st ->
  WS.reconnectAttempts st < WS.maxReconnectAttempts st ->
  let r := WS.step throws st (WS.SockConnectError message) in
  r.1 = (WS.set_reconnectAttempts (WS.reconnectAttempts st + 1) (WS.mark false st),
         WS.Returned)
  /\ timeouts r.2 = [WS.reconnectDelay st * 2 ^ (WS.reconnectAttempts st + 1 - 1)]
  /\ published r.2 = [("connection_error", PConnectionError message)]
  /\ connects r.2 = 0%nat.
Proof.
  intros Hq Hlt r.
  pose proof (ws_connect_error_step throws message
                (fun e => match e with SetTimeout d => Some d | _ => None end)
                st (fun _ _ _ => eq_refl) Hq) as Ht.
  pose proof (ws_connect_error_step throws message
                (fun e => match e with Publish ev d => Some (ev, d) | _ => None end)
                st (fun _ _ _ => eq_refl) Hq) as Hp.
  pose proof (ws_connect_error_step throws message
                (fun e => match e with SocketConnect => Some tt | _ => None end)
                st (fun _ _ _ => eq_refl) Hq) as Hc.
  cbn zeta in Ht, Hp, Hc. fold r in Ht, Hp, Hc.
  destruct (decide (WS.maxReconnectAttempts st <= WS.reconnectAttempts st)); [lia|].
  destruct Ht as [Hst Ht], Hp as [_ Hp], Hc as [_ Hc].
  split; [exact Hst|]. split; [exact Ht|]. split; [exact Hp|].
  unfold connects. by rewrite Hc.
Qed.

(** One failed attempt at the maximum: no timer, the terminal status. *)
Lemma ws_connect_error_exhausted st :
  WS.error_listeners_quiet throws message st ->
  WS.maxReconnectAttempts st <= WS.reconnectAttempts st ->
  let r := WS.step throws st (WS.SockConnectError message) in
  r.1.1 = WS.mark false st
  /\ timeouts r.2 = []
  /\ published r.2 = [("connection_error", PConnectionError message);
                      ("max_reconnect_attempts_reached", PUndefined)]
  /\ connects r.2 = 0%nat.
Proof.
  intros Hq Hle r.
  pose proof (ws_connect_error_step throws message
                (fun e => match e with SetTimeout d => Some d | _ => None end)
                st (fun _ _ _ => eq_refl) Hq) as Ht.
  pose proof (ws_connect_error_step throws message
                (fun e => match e with Publish ev d => Some (ev, d) | _ => None end)
                st (fun _ _ _ => eq_refl) Hq) as Hp.
  pose proof (ws_connect_error_step throws message
                (fun e => match e with SocketConnect => Some tt | _ => None end)
                st (fun _ _ _ => eq_refl) Hq) as Hc.
  cbn zeta in Ht, Hp, Hc. fold r in Ht, Hp, Hc.
  destruct (decide (WS.maxReconnectAttempts st <= WS.reconnectAttempts st)); [|lia].
  destruct Ht as [Hst Ht], Hp as [_ Hp], Hc as [_ Hc].
  split; [exact Hst|]. split; [exact Ht|]. split; [exact Hp|].
  unfold connects. by rewrite Hc.
Qed.

(** With [n] attempts left before the maximum, a transport that fails every
    attempt makes the service arm [n] timers, each delay twice the one
    before, call [socket.connect()] [n] times, and then publish
    [max_reconnect_attempts_reached] once. *)
Lemma ws_failing_run (n : nat) : forall (st : WS.State) (fuel : nat),
  is_Some (WS.socket st) ->
  WS.error_listeners_quiet throws message st ->
  WS.maxReconnectAttempts st = WS.reconnectAttempts st + Z.of_nat n ->
  (n < fuel)%nat ->
  let r := WS.failing_run throws fuel message st in
  timeouts r.2
  = map (fun k => WS.reconnectDelay st * 2 ^ (WS.reconnectAttempts st + Z.of_nat k)) (seq 0 n)
  /\ connects r.2 = n
  /\ published r.2
     = replicate (S n) ("connection_error", PConnectionError message)
       ++ [("max_reconnect_attempts_reached", PUndefined)]
  /\ WS.reconnectAttempts r.1 = WS.maxReconnectAttempts st
  /\ WS.maxReconnectAttempts r.1 = WS.maxReconnectAttempts st
  /\ WS.listeners r.1 = WS.listeners st
  /\ is_Some (WS.socket r.1).
Proof.
  induction n as [|n IH]; intros st fuel Hsock Hq Hmax Hfuel r; subst r;
    (destruct fuel as [|fuel]; [lia|]); cbn [WS.failing_run];
    destruct (ws_mark_fields false st) as (Hl & Ha & Hm & Hd & Hs); specialize (Hs Hsock).
  - destruct (ws_connect_error_exhausted st Hq ltac:(lia)) as (Hst & Ht & Hp & Hc).
    destruct (WS.step throws st (WS.SockConnectError message)) as [[st1 o] tr1].
    cbn [fst snd] in Hst, Ht, Hp, Hc. subst st1. rewrite Ht.
    assert (Hres : (match o with
                    | WS.Returned => (WS.mark false st, tr1)
                    | WS.Threw => (WS.mark false st, tr1)
                    end) = (WS.mark false st, tr1)) by (by destruct o).
    rewrite Hres. cbn [fst snd].
    rewrite Ht, Hp, Hc, Ha, Hm, Hl, Hs.
    repeat split; try reflexivity; [lia | eauto].
  - destruct (ws_connect_error_below st Hq ltac:(lia)) as (Hst & Ht & Hp & Hc).
    destruct (WS.step throws st (WS.SockConnectError message)) as [[st1' o] tr1].
    cbn [fst snd] in Hst, Ht, Hp, Hc. injection Hst as -> ->. rewrite Ht.
    set (st1 := WS.set_reconnectAttempts (WS.reconnectAttempts st + 1) (WS.mark false st)).
    assert (Hs1 : WS.socket st1 = Some false) by exact Hs.
    cbn [WS.step]. rewrite Hs1. cbn [existsb is_SocketConnect orb].
    assert (Hq1 : WS.error_listeners_quiet throws message st1).
    { unfold WS.error_listeners_quiet. subst st1. cbn [WS.listeners WS.set_reconnectAttempts].
      rewrite Hl. exact Hq. }
    assert (Hmax1 : WS.maxReconnectAttempts st1 = WS.reconnectAttempts st1 + Z.of_nat n).
    { subst st1. cbn [WS.maxReconnectAttempts WS.reconnectAttempts WS.set_reconnectAttempts].
      rewrite Hm. lia. }
    destruct (IH st1 fuel ltac:(rewrite Hs1; eauto) Hq1 Hmax1 ltac:(lia))
      as (It & Ic & Ip & Ia & Im & Il & Is).
    destruct (WS.failing_run throws fuel message st1) as [st3 tr3].
    cbn [fst snd] in *.
    rewrite !timeouts_app, !published_app, !connects_app, Ht, Hp, Hc, It, Ic, Ip, Ia, Im, Il.
    subst st1. cbn [WS.maxReconnectAttempts WS.reconnectAttempts WS.reconnectDelay
                    WS.listeners WS.set_reconnectAttempts].
    rewrite ?Hm, ?Hl, ?Hd, ?Ha.
    repeat split; try reflexivity; try done.
    cbn [app seq map]. f_equal.
    + f_equal. f_equal. lia.
    + rewrite <- seq_shift, map_map. apply map_ext. intros k. f_equal. f_equal. lia.
Qed.

End WSFailingRun.

Section WSExhausted.
Variable throws : Oracle.

Lemma ws_emit_timeouts st event data : timeouts (WS.emit throws st event data).2 = [].
Proof. unfold timeouts. by rewrite ws_emit_omap. Qed.

Lemma ws_handle_exhausted st :
  WS.maxReconnectAttempts st <= WS.reconnectAttempts st ->
  (WS.handleReconnection throws st).1.1 = st
  /\ timeouts (WS.handleReconnection throws st).2 = [].
Proof.
  intros Hle. unfold WS.handleReconnection.
  destruct (decide (WS.maxReconnectAttempts st <= WS.reconnectAttempts st)); [|lia].
  pose proof (ws_emit_timeouts st "max_reconnect_attempts_reached" PUndefined) as Ht.
  destruct (WS.emit throws st "max_reconnect_attempts_reached" PUndefined) as [o tr].
  by split.
Qed.

(** Once the maximum is reached, a failed attempt or a lost connection arms
    no timer and leaves the counter where it is, whatever the listeners do. *)
Lemma ws_exhausted_stays st op :
  WS.maxReconnectAttempts st <= WS.reconnectAttempts st ->
  WS.is_failure op = true ->
  timeouts (WS.step throws st op).2 = []
  /\ WS.reconnectAttempts (WS.step throws st op).1.1 = WS.reconnectAttempts st
  /\ WS.maxReconnectAttempts (WS.step throws st op).1.1 = WS.maxReconnectAttempts st.
Proof.
  intros Hle Hop.
  destruct (ws_mark_fields false st) as (_ & Ha & Hm & _ & _).
  assert (Hle' : WS.maxReconnectAttempts (WS.mark false st)
                 <= WS.reconnectAttempts (WS.mark false st)) by (rewrite Ha, Hm; exact Hle).
  destruct (ws_handle_exhausted (WS.mark false st) Hle') as [Hhs Hht].
  destruct op; try discriminate Hop; cbn [WS.step]; unfold WS.logging, WS.emitting;
    cbn [WS.and_then].
  - pose proof (ws_emit_timeouts (WS.mark false st) "connection_status"
                  (PConnectionStatus false (Some reason))) as Ht.
    destruct (WS.emit throws (WS.mark false st) "connection_status"
                (PConnectionStatus false (Some reason))) as [o tr].
    cbn [snd] in Ht. destruct o; cbn [WS.and_then fst snd].
    + destruct (decide (reason = "io server disconnect")).
      * cbn [fst snd]. rewrite !timeouts_app, Ht. by rewrite Ha, Hm.
      * destruct (WS.handleReconnection throws (WS.mark false st)) as [[st2 o2] tr2].
        cbn [fst snd] in *. subst st2. rewrite !timeouts_app, Ht, Hht. by rewrite Ha, Hm.
    + rewrite !timeouts_app, Ht. by rewrite Ha, Hm.
  - pose proof (ws_emit_timeouts (WS.mark false st) "connection_error"
                  (PConnectionError message)) as Ht.
    destruct (WS.emit throws (WS.mark false st) "connection_error"
                (PConnectionError message)) as [o tr].
    cbn [snd] in Ht. destruct o; cbn [WS.and_then fst snd].
    + destruct (WS.handleReconnection throws (WS.mark false st)) as [[st2 o2] tr2].
      cbn [fst snd] in *. subst st2. rewrite !timeouts_app, Ht, Hht. by rewrite Ha, Hm.
    + rewrite !timeouts_app, Ht. by rewrite Ha, Hm.
Qed.

(** The [connect] handler zeroes the counter before it publishes, so the
    reset holds even when a listener throws; [reconnect()] zeroes it too. *)
Lemma ws_connect_resets st :
  WS.reconnectAttempts (WS.step throws st WS.SockConnect).1.1 = 0.
Proof.
  cbn [WS.step]. unfold WS.logging, WS.emitting. cbn [WS.and_then].
  destruct (WS.emit throws _ "connection_status" (PConnectionStatus true None)) as [o tr].
  by destruct o.
Qed.

Lemma ws_reconnect_resets st :
  WS.reconnectAttempts (WS.step throws st WS.Reconnect).1.1 = 0
  /\ WS.socket (WS.step throws st WS.Reconnect).1.1 = Some false.
Proof.
  cbn [WS.step]. unfold WS.reconnect, WS.disconnect.
  by destruct (WS.socket st).
Qed.

End WSExhausted.

(** ** Claim on reconnection *)

(** C1, as stated, fails for [RealWebSocketService].  When every attempt
    ends in [connect_error], its handler only publishes the error and arms
    no timer.  When every connection is dropped, its [disconnect] handler
    arms five timers with delays 0, 1000, 2000, 3000 and 4000 ms, the base
    delay times the attempts made so far, and after the fifth attempt it
    publishes nothing but the ordinary [connection_status]. *)
Lemma C1_real_backoff_is_linear :
  let st := (Real.new quiet true).1 in
  let failed := Real.step quiet None st (Real.SockConnectError (Some "timeout")) in
  let dropped := Real.dropping_run quiet None 10 "transport close" st in
  timeouts failed.2 = []
  /\ timeouts dropped.2 = [0; 1000; 2000; 3000; 4000]
  /\ timeouts dropped.2 <> map (fun k => 1000 * 2 ^ (k - 1)) [1; 2; 3; 4; 5]
  /\ published dropped.2
     = replicate 6 ("connection_status", PConnectionStatus false (Some "transport close")).
Proof. vm_compute. repeat split. discriminate. Qed.

(** C1 (amended).  [WebSocketService], five attempts allowed, none made yet,
    no subscriber of [connection_error] throwing, on a transport that fails
    every connect attempt: exactly five reconnect attempts are scheduled and
    made, the delay before the k-th is the base delay times 2^(k-1), so the
    delays never decrease; the failure of the fifth publishes
    [max_reconnect_attempts_reached], once; after that a failed attempt or a
    lost connection schedules nothing and leaves the counter at five, until
    [reconnect()] is called, which sets it to zero.  Every [connect] event
    sets the counter to zero. *)
Theorem C1_ws_exponential_backoff
    (throws : Oracle) (message : string) (st : WS.State) (fuel : nat) :
  is_Some (WS.socket st) ->
  WS.reconnectAttempts st = 0 ->
  WS.maxReconnectAttempts st = 5 ->
  0 <= WS.reconnectDelay st ->
  WS.error_listeners_quiet throws message st ->
  (5 < fuel)%nat ->
  let r := WS.failing_run throws fuel message st in
  timeouts r.2 = map (fun k => WS.reconnectDelay st * 2 ^ (k - 1)) [1; 2; 3; 4; 5]
  /\ Sorted Z.le (timeouts r.2)
  /\ connects r.2 = 5%nat
  /\ published r.2
     = replicate 6 ("connection_error", PConnectionError message)
       ++ [("max_reconnect_attempts_reached", PUndefined)]
  /\ WS.reconnectAttempts r.1 = 5
  /\ (forall op, WS.is_failure op = true ->
        timeouts (WS.step throws r.1 op).2 = []
        /\ WS.reconnectAttempts (WS.step throws r.1 op).1.1 = 5)
  /\ WS.reconnectAttempts (WS.step throws r.1 WS.Reconnect).1.1 = 0
  /\ (forall st', WS.reconnectAttempts (WS.step throws st' WS.SockConnect).1.1 = 0).
Proof.
  intros Hsock Hzero Hfive Hdelay Hq Hfuel r.
  destruct (ws_failing_run throws message 5 st fuel Hsock Hq ltac:(lia) Hfuel)
    as (Ht & Hc & Hp & Ha & Hm & _ & _).
  fold r in Ht, Hc, Hp, Ha, Hm. rewrite Hzero in Ht. rewrite Hfive in Ha, Hm.
  assert (Hlist : timeouts r.2
                  = map (fun k => WS.reconnectDelay st * 2 ^ (k - 1)) [1; 2; 3; 4; 5])
    by exact Ht.
  repeat split; try assumption.
  - rewrite Hlist. cbn [map].
    change (2 ^ (1 - 1)) with 1. change (2 ^ (2 - 1)) with 2.
    change (2 ^ (3 - 1)) with 4. change (2 ^ (4 - 1)) with 8.
    change (2 ^ (5 - 1)) with 16.
    repeat constructor; lia.
  - by apply ws_exhausted_stays; [lia|].
  - destruct (ws_exhausted_stays throws r.1 op ltac:(lia) H) as (_ & Hsame & _).
    by rewrite Hsame.
  - apply ws_reconnect_resets.
  - intros st'. apply ws_connect_resets.
Qed.

(** C1 at a concrete service: one quiet subscriber of [connection_error],
    eight attempts of fuel. *)
Lemma C1_ws_exponential_backoff_witness :
  let st := WS.on WS.new.1 "connection_error" 4%nat in
  let r := WS.failing_run quiet 8 "timeout" st in
  timeouts r.2 = map (fun k => WS.reconnectDelay st * 2 ^ (k - 1)) [1; 2; 3; 4; 5]
  /\ Sorted Z.le (timeouts r.2)
  /\ connects r.2 = 5%nat
  /\ published r.2
     = replicate 6 ("connection_error", PConnectionError "timeout")
       ++ [("max_reconnect_attempts_reached", PUndefined)]
  /\ WS.reconnectAttempts r.1 = 5
  /\ (forall op, WS.is_failure op = true ->
        timeouts (WS.step quiet r.1 op).2 = []
        /\ WS.reconnectAttempts (WS.step quiet r.1 op).1.1 = 5)
  /\ WS.reconnectAttempts (WS.step quiet r.1 WS.Reconnect).1.1 = 0
  /\ (forall st', WS.reconnectAttempts (WS.step quiet st' WS.SockConnect).1.1 = 0).
Proof.
  apply (C1_ws_exponential_backoff quiet "timeout"
           (WS.on WS.new.1 "connection_error" 4%nat) 8).
  - vm_compute. eauto.
  - reflexivity.
  - reflexivity.
  - vm_compute. discriminate.
  - intros cb _. reflexivity.
  - lia.
Defined.

(** The missing [try] of [WebSocketService.emit] also reaches reconnection:
    when a subscriber of [connection_error] throws, the handler is left
    before [handleReconnection], so nothing is scheduled.  This is why C1
    asks for subscribers that do not throw. *)
Lemma ws_throwing_listener_blocks_reconnect :
  let st := WS.on WS.new.1 "connection_error" 1%nat in
  let r := WS.step first_throws st (WS.SockConnectError "timeout") in
  r.1.2 = WS.Threw /\ timeouts r.2 = [] /\ WS.reconnectAttempts r.1.1 = 0.
Proof. vm_compute. repeat split. Qed.

(** ** The generator on real inputs *)

Section MockQuiet.
Variable throws : Oracle.
Variable Msin : Q -> Q.
Hypothesis Msin_range : forall x, (-1 <= Msin x <= 1)%Q.

Lemma clamp_at_least (lo hi x c : Q) :
  (c <= hi)%Q -> (c <= x)%Q -> (c <= Qmax lo (Qmin hi x))%Q.
Proof.
  intros Hhi Hx. apply Qle_trans with (Qmin hi x).
  - by apply Q.min_glb.
  - apply Q.le_max_r.
Qed.

Lemma clamp_at_most (lo hi x c : Q) :
  (lo <= c)%Q -> (x <= c)%Q -> (Qmax lo (Qmin hi x) <= c)%Q.
Proof.
  intros Hlo Hx. apply Q.max_lub; [exact Hlo|].
  apply Qle_trans with x; [apply Q.le_min_r | exact Hx].
Qed.

(** With [Math.sin] in [-1,1] and [Math.random] in [0,1) the three tests of
    the generator never hold: attention stays at 0.5 or above, eye strain at
    27.5 or below, posture at 72.5 or above, and no alert is published. *)
Lemma mock_never_alerts st tk :
  (forall k, (0 <= random tk k < 1)%Q) ->
  alerts (Mock.generateMockFocusData throws Msin st tk) = [].
Proof.
  intros Hrand.
  set (f := Mock.mock_frame Msin tk).
  assert (Ha : Qltb (m_attention_score f) 0.4 = false).
  { unfold Qltb. destruct (Qlt_le_dec (m_attention_score f) 0.4) as [Hlt|]; [|reflexivity].
    exfalso. apply (Qlt_not_le _ _ Hlt).
    apply Qle_trans with 0.5%Q; [discriminate|].
    subst f. unfold Mock.mock_frame. cbn [m_attention_score].
    pose proof (Msin_range (inject_Z (clock tk 0) / 20000)) as [Hs _].
    pose proof (Hrand 0%nat) as [Hr _].
    apply clamp_at_least; [discriminate|]. apply Qle_shift_div_l; [reflexivity|]. lra. }
  assert (He : Qltb 30 (m_eye_strain_level f) = false).
  { unfold Qltb. destruct (Qlt_le_dec 30 (m_eye_strain_level f)) as [Hlt|]; [|reflexivity].
    exfalso. apply (Qlt_not_le _ _ Hlt).
    apply Qle_trans with 27.5%Q; [|discriminate].
    subst f. unfold Mock.mock_frame. cbn [m_eye_strain_level].
    pose proof (Msin_range (inject_Z (clock tk 0) / 30000)) as [_ Hs].
    pose proof (Hrand 1%nat) as [_ Hr].
    apply clamp_at_most; [discriminate|]. lra. }
  assert (Hp : Qltb (m_posture_score f) 70 = false).
  { unfold Qltb. destruct (Qlt_le_dec (m_posture_score f) 70) as [Hlt|]; [|reflexivity].
    exfalso. apply (Qlt_not_le _ _ Hlt).
    apply Qle_trans with 72.5%Q; [discriminate|].
    subst f. unfold Mock.mock_frame. cbn [m_posture_score].
    pose proof (Msin_range (inject_Z (clock tk 0) / 25000)) as [Hs _].
    pose proof (Hrand 2%nat) as [Hr _].
    apply clamp_at_least; [discriminate|]. lra. }
  unfold Mock.generateMockFocusData.
  destruct (Mock.sessionActive st); [|reflexivity]. cbn [negb].
  fold f. rewrite Ha, He, Hp. unfold Mock.gated_alert.
  rewrite !alerts_app, !mock_emit_alerts. reflexivity.
Qed.

End MockQuiet.

(** * Further properties of the services *)

(** ** Subscribing and unsubscribing *)

Lemma remove_first_app_absent l cb : cb ∉ l -> remove_first (l ++ [cb]) cb = l.
Proof.
  induction l as [|x r IH]; intros Hnot.
  - cbn. rewrite remove_first_cons. by rewrite decide_True.
  - apply not_elem_of_cons in Hnot as [Hx Hr].
    change ((x :: r) ++ [cb]) with (x :: (r ++ [cb])).
    rewrite remove_first_cons. rewrite decide_False by congruence. by rewrite IH.
Qed.

Lemma real_emit_registered throws st event data :
  Real.emit throws st event data
  = Publish event data
    :: flat_map (Real.call_caught throws event data) (registered (Real.eventListeners st) event).
Proof.
  unfold Real.emit, registered. by destruct (Real.eventListeners st !! event).
Qed.

(** [on] followed by [off] of the same callback, not registered before on
    that event, leaves every event with the listeners it had, and so every
    later [emit] with the effects it would have had. *)
Theorem real_on_off_round_trip
    (throws : Oracle) (st : Real.State) (event : string) (cb : Callback)
    (event' : string) (data : Payload) :
  cb ∉ registered (Real.eventListeners st) event ->
  let st' := Real.off (Real.on st event cb) event cb in
  registered (Real.eventListeners st') event' = registered (Real.eventListeners st) event'
  /\ Real.emit throws st' event' data = Real.emit throws st event' data.
Proof.
  intros Hnot st'.
  assert (Hreg : registered (Real.eventListeners st') event'
                 = registered (Real.eventListeners st) event').
  { subst st'. cbn [Real.off Real.on Real.eventListeners Real.set_eventListeners].
    destruct (decide (event = event')) as [<-|Hne].
    - rewrite registered_drop_same, registered_push_same. by apply remove_first_app_absent.
    - by rewrite registered_drop_other, registered_push_other. }
  split; [exact Hreg|]. by rewrite !real_emit_registered, Hreg.
Qed.

(** The round trip at a service with two other subscribers. *)
Lemma real_on_off_round_trip_witness :
  let st := Real.on (Real.on Real.fresh "attention_alert" 1%nat) "attention_alert" 2%nat in
  let st' := Real.off (Real.on st "attention_alert" 3%nat) "attention_alert" 3%nat in
  registered (Real.eventListeners st') "attention_alert"
  = registered (Real.eventListeners st) "attention_alert"
  /\ Real.emit first_throws st' "attention_alert" PUndefined
     = Real.emit first_throws st "attention_alert" PUndefined.
Proof.
  apply (real_on_off_round_trip first_throws
           (Real.on (Real.on Real.fresh "attention_alert" 1%nat) "attention_alert" 2%nat)
           "attention_alert" 3%nat "attention_alert" PUndefined).
  vm_compute. intros H. repeat (apply elem_of_cons in H as [H|H]; [discriminate H|]).
  by apply elem_of_nil in H.
Defined.

(** A callback subscribed with [on] is called last: an [emit] on its event
    performs what it performed before, then calls the new callback with the
    same payload; an [emit] on another event is unchanged. *)
Theorem real_on_appends_to_dispatch
    (throws : Oracle) (st : Real.State) (event event' : string) (cb : Callback)
    (data : Payload) :
  Real.emit throws (Real.on st event cb) event data
  = Real.emit throws st event data ++ Real.call_caught throws event data cb
  /\ (event <> event' ->
      Real.emit throws (Real.on st event cb) event' data = Real.emit throws st event' data).
Proof.
  split.
  - rewrite !real_emit_registered.
    cbn [Real.on Real.eventListeners Real.set_eventListeners].
    rewrite registered_push_same, flat_map_app. cbn [flat_map]. by rewrite app_nil_r.
  - intros Hne. rewrite !real_emit_registered.
    cbn [Real.on Real.eventListeners Real.set_eventListeners].
    by rewrite registered_push_other.
Qed.

Lemma real_on_appends_witness :
  Real.emit quiet (Real.on Real.fresh "error" 1%nat) "error" PUndefined
  = Real.emit quiet Real.fresh "error" PUndefined
    ++ Real.call_caught quiet "error" PUndefined 1%nat
  /\ ("error" <> "attention_alert" ->
      Real.emit quiet (Real.on Real.fresh "error" 1%nat) "attention_alert" PUndefined
      = Real.emit quiet Real.fresh "attention_alert" PUndefined).
Proof. apply (real_on_appends_to_dispatch quiet Real.fresh "error" "attention_alert"). Defined.

(** [off(event)] without a callback, in [WebSocketService] and in the
    generator, removes every listener of the event and no listener of
    another event; the next [emit] on the event calls nobody. *)
Theorem off_without_callback_clears_event
    (throws : Oracle) (ws : WS.State) (ms : Mock.State) (event event' : string)
    (data : Payload) :
  event <> event' ->
  registered (WS.listeners (WS.off ws event None)) event = []
  /\ registered (WS.listeners (WS.off ws event None)) event'
     = registered (WS.listeners ws) event'
  /\ WS.emit throws (WS.off ws event None) event data = (WS.Returned, [Publish event data])
  /\ registered (Mock.eventHandlers (Mock.off ms event None)) event = []
  /\ registered (Mock.eventHandlers (Mock.off ms event None)) event'
     = registered (Mock.eventHandlers ms) event'
  /\ Mock.emit throws (Mock.off ms event None) event data = [Publish event data].
Proof.
  intros Hne. unfold registered, WS.emit, Mock.emit.
  cbn [WS.off WS.listeners WS.set_listeners Mock.off Mock.eventHandlers Mock.set_eventHandlers].
  rewrite !lookup_delete_eq, !lookup_delete_ne by done. by repeat split.
Qed.

Lemma off_without_callback_witness :
  let ws := WS.on (WS.on WS.new.1 "error" 1%nat) "attention_alert" 2%nat in
  let ms := Mock.on (Mock.on Mock.fresh "error" 1%nat) "attention_alert" 2%nat in
  registered (WS.listeners (WS.off ws "error" None)) "error" = []
  /\ registered (WS.listeners (WS.off ws "error" None)) "attention_alert"
     = registered (WS.listeners ws) "attention_alert"
  /\ WS.emit first_throws (WS.off ws "error" None) "error" PUndefined
     = (WS.Returned, [Publish "error" PUndefined])
  /\ registered (Mock.eventHandlers (Mock.off ms "error" None)) "error" = []
  /\ registered (Mock.eventHandlers (Mock.off ms "error" None)) "attention_alert"
     = registered (Mock.eventHandlers ms) "attention_alert"
  /\ Mock.emit first_throws (Mock.off ms "error" None) "error" PUndefined
     = [Publish "error" PUndefined].
Proof.
  apply (off_without_callback_clears_event first_throws
           (WS.on (WS.on WS.new.1 "error" 1%nat) "attention_alert" 2%nat)
           (Mock.on (Mock.on Mock.fresh "error" 1%nat) "attention_alert" 2%nat)
           "error" "attention_alert" PUndefined).
  discriminate.
Defined.

(** ** Dispatch without a [try] *)

Lemma ws_call_all_quiet throws event data l :
  (forall cb, cb ∈ l -> throws event cb data = false) ->
  WS.call_all throws event data l = (WS.Returned, map (fun cb => Invoke event cb data) l).
Proof.
  induction l as [|cb r IH]; intros Hq; [reflexivity|].
  cbn [WS.call_all map]. rewrite (Hq cb) by left.
  rewrite IH; [reflexivity|]. intros c Hc. apply Hq. by right.
Qed.

Lemma ws_call_all_stops throws event data l1 c l2 :
  (forall cb, cb ∈ l1 -> throws event cb data = false) ->
  throws event c data = true ->
  WS.call_all throws event data (l1 ++ c :: l2)
  = (WS.Threw, map (fun cb => Invoke event cb data) (l1 ++ [c])).
Proof.
  induction l1 as [|cb r IH]; intros Hq Hc.
  - cbn. by rewrite Hc.
  - cbn [app WS.call_all map]. rewrite (Hq cb) by left.
    rewrite IH; [reflexivity| |exact Hc]. intros x Hx. apply Hq. by right.
Qed.

(** [WebSocketService.emit] calls the listeners of the event in the order
    of subscription up to and including the first one that throws: the
    listeners after it are not called and the exception leaves [emit].  When
    none throws, all are called and [emit] returns. *)
Theorem ws_emit_stops_at_first_throw
    (throws : Oracle) (st : WS.State) (event : string) (data : Payload)
    (before : list Callback) (thrower : Callback) (after : list Callback) :
  registered (WS.listeners st) event = before ++ thrower :: after ->
  (forall cb, cb ∈ before -> throws event cb data = false) ->
  throws event thrower data = true ->
  WS.emit throws st event data
  = (WS.Threw,
     Publish event data :: map (fun cb => Invoke event cb data) (before ++ [thrower])).
Proof.
  unfold registered, WS.emit. intros Hreg Hq Hthrow.
  destruct (WS.listeners st !! event) as [l|]; simpl in Hreg.
  - subst l. by rewrite ws_call_all_stops.
  - by destruct before.
Qed.

Lemma ws_emit_stops_witness :
  let st := WS.on (WS.on (WS.on WS.new.1 "error" 2%nat) "error" 1%nat) "error" 3%nat in
  WS.emit first_throws st "error" PUndefined
  = (WS.Threw,
     Publish "error" PUndefined
       :: map (fun cb => Invoke "error" cb PUndefined) ([2%nat] ++ [1%nat])).
Proof.
  apply (ws_emit_stops_at_first_throw first_throws
           (WS.on (WS.on (WS.on WS.new.1 "error" 2%nat) "error" 1%nat) "error" 3%nat)
           "error" PUndefined [2%nat] 1%nat [3%nat]).
  - reflexivity.
  - intros cb Hcb. apply list_elem_of_singleton in Hcb as ->. reflexivity.
  - reflexivity.
Defined.

(** When no listener of the event throws, [WebSocketService.emit] calls
    them all, in the order of subscription, and returns. *)
Theorem ws_emit_calls_all_when_quiet
    (throws : Oracle) (st : WS.State) (event : string) (data : Payload) :
  (forall cb, cb ∈ registered (WS.listeners st) event -> throws event cb data = false) ->
  WS.emit throws st event data
  = (WS.Returned,
     Publish event data
       :: map (fun cb => Invoke event cb data) (registered (WS.listeners st) event)).
Proof.
  unfold registered, WS.emit. intros Hq.
  destruct (WS.listeners st !! event) as [l|]; simpl in Hq; [|reflexivity].
  by rewrite ws_call_all_quiet.
Qed.

Lemma ws_emit_calls_all_witness :
  let st := WS.on (WS.on WS.new.1 "error" 2%nat) "error" 3%nat in
  WS.emit first_throws st "error" PUndefined
  = (WS.Returned,
     Publish "error" PUndefined
       :: map (fun cb => Invoke "error" cb PUndefined) (registered (WS.listeners st) "error")).
Proof.
  apply (ws_emit_calls_all_when_quiet first_throws
           (WS.on (WS.on WS.new.1 "error" 2%nat) "error" 3%nat) "error" PUndefined).
  intros cb Hcb. vm_compute in Hcb.
  repeat (apply elem_of_cons in Hcb as [->|Hcb]; [reflexivity|]).
  by apply elem_of_nil in Hcb.
Defined.

(** ** The live service: who is called, and when *)

Section RealCalls.
Variable throws : Oracle.
Variable stored_token : option string.

Lemma real_emit_calls st event data e cb d :
  (e, cb, d) ∈ invoked (Real.emit throws st event data) ->
  e = event /\ d = data /\ cb ∈ registered (Real.eventListeners st) event.
Proof.
  rewrite real_emit_invoked. intros Hin.
  apply list_elem_of_fmap in Hin as (c & Heq & Hc). injection Heq as -> -> ->. done.
Qed.

Lemma invoked_cons_silent x tr :
  match x with Invoke _ _ _ => False | _ => True end -> invoked (x :: tr) = invoked tr.
Proof. by destruct x. Qed.

Ltac split_invoked H :=
  repeat first
    [ rewrite invoked_app in H
    | rewrite invoked_cons_silent in H by exact I
    | apply elem_of_app in H as [H|H]
    | apply real_emit_calls in H as (-> & -> & H) ].

(** Whatever reaches the service, it calls only callbacks registered at that
    moment for the event it publishes, with the payload it publishes. *)
Lemma real_step_calls_registered st op e cb d :
  (e, cb, d) ∈ invoked (Real.step throws stored_token st op).2 ->
  cb ∈ registered (Real.eventListeners st) e.
Proof.
  intros H. destruct op; cbn [Real.step snd] in H;
    unfold Real.on_disconnect, Real.reconnect_timer, Real.connect, Real.startTracking,
      Real.stopTracking, Real.pauseTracking, Real.resumeTracking, Real.command,
      Real.disconnect, Real.on_tracking_data in H;
    repeat match type of H with
           | context [if ?b then _ else _] => destruct b
           end;
    cbn [fst snd] in H; split_invoked H;
    try (by apply elem_of_nil in H); try exact H.
Qed.

End RealCalls.

Section RealSilence.
Variable throws : Oracle.
Variable stored_token : option string.

Lemma real_step_keeps_empty st op :
  Real.subscribes op = false ->
  Real.eventListeners st = ∅ ->
  Real.eventListeners (Real.step throws stored_token st op).1 = ∅.
Proof.
  intros Hop Hempty.
  destruct op; try discriminate Hop; cbn [Real.step fst];
    unfold Real.on_disconnect, Real.reconnect_timer, Real.connect, Real.startTracking,
      Real.stopTracking, Real.pauseTracking, Real.resumeTracking, Real.command,
      Real.disconnect, Real.off, drop_listener;
    rewrite ?Hempty, ?lookup_empty;
    repeat match goal with
           | |- context [if ?b then _ else _] => destruct b
           end;
    cbn; done.
Qed.

Lemma real_step_silent st op :
  Real.eventListeners st = ∅ -> invoked (Real.step throws stored_token st op).2 = [].
Proof.
  intros Hempty.
  destruct (invoked (Real.step throws stored_token st op).2) as [|[[e cb] d] rest] eqn:Hinv;
    [reflexivity|].
  assert (Hin : (e, cb, d) ∈ invoked (Real.step throws stored_token st op).2)
    by (rewrite Hinv; left).
  apply real_step_calls_registered in Hin.
  unfold registered in Hin. rewrite Hempty, lookup_empty in Hin. by apply elem_of_nil in Hin.
Qed.

Lemma real_silent_core (st : Real.State) (ops : list Real.Op) :
  forallb (fun op => negb (Real.subscribes op)) ops = true ->
  invoked (Real.run throws stored_token (Real.disconnect st).1 ops).2 = [].
Proof.
  assert (Hgen : forall s, Real.eventListeners s = ∅ ->
            forallb (fun op => negb (Real.subscribes op)) ops = true ->
            invoked (Real.run throws stored_token s ops).2 = []).
  { induction ops as [|op rest IH]; intros s Hempty Hops; [reflexivity|].
    cbn [forallb] in Hops. apply andb_true_iff in Hops as [Hop Hrest].
    apply negb_true_iff in Hop.
    pose proof (real_step_keeps_empty s op Hop Hempty) as Hkeep.
    pose proof (real_step_silent s op Hempty) as Hsil.
    cbn [Real.run]. destruct (Real.step throws stored_token s op) as [s1 tr1].
    cbn [fst snd] in *. specialize (IH s1 Hkeep Hrest).
    destruct (Real.run throws stored_token s1 rest) as [s2 tr2]. cbn [fst snd] in *.
    by rewrite invoked_app, Hsil, IH. }
  intros Hops. apply Hgen; [|exact Hops].
  unfold Real.disconnect. by destruct (Real.socket st).
Qed.


End RealSilence.


(** ** Publications and deliveries *)











(** ** The live service: every publication reaches every subscriber *)

Section RealDeliveries.
Variable throws : Oracle.
Variable stored_token : option string.











End RealDeliveries.

(** ** [WebSocketService]: publications and deliveries *)

Section WSDeliveries.
Variable throws : Oracle.







End WSDeliveries.

Section WSRuns.
Variable throws : Oracle.








End WSRuns.

(** ** Claims on subscriptions *)







(** ** Reconnection of the live service *)

Section RealBackoff.
Variable throws : Oracle.
Variable stored_token : option string.
Variable reason : string.








End RealBackoff.


(** ** The events the live service publishes *)

Section RealVocabulary.
Variable throws : Oracle.
Variable stored_token : option string.

Lemma published_cons_silent x tr :
  match x with Publish _ _ => False | _ => True end -> published (x :: tr) = published tr.
Proof. by destruct x. Qed.

Lemma real_step_vocabulary st op e d :
  (e, d) ∈ published (Real.step throws stored_token st op).2 -> Real.well_shaped e d = true.
Proof.
  intros H. destruct op; cbn [Real.step snd] in H;
    unfold Real.on_disconnect, Real.reconnect_timer, Real.connect, Real.startTracking,
      Real.stopTracking, Real.pauseTracking, Real.resumeTracking, Real.command,
      Real.disconnect, Real.on_tracking_data in H;
    repeat match type of H with
           | context [if ?b then _ else _] => destruct b
           end;
    cbn [fst snd] in H;
    repeat first
      [ rewrite published_app in H
      | rewrite published_cons_silent in H by exact I
      | rewrite real_emit_published in H
      | apply elem_of_app in H as [H|H]
      | apply list_elem_of_singleton in H; injection H as -> -> ];
    try (by apply elem_of_nil in H); reflexivity.
Qed.

(** Through every run, the live service publishes on six events only,
    [connection_status], [connection_error], [eye_tracking_data],
    [focus_score_update], [attention_alert] and [tracking_status], each with
    its own shape of payload.  It never publishes on [error], nor on the
    [session_started], [session_paused], [session_resumed] and
    [session_ended] of the two other services. *)
Theorem real_publishes_six_events (st : Real.State) (ops : list Real.Op)
    (e : string) (d : Payload) :
  (e, d) ∈ published (Real.run throws stored_token st ops).2 ->
  Real.well_shaped e d = true
  /\ e ∈ ["connection_status"; "connection_error"; "eye_tracking_data";
          "focus_score_update"; "attention_alert"; "tracking_status"]
  /\ e <> "error".
Proof.
  intros H.
  assert (Hshape : Real.well_shaped e d = true).
  { revert st H. induction ops as [|op rest IH]; intros st H.
    - by apply elem_of_nil in H.
    - cbn [Real.run] in H.
      pose proof (real_step_vocabulary st op e d) as Hstep.
      destruct (Real.step throws stored_token st op) as [st1 tr1].
      specialize (IH st1).
      destruct (Real.run throws stored_token st1 rest) as [st2 tr2].
      cbn [fst snd] in *. rewrite published_app in H.
      apply elem_of_app in H as [H|H]; auto. }
  split; [exact Hshape|].
  unfold Real.well_shaped in Hshape.
  destruct d; try discriminate Hshape; apply bool_decide_eq_true in Hshape as ->;
    split; try discriminate; set_solver.
Qed.

End RealVocabulary.

Lemma real_publishes_six_events_witness :
  let d := wire_frame "2024-05-01T10:00:00.000Z" 40 25 90 "phone" in
  let ops := [Real.SockConnect; Real.SockError (Some "boom"); Real.SockTrackingData d] in
  let e := "connection_error" in
  let p := PConnectionError "boom" in
  Real.well_shaped e p = true
  /\ e ∈ ["connection_status"; "connection_error"; "eye_tracking_data";
          "focus_score_update"; "attention_alert"; "tracking_status"]
  /\ e <> "error".
Proof.
  apply (real_publishes_six_events quiet None (Real.new quiet true).1
           [Real.SockConnect; Real.SockError (Some "boom");
            Real.SockTrackingData (wire_frame "2024-05-01T10:00:00.000Z" 40 25 90 "phone")]).
  vm_compute. right. left.
Defined.

(** ** [WebSocketService]: the retry budget and explicit disconnection *)

Section WSBudget.
Variable throws : Oracle.
Variable message : string.

(** [reconnect()], and likewise a [connect] event, gives back the whole
    retry budget: whatever the counter was, a transport that then fails
    every attempt is retried [maxReconnectAttempts] times again, with the
    delays starting again at the base delay. *)
Theorem ws_reset_restores_budget (st : WS.State) (n fuel : nat) (op : WS.Op) :
  op = WS.Reconnect \/ (op = WS.SockConnect /\ is_Some (WS.socket st)) ->
  WS.error_listeners_quiet throws message st ->
  WS.maxReconnectAttempts st = Z.of_nat n ->
  (n < fuel)%nat ->
  let st' := (WS.step throws st op).1.1 in
  let r := WS.failing_run throws fuel message st' in
  WS.reconnectAttempts st' = 0
  /\ timeouts r.2 = map (fun k => WS.reconnectDelay st * 2 ^ Z.of_nat k) (seq 0 n)
  /\ connects r.2 = n
  /\ WS.reconnectAttempts r.1 = Z.of_nat n.
Proof.
  intros Hop Hq Hmax Hfuel st' r.
  assert (Hst : WS.reconnectAttempts st' = 0 /\ is_Some (WS.socket st')
                /\ WS.listeners st' = WS.listeners st
                /\ WS.maxReconnectAttempts st' = WS.maxReconnectAttempts st
                /\ WS.reconnectDelay st' = WS.reconnectDelay st).
  { subst st'. destruct Hop as [->|[-> Hsock]].
    - cbn [WS.step]. unfold WS.reconnect, WS.disconnect.
      destruct (WS.socket st); cbn; repeat split; eauto.
    - cbn [WS.step]. unfold WS.logging, WS.emitting. cbn [WS.and_then].
      destruct (ws_mark_fields true st) as (Hl & _ & Hm & Hd & Hs).
      destruct (WS.emit throws _ "connection_status" (PConnectionStatus true None)) as [o tr].
      destruct o; cbn; rewrite ?Hl, ?Hm, ?Hd, ?(Hs Hsock); repeat split; eauto. }
  destruct Hst as (Ha & Hs & Hl & Hm & Hd).
  assert (Hq' : WS.error_listeners_quiet throws message st').
  { unfold WS.error_listeners_quiet. rewrite Hl. exact Hq. }
  destruct (ws_failing_run throws message n st' fuel Hs Hq' ltac:(lia) Hfuel)
    as (Ht & Hc & _ & Hfin & _).
  fold r in Ht, Hc, Hfin. rewrite Ha, Hd in Ht. rewrite Hm, Hmax in Hfin.
  split; [exact Ha|]. split; [|by split].
  rewrite Ht. apply map_ext. intros k. by rewrite Z.add_0_l.
Qed.

End WSBudget.

Lemma ws_reset_restores_budget_witness :
  let spent := (WS.failing_run quiet 9 "timeout" WS.new.1).1 in
  let st' := (WS.step quiet spent WS.Reconnect).1.1 in
  let r := WS.failing_run quiet 9 "timeout" st' in
  WS.reconnectAttempts spent = 5
  /\ WS.reconnectAttempts st' = 0
  /\ timeouts r.2 = map (fun k => WS.reconnectDelay spent * 2 ^ Z.of_nat k) (seq 0 5)
  /\ connects r.2 = 5%nat
  /\ WS.reconnectAttempts r.1 = Z.of_nat 5.
Proof.
  split; [reflexivity|].
  apply (ws_reset_restores_budget quiet "timeout"
           (WS.failing_run quiet 9 "timeout" WS.new.1).1 5 9 WS.Reconnect).
  - by left.
  - intros cb _. reflexivity.
  - reflexivity.
  - lia.
Defined.

Section WSDisconnect.
Variable throws : Oracle.

(** After [disconnect()] the service keeps its listeners and its counter,
    a second [disconnect()] does nothing, a reconnect timer armed earlier
    does nothing when it fires, and each of the four commands writes a
    warning and sends nothing. *)
Theorem ws_after_disconnect (st : WS.State) (sessionId token : string) :
  let st' := (WS.step throws st WS.Disconnect).1.1 in
  WS.listeners st' = WS.listeners st
  /\ WS.reconnectAttempts st' = WS.reconnectAttempts st
  /\ WS.connected st' = false
  /\ WS.step throws st' WS.Disconnect = (st', WS.Returned, [])
  /\ WS.step throws st' WS.ReconnectTimer = (st', WS.Returned, [])
  /\ (forall op, op ∈ [WS.StartTracking sessionId token; WS.StopTracking sessionId;
                       WS.PauseTracking sessionId; WS.ResumeTracking sessionId] ->
        (WS.step throws st' op).1 = (st', WS.Returned)
        /\ commands (WS.step throws st' op).2 = []).
Proof.
  intros st'. subst st'. cbn [WS.step]. unfold WS.disconnect.
  destruct (WS.socket st) as [c|] eqn:Hs; cbn [fst snd];
    unfold WS.connected; cbn [WS.socket WS.set_socket WS.listeners WS.reconnectAttempts];
    rewrite ?Hs; repeat split; try reflexivity;
    repeat (apply elem_of_cons in H as [->|H]); try (by apply elem_of_nil in H);
    cbn [WS.step]; unfold WS.command, WS.connected; cbn [WS.socket WS.set_socket];
    rewrite ?Hs; reflexivity.
Qed.

(** A [disconnect] event with the reason "io server disconnect" publishes
    the status and stops there: no timer, the counter as it was, whatever
    the counter and the listeners are. *)
Theorem ws_server_disconnect_is_not_retried (st : WS.State) :
  let r := WS.step throws st (WS.SockDisconnect "io server disconnect") in
  timeouts r.2 = []
  /\ WS.reconnectAttempts r.1.1 = WS.reconnectAttempts st
  /\ published r.2
     = [("connection_status", PConnectionStatus false (Some "io server disconnect"))].
Proof.
  cbn [WS.step]. unfold WS.logging, WS.emitting. cbn [WS.and_then].
  destruct (ws_mark_fields false st) as (_ & Ha & _ & _ & _).
  pose proof (ws_emit_omap throws
                (fun e => match e with SetTimeout d => Some d | _ => None end)
                (WS.mark false st) "connection_status"
                (PConnectionStatus false (Some "io server disconnect"))
                (fun _ _ _ => eq_refl)) as Ht.
  pose proof (ws_emit_omap throws
                (fun e => match e with Publish ev d => Some (ev, d) | _ => None end)
                (WS.mark false st) "connection_status"
                (PConnectionStatus false (Some "io server disconnect"))
                (fun _ _ _ => eq_refl)) as Hp.
  destruct (WS.emit throws (WS.mark false st) "connection_status"
              (PConnectionStatus false (Some "io server disconnect"))) as [o tr].
  cbn [snd] in Ht, Hp. fold (timeouts tr) in Ht. fold (published tr) in Hp.
  destruct o; cbn [WS.and_then fst snd]; rewrite ?decide_True by reflexivity;
    cbn [fst snd]; rewrite !timeouts_app, !published_app, Ht, Hp, Ha; by repeat split.
Qed.

End WSDisconnect.

(** ** The generator's timers *)

Section MockTimers.
Variable throws : Oracle.
Variable Msin : Q -> Q.

Lemma mock_arm_forgotten h st :
  Mock.forgotten h st -> Mock.forgotten h (Mock.arm st).1.
Proof.
  intros (Hin & Hlt & Hne). unfold Mock.arm, Mock.forgotten. cbn.
  split; [by right|]. split; [lia|]. intros [= Heq]. lia.
Qed.

Lemma mock_disarm_forgotten h st :
  Mock.forgotten h st -> Mock.forgotten h (Mock.disarm st).1.
Proof.
  intros (Hin & Hlt & Hne). unfold Mock.disarm, Mock.forgotten.
  destruct (Mock.focusSimulationInterval st) as [h'|] eqn:Hs; cbn; [|by rewrite Hs].
  split; [|by split].
  apply list_elem_of_filter. split; [congruence|exact Hin].
Qed.

Lemma mock_flag_forgotten h st b :
  Mock.forgotten h st -> Mock.forgotten h (Mock.set_sessionActive b st)
                    /\ Mock.forgotten h (Mock.set_isConnectionActive b st).
Proof. by intros (Hin & Hlt & Hne). Qed.

Lemma mock_step_forgotten h st op :
  Mock.forgotten h st -> Mock.forgotten h (Mock.step throws Msin st op).1.
Proof.
  intros Hf. destruct op; cbn [Mock.step].
  - by apply mock_flag_forgotten.
  - unfold Mock.startTracking.
    pose proof (mock_arm_forgotten h _ (proj1 (mock_flag_forgotten h st true Hf))) as Ha.
    by destruct (Mock.arm (Mock.set_sessionActive true st)).
  - unfold Mock.stopTracking.
    pose proof (mock_disarm_forgotten h _ (proj1 (mock_flag_forgotten h st false Hf))) as Hd.
    by destruct (Mock.disarm (Mock.set_sessionActive false st)).
  - unfold Mock.pauseTracking.
    pose proof (mock_disarm_forgotten h _ Hf) as Hd. by destruct (Mock.disarm st).
  - unfold Mock.resumeTracking. destruct (Mock.sessionActive st); [|exact Hf].
    pose proof (mock_arm_forgotten h _ Hf) as Ha. by destruct (Mock.arm st).
  - by destruct (decide (handle ∈ Mock.live st)).
  - exact Hf.
  - destruct cb; exact Hf.
  - unfold Mock.disconnect.
    apply mock_disarm_forgotten. by apply mock_flag_forgotten.
Qed.

Lemma mock_run_forgotten h ops : forall st,
  Mock.forgotten h st -> Mock.forgotten h (Mock.run throws Msin st ops).1.
Proof.
  induction ops as [|op rest IH]; intros st Hf; [exact Hf|].
  cbn [Mock.run]. pose proof (mock_step_forgotten h st op Hf) as Hs.
  destruct (Mock.step throws Msin st op) as [st1 tr1]. specialize (IH st1 Hs).
  by destruct (Mock.run throws Msin st1 rest).
Qed.

(** [startTracking] called twice in a row leaves the first interval armed
    and forgotten: the service remembers only the second.  No sequence of
    operations ever clears the first, and whenever the session is active its
    ticks publish frames, beside those of the interval in use. *)
Theorem mock_double_start_leaks_interval
    (st : Mock.State) (sid1 tok1 sid2 tok2 : string) (ops : list Mock.Op) (tk : Tick) :
  let started := (Mock.startTracking throws (Mock.startTracking throws st sid1 tok1).1
                    sid2 tok2).1 in
  let later := (Mock.run throws Msin started ops).1 in
  Mock.focusSimulationInterval started = Some (S (Mock.next st))
  /\ Mock.next st ∈ Mock.live later
  /\ Mock.focusSimulationInterval later <> Some (Mock.next st)
  /\ frames (Mock.step throws Msin later (Mock.IntervalFires (Mock.next st) tk)).2
     = (if Mock.sessionActive later then [Mock.mock_frame Msin tk] else []).
Proof.
  intros started later.
  assert (Hstart : Mock.focusSimulationInterval started = Some (S (Mock.next st))
                   /\ Mock.forgotten (Mock.next st) started).
  { subst started. unfold Mock.startTracking, Mock.arm, Mock.forgotten. cbn.
    split; [reflexivity|]. split; [right; left|]. split; [lia|]. intros [= Heq]. lia. }
  destruct Hstart as [Hrem Hf].
  pose proof (mock_run_forgotten (Mock.next st) ops started Hf) as (Hin & _ & Hne).
  fold later in Hin, Hne.
  split; [exact Hrem|]. split; [exact Hin|]. split; [exact Hne|].
  cbn [Mock.step]. rewrite decide_True by exact Hin. cbn [snd].
  apply mock_generate_frames.
Qed.

End MockTimers.

Lemma mock_double_start_leaks_witness :
  let zero : Q -> Q := fun _ => 0%Q in
  let tk := {| clock := fun _ => 1000; random := fun _ => 0.5%Q |} in
  let ops := [Mock.StopTracking "s1"; Mock.Disconnect; Mock.StartTracking "s2" "tok"] in
  let started := (Mock.startTracking quiet (Mock.startTracking quiet Mock.fresh "s1" "tok").1
                    "s1" "tok").1 in
  let later := (Mock.run quiet zero started ops).1 in
  Mock.live later = [3%nat; 1%nat]
  /\ Mock.focusSimulationInterval started = Some (S (Mock.next Mock.fresh))
  /\ Mock.next Mock.fresh ∈ Mock.live later
  /\ Mock.focusSimulationInterval later <> Some (Mock.next Mock.fresh)
  /\ frames (Mock.step quiet zero later (Mock.IntervalFires (Mock.next Mock.fresh) tk)).2
     = (if Mock.sessionActive later then [Mock.mock_frame zero tk] else []).
Proof.
  split; [reflexivity|].
  apply (mock_double_start_leaks_interval quiet (fun _ => 0%Q) Mock.fresh "s1" "tok" "s1" "tok"
           [Mock.StopTracking "s1"; Mock.Disconnect; Mock.StartTracking "s2" "tok"]).
Defined.

Section MockPause.
Variable throws : Oracle.
Variable Msin : Q -> Q.

(** On an active session with one interval running, [pauseTracking] then
    [resumeTracking] publish [session_paused] then [session_resumed], clear
    the interval and arm a new one: again exactly one interval runs, the
    service remembers it, and a late tick of the old interval publishes
    nothing. *)
Theorem mock_pause_resume_swaps_interval
    (st : Mock.State) (h : nat) (sid : string) (tk : Tick) :
  Mock.sessionActive st = true ->
  Mock.focusSimulationInterval st = Some h ->
  Mock.live st = [h] ->
  (h < Mock.next st)%nat ->
  let r := Mock.run throws Msin st [Mock.PauseTracking sid; Mock.ResumeTracking sid] in
  Mock.live r.1 = [Mock.next st]
  /\ Mock.focusSimulationInterval r.1 = Some (Mock.next st)
  /\ Mock.sessionActive r.1 = true
  /\ published r.2 = [("session_paused", PSession sid); ("session_resumed", PSession sid)]
  /\ Mock.step throws Msin r.1 (Mock.IntervalFires h tk) = (r.1, [])
  /\ frames (Mock.step throws Msin r.1 (Mock.IntervalFires (Mock.next st) tk)).2
     = [Mock.mock_frame Msin tk].
Proof.
  intros Hact Hs Hlive Hlt r. subst r.
  cbn [Mock.run Mock.step]. unfold Mock.pauseTracking, Mock.disarm. rewrite Hs.
  cbn [fst snd]. unfold Mock.resumeTracking. cbn [Mock.sessionActive]. rewrite Hact.
  unfold Mock.arm. cbn [fst snd Mock.live Mock.next Mock.focusSimulationInterval
                        Mock.sessionActive].
  rewrite Hlive. rewrite filter_cons_False by (intros Hn; by apply Hn). cbn [filter].
  change (filter _ []) with (@nil nat).
  split; [reflexivity|]. split; [reflexivity|]. split; [reflexivity|]. split.
  { rewrite !published_app, !mock_emit_published. reflexivity. }
  split.
  - rewrite decide_False; [reflexivity|].
    intros Hin. apply list_elem_of_singleton in Hin. lia.
  - rewrite decide_True by left. cbn [snd]. rewrite mock_generate_frames.
    reflexivity.
Qed.

End MockPause.

Lemma mock_pause_resume_witness :
  let zero : Q -> Q := fun _ => 0%Q in
  let tk := {| clock := fun _ => 1000; random := fun _ => 0.5%Q |} in
  let st := (Mock.startTracking quiet Mock.fresh "s1" "tok").1 in
  let r := Mock.run quiet zero st [Mock.PauseTracking "s1"; Mock.ResumeTracking "s1"] in
  Mock.live r.1 = [Mock.next st]
  /\ Mock.focusSimulationInterval r.1 = Some (Mock.next st)
  /\ Mock.sessionActive r.1 = true
  /\ published r.2 = [("session_paused", PSession "s1"); ("session_resumed", PSession "s1")]
  /\ Mock.step quiet zero r.1 (Mock.IntervalFires 1%nat tk) = (r.1, [])
  /\ frames (Mock.step quiet zero r.1 (Mock.IntervalFires (Mock.next st) tk)).2
     = [Mock.mock_frame zero tk].
Proof.
  apply (mock_pause_resume_swaps_interval quiet (fun _ => 0%Q)
           (Mock.startTracking quiet Mock.fresh "s1" "tok").1 1%nat "s1");
    [reflexivity | reflexivity | reflexivity | vm_compute; lia].
Defined.

Section MockFlag.
Variable throws : Oracle.
Variable Msin : Q -> Q.

(** The generator consults its connection flag nowhere but in
    [isConnected()]: with the flag set either way, every operation performs
    the same effects and leaves the same session flag, timers and
    listeners.  So tracking starts before the simulated connection is up
    and goes on after [disconnect()] once it is resumed. *)
Theorem mock_ignores_connection_flag (st : Mock.State) (b : bool) (op : Mock.Op) :
  let r := Mock.step throws Msin st op in
  let r' := Mock.step throws Msin (Mock.set_isConnectionActive b st) op in
  r'.2 = r.2
  /\ Mock.sessionActive r'.1 = Mock.sessionActive r.1
  /\ Mock.focusSimulationInterval r'.1 = Mock.focusSimulationInterval r.1
  /\ Mock.live r'.1 = Mock.live r.1
  /\ Mock.eventHandlers r'.1 = Mock.eventHandlers r.1.
Proof.
  destruct op; cbn [Mock.step];
    unfold Mock.startTracking, Mock.stopTracking, Mock.pauseTracking, Mock.resumeTracking,
      Mock.disconnect, Mock.disarm, Mock.arm;
    cbn [Mock.sessionActive Mock.focusSimulationInterval Mock.live Mock.eventHandlers
         Mock.set_isConnectionActive Mock.set_sessionActive Mock.next];
    try destruct (Mock.focusSimulationInterval st);
    try destruct (Mock.sessionActive st) eqn:Hact;
    try destruct (decide (handle ∈ Mock.live st));
    try destruct cb;
    cbn [fst snd]; repeat split; try reflexivity.
  all: unfold Mock.generateMockFocusData; cbn [Mock.sessionActive Mock.set_isConnectionActive];
    rewrite Hact; reflexivity.
Qed.

End MockFlag.

(** ** What a tick of the generator publishes *)

Lemma Mround_percent (a : Q) : (0 <= a <= 1)%Q -> 0 <= Mround (a * 100) <= 100.
Proof.
  intros [H0 H1]. unfold Mround.
  assert (Hlo : Qfloor (1 # 2) <= Qfloor (a * 100 + (1 # 2)))
    by (apply Qfloor_resp_le; lra).
  assert (Hhi : Qfloor (a * 100 + (1 # 2)) <= Qfloor (201 # 2))
    by (apply Qfloor_resp_le; lra).
  split; [exact Hlo | exact Hhi].
Qed.

Section MockTick.
Variable throws : Oracle.
Variable Msin : Q -> Q.
Hypothesis Msin_range : forall x, (-1 <= Msin x <= 1)%Q.

Lemma mock_gated_alert_published st tk cond p mk r c :
  published (Mock.gated_alert throws st tk cond p mk r c).1.1
  = map (fun a => ("attention_alert", PAlert a))
        (alerts (Mock.gated_alert throws st tk cond p mk r c).1.1).
Proof.
  rewrite mock_gated_alert_unfold. cbn [fst].
  destruct (cond && Qltb (random tk r) p); [|reflexivity].
  by rewrite mock_emit_published, mock_emit_alerts.
Qed.

(** A tick of an active session publishes the frame on [eye_tracking_data],
    then on [focus_score_update] the attention as a whole number of percent
    between 0 and 100, then the alerts; with [Math.sin] in [-1,1] and
    [Math.random] in [0,1) there is no alert, so exactly these two events.
    The frame never has both [screen_center] and [peripheral] set. *)
Theorem mock_tick_publishes_frame_then_score (st : Mock.State) (tk : Tick) :
  Mock.sessionActive st = true ->
  (forall k, (0 <= random tk k < 1)%Q) ->
  let f := Mock.mock_frame Msin tk in
  let score := Mround (m_attention_score f * 100) in
  published (Mock.generateMockFocusData throws Msin st tk)
  = [("eye_tracking_data", PMockTracking f); ("focus_score_update", PFocusScore (inject_Z score))]
  /\ 0 <= score <= 100
  /\ m_screen_center f && m_peripheral f = false.
Proof.
  intros Hact Hrand f score.
  pose proof (mock_never_alerts throws Msin Msin_range st tk Hrand) as Hnone.
  split; [|split].
  - unfold Mock.generateMockFocusData in *. rewrite Hact in *. cbn [negb] in *.
    fold f in Hnone |- *.
    repeat match goal with
           | |- context [Mock.gated_alert ?a ?b ?c ?d ?e ?g ?h ?i] =>
               let H := fresh "Hg" in
               pose proof (mock_gated_alert_published b c d e g h i) as H;
               destruct (Mock.gated_alert a b c d e g h i) as [[? ?] ?]; cbn [fst] in H
           end.
    rewrite !alerts_app, !mock_emit_alerts in Hnone. cbn [app] in Hnone.
    apply app_eq_nil in Hnone as [Hn1 Hn]. apply app_eq_nil in Hn as [Hn2 Hn3].
    rewrite !published_app, !mock_emit_published.
    rewrite Hg, Hg0, Hg1, Hn1, Hn2, Hn3. reflexivity.
  - apply Mround_percent. apply (mock_frame_ranges Msin tk).
  - subst f. unfold Mock.mock_frame. cbn [m_screen_center m_peripheral].
    set (a := Qmax 0 (Qmin 1 _)). unfold Qltb.
    destruct (Qlt_le_dec 0.7 a) as [Hhi|]; [|reflexivity].
    destruct (Qlt_le_dec a 0.5) as [Hlo|]; [|reflexivity].
    exfalso. lra.
Qed.

End MockTick.

Lemma mock_tick_publishes_witness :
  let zero : Q -> Q := fun _ => 0%Q in
  let tk := {| clock := fun _ => 1000; random := fun _ => 0.5%Q |} in
  let st := (Mock.startTracking quiet Mock.fresh "s1" "tok").1 in
  let f := Mock.mock_frame zero tk in
  let score := Mround (m_attention_score f * 100) in
  score = 75
  /\ published (Mock.generateMockFocusData quiet zero st tk)
     = [("eye_tracking_data", PMockTracking f);
        ("focus_score_update", PFocusScore (inject_Z score))]
  /\ 0 <= score <= 100
  /\ m_screen_center f && m_peripheral f = false.
Proof.
  split; [reflexivity|].
  apply (mock_tick_publishes_frame_then_score quiet (fun _ => 0%Q)).
  - intros x. split; discriminate.
  - reflexivity.
  - intros k. cbn [random]. split; [discriminate | reflexivity].
Defined.

(** * The provider and the session page *)

(** ** The window of alerts *)

Lemma lastn_length {A} k (l : list A) : length (lastn k l) = Nat.min k (length l).
Proof. unfold lastn. rewrite length_drop. lia. Qed.

Lemma lastn_all {A} k (l : list A) : (length l <= k)%nat -> lastn k l = l.
Proof. intros H. unfold lastn. by replace (length l - k)%nat with 0%nat by lia. Qed.

Lemma lastn_snoc {A} k (l : list A) x : lastn k l ++ [x] = lastn (S k) (l ++ [x]).
Proof.
  unfold lastn. rewrite length_app. cbn [length].
  replace (length l + 1 - S k)%nat with (length l - k)%nat by lia.
  rewrite drop_app_le by lia. reflexivity.
Qed.

Lemma lastn_lastn_app {A} k (l m : list A) : lastn k (lastn k l ++ m) = lastn k (l ++ m).
Proof.
  unfold lastn. rewrite !length_app, length_drop.
  rewrite <- (drop_app_le l m (length l - k)) by lia.
  rewrite drop_drop. f_equal. lia.
Qed.

Section ProviderWindow.
Variable clock : nat -> Z * Z.

Lemma stamped_from_types l : forall m,
  map a_type (Provider.stamped_from clock m l) = map a_type l
  /\ length (Provider.stamped_from clock m l) = length l.
Proof.
  induction l as [|a rest IHl]; intros m; [done|].
  cbn. destruct (IHl (S m)) as [-> ->]. done.
Qed.

Lemma provider_alert_step n a st :
  Provider.observe clock n (Provider.alert_calls [a]) st
  = Provider.set_attentionAlerts
      (lastn 10 (Provider.attentionAlerts st
                 ++ [Provider.stamped (clock n).1 (clock n).2 a])) st.
Proof.
  cbn [Provider.alert_calls map Provider.observe].
  rewrite bool_decide_eq_true_2 by (unfold Provider.subscriptions; set_solver).
  unfold Provider.handle. cbn. unfold Provider.slice_last9.
  f_equal. apply (lastn_snoc 9).
Qed.

Lemma provider_window_core (l : list Alert) : forall (n : nat) (st : Provider.State),
  (length (Provider.attentionAlerts st) <= 10)%nat ->
  let st' := Provider.observe clock n (Provider.alert_calls l) st in
  Provider.attentionAlerts st'
  = lastn 10 (Provider.attentionAlerts st ++ Provider.stamped_from clock n l)
  /\ (length (Provider.attentionAlerts st') <= 10)%nat
  /\ map a_type (Provider.attentionAlerts st')
     = lastn 10 (map a_type (Provider.attentionAlerts st) ++ map a_type l)
  /\ Provider.set_attentionAlerts (Provider.attentionAlerts st) st' = st.
Proof.
  assert (Hmain : forall l n st,
            (length (Provider.attentionAlerts st) <= 10)%nat ->
            Provider.attentionAlerts (Provider.observe clock n (Provider.alert_calls l) st)
            = lastn 10 (Provider.attentionAlerts st ++ Provider.stamped_from clock n l)
            /\ Provider.set_attentionAlerts (Provider.attentionAlerts st)
                 (Provider.observe clock n (Provider.alert_calls l) st) = st).
  { clear l. induction l as [|a rest IH]; intros n st Hlen.
    - cbn. rewrite app_nil_r, lastn_all by exact Hlen. split; [reflexivity|by destruct st].
    - change (Provider.alert_calls (a :: rest)) with (Provider.alert_calls [a] ++ Provider.alert_calls rest).
      change (Provider.observe clock n (Provider.alert_calls [a] ++ Provider.alert_calls rest) st)
        with (Provider.observe clock (S n) (Provider.alert_calls rest)
                (Provider.observe clock n (Provider.alert_calls [a]) st)).
      rewrite provider_alert_step.
      set (st1 := Provider.set_attentionAlerts _ st).
      destruct (IH (S n) st1) as [IHw IHs].
      { subst st1. cbn [Provider.attentionAlerts Provider.set_attentionAlerts].
        rewrite lastn_length. lia. }
      split.
      + rewrite IHw. subst st1. cbn [Provider.attentionAlerts Provider.set_attentionAlerts].
        rewrite lastn_lastn_app. cbn [Provider.stamped_from]. by rewrite <- app_assoc.
      + destruct (Provider.observe clock (S n) (Provider.alert_calls rest) st1) as [c e f s w].
        subst st1. destruct st. cbn in *. by injection IHs as -> -> -> ->. }
  intros n st Hlen st'. destruct (Hmain l n st Hlen) as [Hw Hs]. fold st' in Hw, Hs.
  split; [exact Hw|]. split; [rewrite Hw, lastn_length; lia|]. split; [|exact Hs].
  rewrite Hw. unfold lastn. rewrite <- skipn_map, !length_app, !length_map, map_app.
  destruct (stamped_from_types l n) as [-> ->]. reflexivity.
Qed.

(** The provider keeps the ten most recent alerts, oldest first: after any
    number of [attention_alert] events its window holds the last ten of what
    it held followed by the new alerts in the order of arrival, each with
    its kind, message and severity, so never more than ten.  Nothing else
    of the provider's state changes. *)
Theorem provider_keeps_last_ten_alerts (l : list Alert) (n : nat) (st : Provider.State) :
  (length (Provider.attentionAlerts st) <= 10)%nat ->
  let st' := Provider.observe clock n (Provider.alert_calls l) st in
  Provider.attentionAlerts st'
  = lastn 10 (Provider.attentionAlerts st ++ Provider.stamped_from clock n l)
  /\ (length (Provider.attentionAlerts st') <= 10)%nat
  /\ map a_type (Provider.attentionAlerts st')
     = lastn 10 (map a_type (Provider.attentionAlerts st) ++ map a_type l)
  /\ Provider.set_attentionAlerts (Provider.attentionAlerts st) st' = st.
Proof. apply provider_window_core. Qed.

End ProviderWindow.

Lemma provider_keeps_last_ten_witness :
  let clock : nat -> Z * Z := fun n => (Z.of_nat n, Z.of_nat n) in
  let a := Real.eye_strain_alert (wire_frame "2024-05-01T10:00:00.000Z" 80 25 90 "none") in
  let b := Real.low_attention_alert (wire_frame "" 40 5 90 "none") in
  let l := replicate 4 a ++ replicate 8 b in
  let st' := Provider.observe clock 0 (Provider.alert_calls l) Provider.initial in
  Provider.attentionAlerts st'
  = lastn 10 (Provider.attentionAlerts Provider.initial ++ Provider.stamped_from clock 0 l)
  /\ (length (Provider.attentionAlerts st') <= 10)%nat
  /\ map a_type (Provider.attentionAlerts st')
     = lastn 10 (map a_type (Provider.attentionAlerts Provider.initial) ++ map a_type l)
  /\ Provider.set_attentionAlerts (Provider.attentionAlerts Provider.initial) st'
     = Provider.initial.
Proof.
  apply (provider_keeps_last_ten_alerts (fun n => (Z.of_nat n, Z.of_nat n))).
  cbn. lia.
Defined.

(** ** The provider wired to the live service *)

Lemma provider_mount_wired svc :
  Real.eventListeners svc = ∅ -> Provider.wired (Provider.mount svc).
Proof.
  intros Hempty event. unfold Provider.mount, Provider.subscriptions. cbn [foldl fst snd].
  unfold Real.on. cbn [Real.eventListeners Real.set_eventListeners]. rewrite Hempty.
  unfold Provider.callbacks_of, Provider.subscriptions. cbn [omap list_omap fst snd].
  repeat match goal with
         | |- context [decide (?name = event)] =>
             destruct (decide (name = event)) as [<-|?];
             [repeat first [ rewrite registered_push_same
                           | rewrite registered_push_other by discriminate ];
              reflexivity|]
         end.
  repeat rewrite registered_push_other by done. reflexivity.
Qed.

Section ProviderWired.
Variable throws : Oracle.
Variable stored_token : option string.
Variable clock : nat -> Z * Z.

Lemma wired_emit_calls svc event data :
  Provider.wired svc ->
  invoked (Real.emit throws svc event data)
  = map (fun cb => (event, cb, data)) (Provider.callbacks_of event).
Proof. intros Hw. by rewrite real_emit_invoked, Hw. Qed.

Lemma wired_flags svc b a :
  Provider.wired svc ->
  Provider.wired (Real.set_isConnected b svc)
  /\ Provider.wired (Real.set_reconnectAttempts a svc)
  /\ Provider.wired (Real.set_socket b svc).
Proof. intros Hw. repeat split; exact Hw. Qed.

Lemma wired_frame_calls svc d :
  Provider.wired svc ->
  invoked (Real.on_tracking_data throws svc d)
  = [("eye_tracking_data", 103%nat, PEyeTracking (Real.transform d));
     ("focus_score_update", 104%nat, PFocusScore (attention_score d))]
    ++ Provider.alert_calls (alerts (Real.on_tracking_data throws svc d)).
Proof.
  intros Hw. rewrite real_frame_alerts. unfold Real.on_tracking_data.
  rewrite !invoked_app, !wired_emit_calls by exact Hw.
  destruct (Qlt_le_dec (attention_score d) 60), (decide (distraction_type d = "none")),
    (Qlt_le_dec 20 (eye_strain_level d));
    rewrite ?wired_emit_calls by exact Hw; reflexivity.
Qed.

Lemma provider_observe_app n l1 l2 st :
  Provider.observe clock n (l1 ++ l2) st
  = Provider.observe clock (n + length l1) l2 (Provider.observe clock n l1 st).
Proof.
  revert n st. induction l1 as [|[[e cb] d] rest IH]; intros n st.
  - cbn. by rewrite Nat.add_0_r.
  - cbn [app Provider.observe length]. rewrite IH. f_equal. lia.
Qed.

(** One frame from the socket, seen from the provider: it now holds the
    transformed frame, shows the frame's attention as focus score, and its
    window is the last ten of the alerts it had followed by the frame's
    alerts; its connection state and error are untouched. *)
Theorem provider_after_frame (svc : Real.State) (ctx : Provider.State)
    (d : TrackingData) (n : nat) :
  Provider.wired svc ->
  (length (Provider.attentionAlerts ctx) <= 10)%nat ->
  let tr := (Real.step throws stored_token svc (Real.SockTrackingData d)).2 in
  let ctx' := Provider.observe clock n (invoked tr) ctx in
  Provider.eyeTrackingData ctx' = Some (PEyeTracking (Real.transform d))
  /\ Provider.focusScore ctx' = attention_score d
  /\ map a_type (Provider.attentionAlerts ctx')
     = lastn 10 (map a_type (Provider.attentionAlerts ctx) ++ map a_type (alerts tr))
  /\ (length (Provider.attentionAlerts ctx') <= 10)%nat
  /\ Provider.isConnected ctx' = Provider.isConnected ctx
  /\ Provider.connectionError ctx' = Provider.connectionError ctx.
Proof.
  intros Hw Hlen tr ctx'. subst tr ctx'. cbn [Real.step snd].
  rewrite wired_frame_calls by exact Hw.
  rewrite provider_observe_app.
  set (ctx1 := Provider.observe clock n _ ctx).
  assert (H1 : ctx1 = Provider.set_focusScore (attention_score d)
                        (Provider.set_eyeTrackingData
                           (Some (PEyeTracking (Real.transform d))) ctx))
    by reflexivity.
  destruct (provider_window_core clock
              (alerts (Real.on_tracking_data throws svc d)) (n + 2) ctx1)
    as (_ & Hl & Hk & Hs).
  { rewrite H1. exact Hlen. }
  cbn [length] in *. rewrite Hk.
  set (ctx2 := Provider.observe clock (n + 2) _ ctx1) in *.
  assert (Hfields : Provider.eyeTrackingData ctx2 = Provider.eyeTrackingData ctx1
                    /\ Provider.focusScore ctx2 = Provider.focusScore ctx1
                    /\ Provider.isConnected ctx2 = Provider.isConnected ctx1
                    /\ Provider.connectionError ctx2 = Provider.connectionError ctx1).
  { rewrite <- Hs at 1 2 3 4. by destruct ctx2. }
  destruct Hfields as (-> & -> & -> & ->). rewrite H1. by repeat split.
Qed.

End ProviderWired.

Section ProviderConnection.
Variable throws : Oracle.
Variable stored_token : option string.
Variable clock : nat -> Z * Z.

Lemma provider_status_down n reason ctx :
  reason <> "" ->
  Provider.observe clock n
    [("connection_status", 101%nat, PConnectionStatus false (Some reason))] ctx
  = Provider.set_connectionError (Some ("Connection lost: " ++ reason)%string)
      (Provider.set_isConnected false ctx).
Proof.
  intros Hreason. cbn [Provider.observe].
  rewrite bool_decide_eq_true_2 by (unfold Provider.subscriptions; set_solver).
  unfold Provider.handle. rewrite decide_True by reflexivity.
  unfold or_default. rewrite decide_False by exact Hreason.
  rewrite bool_decide_eq_false_2 by exact Hreason. reflexivity.
Qed.

(** The provider follows the socket's events: after [connect] it shows
    connected and no error; after [disconnect] with a reason it shows
    disconnected and "Connection lost: " followed by the reason; a
    [startTracking] refused for lack of connection shows "Not connected to
    server", one that is sent changes nothing.  The method [disconnect()]
    calls no callback and removes them all: the provider keeps the state
    it had, connected or not, through everything that reaches the service
    afterwards, while the service itself is disconnected.  When the socket
    reports the disconnection before the method has cleared the listeners,
    the provider shows that, and then stays there. *)
Theorem provider_follows_connection (svc : Real.State) (ctx : Provider.State)
    (reason sessionId token : string) (n : nat) (ops : list Real.Op) :
  Provider.wired svc ->
  reason <> "" ->
  forallb (fun op => negb (Real.subscribes op)) ops = true ->
  let see op :=
    Provider.observe clock n (invoked (Real.step throws stored_token svc op).2) ctx in
  Provider.isConnected (see Real.SockConnect) = true
  /\ Provider.connectionError (see Real.SockConnect) = None
  /\ Provider.isConnected (see (Real.SockDisconnect reason)) = false
  /\ Provider.connectionError (see (Real.SockDisconnect reason))
     = Some ("Connection lost: " ++ reason)%string
  /\ see (Real.StartTracking sessionId token)
     = (if negb (Real.socket svc) || negb (Real.isConnected svc)
        then Provider.set_connectionError (Some "Not connected to server") ctx
        else ctx)
  /\ see Real.Disconnect = ctx
  /\ Provider.observe clock n
       (invoked (Real.run throws stored_token (Real.disconnect svc).1 ops).2) ctx = ctx
  /\ Provider.observe clock n
       (invoked (Real.run throws stored_token svc
                   (Real.SockDisconnect reason :: Real.Disconnect :: ops)).2) ctx
     = see (Real.SockDisconnect reason)
  /\ Real.isConnected (Real.disconnect svc).1 = false.
Proof.
  intros Hw Hreason Hops see. subst see.
  destruct (wired_flags svc true 0 Hw) as (Hw1 & _ & _).
  destruct (wired_flags svc false 0 Hw) as (Hw0 & _ & _).
  destruct (wired_flags (Real.set_isConnected true svc) true 0 Hw1) as (_ & Hw2 & _).
  assert (Hd : forall s, invoked (Real.disconnect s).2 = [])
    by (intros s; unfold Real.disconnect; by destruct (Real.socket s)).
  assert (Htimer : forall (b : Prop) (Hb : Decision b) d,
            invoked (if decide b then [SetTimeout d] else []) = [])
    by (intros b Hb d; by destruct (decide b)).
  assert (Hdown : Provider.observe clock n
                    (invoked (Real.step throws stored_token svc
                                (Real.SockDisconnect reason)).2) ctx
                  = Provider.set_connectionError
                      (Some ("Connection lost: " ++ reason)%string)
                      (Provider.set_isConnected false ctx)).
  { cbn [Real.step]. unfold Real.on_disconnect. cbn [fst snd].
    rewrite invoked_cons_silent by exact I.
    rewrite invoked_app, wired_emit_calls by assumption.
    rewrite Htimer, app_nil_r.
    change (Provider.callbacks_of "connection_status") with [101%nat].
    cbn [map]. by apply provider_status_down. }
  assert (Hrun : invoked (Real.run throws stored_token svc
                            (Real.SockDisconnect reason :: Real.Disconnect :: ops)).2
                 = invoked (Real.step throws stored_token svc
                              (Real.SockDisconnect reason)).2).
  { cbn [Real.run].
    destruct (Real.step throws stored_token svc (Real.SockDisconnect reason))
      as [svc1 tr1].
    pose proof (real_silent_core throws stored_token svc1 ops Hops) as Hsil.
    pose proof (Hd svc1) as Hd1.
    cbn [Real.step]. destruct (Real.disconnect svc1) as [svc2 tr2].
    cbn [fst snd] in *.
    destruct (Real.run throws stored_token svc2 ops) as [svc3 tr3]. cbn [fst snd] in *.
    by rewrite !invoked_app, Hd1, Hsil, !app_nil_r. }
  rewrite Hrun, Hdown.
  rewrite real_silent_core by exact Hops.
  split; [|split; [|split; [|split; [|split; [|split; [|split; [|split]]]]]]];
    try reflexivity.
  - cbn [Real.step snd]. rewrite invoked_cons_silent by exact I.
    rewrite wired_emit_calls by assumption. reflexivity.
  - cbn [Real.step snd]. rewrite invoked_cons_silent by exact I.
    rewrite wired_emit_calls by assumption. reflexivity.
  - cbn [Real.step]. unfold Real.startTracking.
    destruct (negb (Real.socket svc) || negb (Real.isConnected svc)); cbn [fst snd].
    + rewrite invoked_cons_silent by exact I.
      rewrite wired_emit_calls by assumption. reflexivity.
    + reflexivity.
  - cbn [Real.step]. by rewrite Hd.
  - unfold Real.disconnect. by destruct (Real.socket svc).
Qed.

(** A [tracking_started] event empties the provider's window of alerts;
    [tracking_stopped], [tracking_paused] and [tracking_resumed] leave the
    provider as it is. *)
Theorem provider_window_cleared_on_start (svc : Real.State) (ctx : Provider.State)
    (data : string) (n : nat) :
  Provider.wired svc ->
  let see op :=
    Provider.observe clock n (invoked (Real.step throws stored_token svc op).2) ctx in
  see (Real.SockTrackingStarted data) = Provider.set_attentionAlerts [] ctx
  /\ see (Real.SockTrackingStopped data) = ctx
  /\ see (Real.SockTrackingPaused data) = ctx
  /\ see (Real.SockTrackingResumed data) = ctx.
Proof.
  intros Hw see. subst see. cbn [Real.step snd].
  repeat match goal with
         | |- context [invoked (?e :: ?t)] =>
             rewrite (invoked_cons_silent e t) by exact I
         end.
  rewrite !wired_emit_calls by assumption. by repeat split.
Qed.

End ProviderConnection.

Lemma provider_after_frame_witness :
  let clock : nat -> Z * Z := fun n => (Z.of_nat n, Z.of_nat n) in
  let svc := Provider.mount (Real.new quiet true).1 in
  let ctx := Provider.mounted svc in
  let d := wire_frame "2024-05-01T10:00:00.000Z" 40 25 90 "phone" in
  let tr := (Real.step quiet None svc (Real.SockTrackingData d)).2 in
  let ctx' := Provider.observe clock 0 (invoked tr) ctx in
  map a_type (alerts tr) = [low_attention; distraction; eye_strain]
  /\ Provider.eyeTrackingData ctx' = Some (PEyeTracking (Real.transform d))
  /\ Provider.focusScore ctx' = attention_score d
  /\ map a_type (Provider.attentionAlerts ctx')
     = lastn 10 (map a_type (Provider.attentionAlerts ctx) ++ map a_type (alerts tr))
  /\ (length (Provider.attentionAlerts ctx') <= 10)%nat
  /\ Provider.isConnected ctx' = Provider.isConnected ctx
  /\ Provider.connectionError ctx' = Provider.connectionError ctx.
Proof.
  split; [reflexivity|].
  apply (provider_after_frame quiet None (fun n => (Z.of_nat n, Z.of_nat n))
           (Provider.mount (Real.new quiet true).1)).
  - by apply provider_mount_wired.
  - cbn. lia.
Defined.

Lemma provider_follows_connection_witness :
  let clock : nat -> Z * Z := fun n => (Z.of_nat n, Z.of_nat n) in
  let svc0 := Provider.mount (Real.new quiet true).1 in
  let up := Real.step quiet None svc0 Real.SockConnect in
  let svc := up.1 in
  let ctx := Provider.observe clock 0 (invoked up.2) (Provider.mounted svc0) in
  let d := wire_frame "2024-05-01T10:00:00.000Z" 40 25 90 "phone" in
  let ops := [Real.SockDisconnect "transport close"; Real.ReconnectTimer true;
              Real.SockConnect; Real.SockTrackingData d] in
  let see op := Provider.observe clock 1 (invoked (Real.step quiet None svc op).2) ctx in
  (Real.isConnected svc = true /\ Provider.isConnected ctx = true)
  /\ Provider.isConnected (see Real.SockConnect) = true
  /\ Provider.connectionError (see Real.SockConnect) = None
  /\ Provider.isConnected (see (Real.SockDisconnect "io client disconnect")) = false
  /\ Provider.connectionError (see (Real.SockDisconnect "io client disconnect"))
     = Some ("Connection lost: " ++ "io client disconnect")%string
  /\ see (Real.StartTracking "s1" "tok")
     = (if negb (Real.socket svc) || negb (Real.isConnected svc)
        then Provider.set_connectionError (Some "Not connected to server") ctx
        else ctx)
  /\ see Real.Disconnect = ctx
  /\ Provider.observe clock 1
       (invoked (Real.run quiet None (Real.disconnect svc).1 ops).2) ctx = ctx
  /\ Provider.observe clock 1
       (invoked (Real.run quiet None svc
                   (Real.SockDisconnect "io client disconnect" :: Real.Disconnect :: ops)).2)
       ctx
     = see (Real.SockDisconnect "io client disconnect")
  /\ Real.isConnected (Real.disconnect svc).1 = false.
Proof.
  split; [split; reflexivity|].
  apply (provider_follows_connection quiet None (fun n => (Z.of_nat n, Z.of_nat n))
           (Real.step quiet None (Provider.mount (Real.new quiet true).1)
              Real.SockConnect).1).
  - exact (provider_mount_wired (Real.new quiet true).1 eq_refl).
  - discriminate.
  - reflexivity.
Defined.

Lemma provider_window_cleared_witness :
  let clock : nat -> Z * Z := fun n => (Z.of_nat n, Z.of_nat n) in
  let svc := Provider.mount (Real.new quiet true).1 in
  let a := Real.eye_strain_alert (wire_frame "2024-05-01T10:00:00.000Z" 80 25 90 "none") in
  let ctx := Provider.set_attentionAlerts [a; a] (Provider.mounted svc) in
  let see op := Provider.observe clock 0 (invoked (Real.step quiet None svc op).2) ctx in
  see (Real.SockTrackingStarted "s1") = Provider.set_attentionAlerts [] ctx
  /\ see (Real.SockTrackingStopped "s1") = ctx
  /\ see (Real.SockTrackingPaused "s1") = ctx
  /\ see (Real.SockTrackingResumed "s1") = ctx.
Proof.
  apply (provider_window_cleared_on_start quiet None (fun n => (Z.of_nat n, Z.of_nat n))
           (Provider.mount (Real.new quiet true).1)).
  by apply provider_mount_wired.
Defined.

(** ** The session page *)

Lemma string_app_split (a a' b b' : string) :
  String.length a = String.length a' ->
  (a ++ b)%string = (a' ++ b')%string -> a = a' /\ b = b'.
Proof.
  revert a'. induction a as [|c a IH]; intros [|c' a'] Hlen Heq; try discriminate Hlen.
  - by split.
  - cbn in Heq. injection Heq as -> Heq. injection Hlen as Hlen.
    destruct (IH a' Hlen Heq) as [-> ->]. by split.
Qed.

Lemma string_length_app (a b : string) :
  String.length (a ++ b)%string = (String.length a + String.length b)%nat.
Proof. induction a as [|c a IH]; [reflexivity|]. simpl. f_equal. exact IH. Qed.

Lemma padStart2_length (n : N) :
  (n < 100)%N -> String.length (StudySession.padStart2 (pretty n)) = 2%nat.
Proof.
  intros Hn.
  assert (Hall : forallb (fun k => Nat.eqb (String.length
                                      (StudySession.padStart2 (pretty (N.of_nat k)))) 2)
                   (seq 0 100) = true) by (vm_compute; reflexivity).
  rewrite forallb_forall in Hall.
  specialize (Hall (N.to_nat n) ltac:(apply in_seq; lia)).
  rewrite N2Nat.id in Hall. by apply Nat.eqb_eq.
Qed.

Lemma padStart2_inj (a b : N) :
  (a < 100)%N -> (b < 100)%N ->
  StudySession.padStart2 (pretty a) = StudySession.padStart2 (pretty b) -> a = b.
Proof.
  intros Ha Hb Heq.
  assert (Hall : forallb (fun x => forallb (fun y =>
                    Nat.eqb x y
                    || negb (String.eqb (StudySession.padStart2 (pretty (N.of_nat x)))
                                        (StudySession.padStart2 (pretty (N.of_nat y)))))
                    (seq 0 100)) (seq 0 100) = true) by (vm_compute; reflexivity).
  rewrite forallb_forall in Hall. specialize (Hall (N.to_nat a) ltac:(apply in_seq; lia)).
  rewrite forallb_forall in Hall. specialize (Hall (N.to_nat b) ltac:(apply in_seq; lia)).
  rewrite !N2Nat.id in Hall.
  apply orb_true_iff in Hall as [Hab|Hne]; [apply Nat.eqb_eq in Hab; lia|].
  rewrite Heq, String.eqb_refl in Hne. discriminate.
Qed.

(** [formatTime] shows a session time below one hundred hours as eight
    characters, and two different times as two different texts: hours,
    minutes and seconds can be read back from it. *)
Theorem formatTime_is_faithful (s1 s2 : N) :
  (s1 < 360000)%N -> (s2 < 360000)%N ->
  String.length (StudySession.formatTime s1) = 8%nat
  /\ (StudySession.formatTime s1 = StudySession.formatTime s2 -> s1 = s2).
Proof.
  intros H1 H2.
  assert (Hparts : forall s, (s < 360000)%N ->
            (s / 3600 < 100)%N /\ (s mod 3600 / 60 < 100)%N /\ (s mod 60 < 100)%N).
  { intros s Hs. repeat split.
    - apply N.Div0.div_lt_upper_bound. lia.
    - apply N.Div0.div_lt_upper_bound.
      pose proof (N.mod_upper_bound s 3600). lia.
    - pose proof (N.mod_upper_bound s 60). lia. }
  destruct (Hparts s1 H1) as (Hh1 & Hm1 & Hc1), (Hparts s2 H2) as (Hh2 & Hm2 & Hc2).
  unfold StudySession.formatTime. split.
  - rewrite !string_length_app, !padStart2_length by assumption. reflexivity.
  - intros Heq.
    apply string_app_split in Heq as [Hh Heq]; [|by rewrite !padStart2_length].
    apply string_app_split in Heq as [_ Heq]; [|reflexivity].
    apply string_app_split in Heq as [Hm Heq]; [|by rewrite !padStart2_length].
    apply string_app_split in Heq as [_ Hc]; [|reflexivity].
    apply padStart2_inj in Hh, Hm, Hc; try assumption.
    pose proof (N.div_mod s1 3600 ltac:(lia)) as E1.
    pose proof (N.div_mod s2 3600 ltac:(lia)) as E2.
    pose proof (N.div_mod (s1 mod 3600) 60 ltac:(lia)) as F1.
    pose proof (N.div_mod (s2 mod 3600) 60 ltac:(lia)) as F2.
    assert (G : forall s, ((s mod 3600) mod 60 = s mod 60)%N).
    { intros s. change 3600%N with (60 * 60)%N. rewrite N.Div0.mod_mul_r.
      rewrite (N.mul_comm 60), N.Div0.mod_add. apply N.Div0.mod_mod. }
    pose proof (G s1). pose proof (G s2). lia.
Qed.

Lemma formatTime_witness :
  StudySession.formatTime 3725 = "01:02:05"
  /\ String.length (StudySession.formatTime 3725) = 8%nat
  /\ (StudySession.formatTime 3725 = StudySession.formatTime 3726 -> 3725 = 3726)%N.
Proof.
  split; [reflexivity|]. apply (formatTime_is_faithful 3725 3726); lia.
Defined.

Lemma or_number_cases (x d : Q) :
  (x == 0 /\ StudySession.or_number x d = d)%Q
  \/ (~ (x == 0)%Q /\ StudySession.or_number x d = x).
Proof.
  unfold StudySession.or_number. destruct (Qeq_bool x 0) eqn:Hz.
  - left. split; [by apply Qeq_bool_eq|reflexivity].
  - right. split; [|reflexivity]. intros Heq. apply Qeq_eq_bool in Heq. congruence.
Qed.

(** The page's gauges after a frame.  The eye-strain gauge is always
    within [0,100], whatever the frame says; a frame that reports zero for a
    value is read as reporting nothing: eye strain keeps its previous level,
    posture shows 85 and attention 90.  The attention gauge is the frame's
    attention times 100 and is not clamped, so a frame of the live service,
    whose attention runs from 0 to 100, shows more than 100 percent. *)
Theorem page_gauges_after_frame (eye_strain posture attention : Q)
    (g : StudySession.Gauges) :
  let g' := StudySession.onFrame eye_strain posture attention g in
  (0 <= StudySession.eyeStrainLevel g' <= 100)%Q
  /\ ((eye_strain == 0)%Q ->
      StudySession.eyeStrainLevel g' = Qmin 100 (Qmax 0 (StudySession.eyeStrainLevel g)))
  /\ ((posture == 0)%Q -> StudySession.postureScore g' = 85%Q)
  /\ ((attention == 0)%Q -> StudySession.attentionLevel g' = 90%Q)
  /\ ((1 < attention)%Q -> (100 < StudySession.attentionLevel g')%Q).
Proof.
  intros g'. subst g'. unfold StudySession.onFrame.
  cbn [StudySession.eyeStrainLevel StudySession.postureScore StudySession.attentionLevel].
  split; [|split; [|split; [|split]]].
  - split.
    + apply Q.min_glb; [discriminate | apply Q.le_max_l].
    + apply Q.le_min_l.
  - intros Hz. destruct (or_number_cases eye_strain (StudySession.eyeStrainLevel g))
      as [[_ ->]|[Hn _]]; [reflexivity | contradiction].
  - intros Hz. destruct (or_number_cases posture 85) as [[_ ->]|[Hn _]];
      [reflexivity | contradiction].
  - intros Hz. destruct (or_number_cases (attention * 100) 90) as [[_ ->]|[Hn _]];
      [reflexivity|]. exfalso. apply Hn. rewrite Hz. reflexivity.
  - intros Hbig. destruct (or_number_cases (attention * 100) 90) as [[Hz _]|[_ ->]]; lra.
Qed.

Lemma page_gauges_witness :
  let g' := StudySession.onFrame 0 0 75 StudySession.gauges0 in
  StudySession.attentionLevel g' = 7500%Q
  /\ (0 <= StudySession.eyeStrainLevel g' <= 100)%Q
  /\ ((0 == 0)%Q ->
      StudySession.eyeStrainLevel g'
      = Qmin 100 (Qmax 0 (StudySession.eyeStrainLevel StudySession.gauges0)))
  /\ ((0 == 0)%Q -> StudySession.postureScore g' = 85%Q)
  /\ ((75 == 0)%Q -> StudySession.attentionLevel g' = 90%Q)
  /\ ((1 < 75)%Q -> (100 < StudySession.attentionLevel g')%Q).
Proof.
  split; [reflexivity|]. apply (page_gauges_after_frame 0 0 75 StudySession.gauges0).
Defined.

Section PagePause.
Variable throws : Oracle.
Variable stored_token : option string.

(** The pause button.  Each press flips the page's paused flag, whether or
    not anything could be sent: with a session id and a connected service,
    two presses send [pause_tracking] then [resume_tracking]; without a
    connection, or without a session id, they send nothing and the flag
    flips all the same.  The service's state is never changed. *)
Theorem page_pause_button (svc : Real.State) (sessionId : option string) :
  let p1 := StudySession.press throws stored_token false sessionId svc in
  let p2 := StudySession.press throws stored_token p1.1.1 sessionId p1.1.2 in
  p1.1.1 = true
  /\ p2.1.1 = false
  /\ p1.1.2 = svc /\ p2.1.2 = svc
  /\ commands (p1.2 ++ p2.2)
     = (if negb (Real.socket svc) || negb (Real.isConnected svc) then []
        else match sessionId with
             | Some _ => [pause_tracking; resume_tracking]
             | None => []
             end)
  /\ published (p1.2 ++ p2.2) = [].
Proof.
  unfold StudySession.press, StudySession.handlePauseResume, Provider.call.
  destruct sessionId as [sid|]; cbn [fmap option_fmap option_map fst snd Real.step];
    unfold Real.pauseTracking, Real.resumeTracking, Real.command;
    destruct (negb (Real.socket svc) || negb (Real.isConnected svc)) eqn:Hdown;
    cbn [fst snd Real.step]; unfold Real.resumeTracking, Real.command; rewrite ?Hdown;
    cbn [fst snd]; by repeat split.
Qed.

End PagePause.

Lemma page_pause_button_witness :
  let svc := (Real.step quiet None (Real.new quiet true).1 Real.SockConnect).1 in
  let p1 := StudySession.press quiet None false (Some "s1") svc in
  let p2 := StudySession.press quiet None p1.1.1 (Some "s1") p1.1.2 in
  commands (p1.2 ++ p2.2) = [pause_tracking; resume_tracking]
  /\ p1.1.1 = true
  /\ p2.1.1 = false
  /\ p1.1.2 = svc /\ p2.1.2 = svc
  /\ commands (p1.2 ++ p2.2)
     = (if negb (Real.socket svc) || negb (Real.isConnected svc) then []
        else [pause_tracking; resume_tracking])
  /\ published (p1.2 ++ p2.2) = [].
Proof.
  split; [reflexivity|].
  apply (page_pause_button quiet None
           (Real.step quiet None (Real.new quiet true).1 Real.SockConnect).1 (Some "s1")).
Defined.

(** ** More on the two services *)

Lemma ws_call_all_throws throws event data l cb :
  cb ∈ l -> throws event cb data = true ->
  (WS.call_all throws event data l).1 = WS.Threw.
Proof.
  induction l as [|c r IH]; intros Hin Hthrow; [by apply elem_of_nil in Hin|].
  cbn [WS.call_all]. destruct (throws event c data) eqn:Hc; [reflexivity|].
  apply elem_of_cons in Hin as [->|Hin]; [congruence|].
  specialize (IH Hin Hthrow). by destruct (WS.call_all throws event data r).
Qed.

(** In [WebSocketService] one throwing subscriber of [connection_error]
    stops reconnection: the handler is left before [handleReconnection], so
    a failed attempt arms no timer and does not count, and the service never
    tries again on its own. *)
Theorem ws_throwing_listener_stops_reconnection
    (throws : Oracle) (st : WS.State) (message : string) (cb : Callback) :
  cb ∈ registered (WS.listeners st) "connection_error" ->
  throws "connection_error" cb (PConnectionError message) = true ->
  let r := WS.step throws st (WS.SockConnectError message) in
  r.1.2 = WS.Threw
  /\ timeouts r.2 = []
  /\ WS.reconnectAttempts r.1.1 = WS.reconnectAttempts st.
Proof.
  intros Hin Hthrow r. subst r.
  cbn [WS.step]. unfold WS.logging, WS.emitting. cbn [WS.and_then].
  destruct (ws_mark_fields false st) as (Hl & Ha & _ & _ & _).
  pose proof (ws_emit_timeouts throws (WS.mark false st) "connection_error"
                (PConnectionError message)) as Ht.
  assert (Ho : (WS.emit throws (WS.mark false st) "connection_error"
                  (PConnectionError message)).1 = WS.Threw).
  { unfold WS.emit. unfold registered in Hin. rewrite Hl.
    destruct (WS.listeners st !! "connection_error") as [l|];
      [|by apply elem_of_nil in Hin].
    pose proof (ws_call_all_throws throws "connection_error" (PConnectionError message)
                  l cb Hin Hthrow) as Hc.
    by destruct (WS.call_all throws "connection_error" (PConnectionError message) l). }
  destruct (WS.emit throws (WS.mark false st) "connection_error"
              (PConnectionError message)) as [o tr].
  cbn [fst snd] in Ho, Ht. subst o. cbn [WS.and_then fst snd].
  rewrite timeouts_app, Ht. by repeat split.
Qed.

Lemma ws_throwing_listener_stops_witness :
  let st := WS.on (WS.on WS.new.1 "connection_error" 2%nat) "connection_error" 1%nat in
  let r := WS.step first_throws st (WS.SockConnectError "timeout") in
  r.1.2 = WS.Threw
  /\ timeouts r.2 = []
  /\ WS.reconnectAttempts r.1.1 = WS.reconnectAttempts st.
Proof.
  apply (ws_throwing_listener_stops_reconnection first_throws
           (WS.on (WS.on WS.new.1 "connection_error" 2%nat) "connection_error" 1%nat)
           "timeout" 1%nat).
  - vm_compute. right. left.
  - reflexivity.
Defined.

(** The alerts of a frame on the live path: at most three, in the order
    low attention, distraction, eye strain, each carrying the frame's own
    time stamp and no id; the distraction alert names the distraction. *)
Theorem real_alerts_of_a_frame (throws : Oracle) (st : Real.State) (d : TrackingData) :
  let l := alerts (Real.on_tracking_data throws st d) in
  (length l <= 3)%nat
  /\ sublist (map a_type l) [low_attention; distraction; eye_strain]
  /\ Forall (fun a => a_timestamp a = StampWire (timestamp d) /\ a_id a = None) l
  /\ (forall a, a ∈ l -> a_type a = distraction ->
        a_message a = ("Distraction detected: " ++ distraction_type d)%string).
Proof.
  intros l. subst l. rewrite real_frame_alerts.
  destruct (Qlt_le_dec (attention_score d) 60), (decide (distraction_type d = "none")),
    (Qlt_le_dec 20 (eye_strain_level d)); cbn [app length map].
  all: split; [lia|].
  all: split; [repeat first [apply sublist_nil_l | apply sublist_skip | apply sublist_cons]|].
  all: split; [repeat constructor|].
  all: intros a Ha Hty;
    repeat (apply elem_of_cons in Ha as [->|Ha]; [try discriminate Hty; try reflexivity|]);
    by apply elem_of_nil in Ha.
Qed.

(** On real inputs the generator never publishes an alert: with [Math.sin]
    in [-1,1] and [Math.random] in [0,1), attention stays at 0.5 or above,
    eye strain at 27.5 or below and posture at 72.5 or above, so none of
    its three tests holds on any tick, whatever the run. *)
Theorem generator_never_alerts_on_real_inputs
    (throws : Oracle) (Msin : Q -> Q) (st : Mock.State) (tk : Tick) (h : nat) :
  (forall x, (-1 <= Msin x <= 1)%Q) ->
  (forall k, (0 <= random tk k < 1)%Q) ->
  alerts (Mock.step throws Msin st (Mock.IntervalFires h tk)).2 = []
  /\ (0.5 <= m_attention_score (Mock.mock_frame Msin tk))%Q
  /\ (m_eye_strain_level (Mock.mock_frame Msin tk) <= 27.5)%Q
  /\ (72.5 <= m_posture_score (Mock.mock_frame Msin tk))%Q.
Proof.
  intros Hsin Hrand. split.
  - cbn [Mock.step]. destruct (decide (h ∈ Mock.live st)); [|reflexivity].
    by apply mock_never_alerts.
  - unfold Mock.mock_frame.
    cbn [m_attention_score m_eye_strain_level m_posture_score].
    pose proof (Hsin (inject_Z (clock tk 0) / 20000)%Q) as [Ha1 Ha2].
    pose proof (Hsin (inject_Z (clock tk 0) / 30000)%Q) as [He1 He2].
    pose proof (Hsin (inject_Z (clock tk 0) / 25000)%Q) as [Hp1 Hp2].
    pose proof (Hrand 0%nat) as [? ?]. pose proof (Hrand 1%nat) as [? ?].
    pose proof (Hrand 2%nat) as [? ?].
    split; [|split].
    + apply clamp_at_least; [discriminate|]. apply Qle_shift_div_l; [reflexivity|]. lra.
    + apply clamp_at_most; [discriminate|]. lra.
    + apply clamp_at_least; [discriminate|]. lra.
Qed.

Lemma generator_never_alerts_witness :
  let zero : Q -> Q := fun _ => 0%Q in
  let tk := {| clock := fun _ => 1000; random := fun _ => 0.5%Q |} in
  let st := (Mock.startTracking quiet Mock.fresh "s1" "tok").1 in
  alerts (Mock.step quiet zero st (Mock.IntervalFires 1%nat tk)).2 = []
  /\ (0.5 <= m_attention_score (Mock.mock_frame zero tk))%Q
  /\ (m_eye_strain_level (Mock.mock_frame zero tk) <= 27.5)%Q
  /\ (72.5 <= m_posture_score (Mock.mock_frame zero tk))%Q.
Proof.
  apply (generator_never_alerts_on_real_inputs quiet (fun _ => 0%Q)
           (Mock.startTracking quiet Mock.fresh "s1" "tok").1
           {| clock := fun _ => 1000; random := fun _ => 0.5%Q |} 1%nat).
  - intros x. split; discriminate.
  - intros k. cbn [random]. split; [discriminate | reflexivity].
Defined.
